(** * CarbonOcean: the spreadsheet normalisation engine of [data_processor.py]

    A shallow embedding of class [DataProcessor]: sheet selection, layout
    classification, the wide and agency-report transformers, the column
    mapper, the field cleaners, the validator, the summaries and the trend
    table, followed by the properties the specification states about them
    and by further properties of the code.

    Conventions of the embedding.
    - Python text is a [string] with one [ascii] per code point, so the
      alphabet is the code points 0..255.
    - A spreadsheet cell is a Python object: text, integer, binary64 float
      (NaN is the missing value) or [None]. Dates and booleans are left out.
    - binary64 numbers are [spec_float] values with precision 53 and maximal
      exponent 1024, with the operations of the standard library. The values
      [pd.to_numeric] returns are held as floats, also where pandas keeps an
      all-integer column as int64.
    - Conversions between decimal text and binary64 belong to the Python and
      pandas runtime, and so does what [astype(str)] makes of a missing
      value; they are the fields of [Runtime] and nothing is assumed about
      them.
    - Code that may raise lives in the [result] monad. What pandas raises is
      one exception, [PandasError]; the two errors of the validator are kept
      apart.
    - A frame is its list of column labels and its rows. Selecting a column
      by a label that two columns carry gives pandas a frame where the
      cleaners expect a Series, and each of them then raises:
      [series_position] is that selection.
    - The year a digit string spells is an unbounded integer; pandas agrees
      within int64.
    - [st.warning] only displays; [_validate_data] is modelled without it,
      and the warnings it shows for a table are [validation_warnings]. *)

From Stdlib Require Import ZArith Bool Lia Ascii String List.
From Stdlib Require Import Sorting.Sorted Floats.SpecFloat.
Import ListNotations.

Local Open Scope string_scope.
Local Open Scope list_scope.
Local Open Scope Z_scope.

(* ===================================================================== *)
(** * Python text *)
(* ===================================================================== *)

Module PyStr.

Definition ord (c : ascii) : Z := Z.of_nat (nat_of_ascii c).

Definition between (lo hi : Z) (c : ascii) : bool :=
  (lo <=? ord c) && (ord c <=? hi).

(** [str.isspace] on one code point below 256; the regular expression
    class [\s] of [re] agrees with it on text patterns. *)
Definition isspace (c : ascii) : bool :=
  between 9 13 c || between 28 32 c || (ord c =? 133) || (ord c =? 160).

(** The class [[0-9]], which is also [\d] below code point 256. *)
Definition isdigit (c : ascii) : bool := between 48 57 c.

Definition digit_value (c : ascii) : Z := ord c - 48.

Definition chr (n : Z) : ascii := ascii_of_nat (Z.to_nat n).

(** [str.lower] on one code point: A-Z and the Latin-1 capitals. *)
Definition lower_char (c : ascii) : ascii :=
  if between 65 90 c then chr (ord c + 32)
  else if between 192 222 c && negb (ord c =? 215) then chr (ord c + 32)
  else c.

(** [str.upper] restricted to what the code observes of it: the letters
    a-z. No other code point below 256 has an upper case containing ["M"]
    or a digit, the only things [_parse_time_period] looks for. *)
Definition upper_char (c : ascii) : ascii :=
  if between 97 122 c then chr (ord c - 32) else c.

Fixpoint smap (f : ascii -> ascii) (s : string) : string :=
  match s with
  | EmptyString => EmptyString
  | String c t => String (f c) (smap f t)
  end.

Definition lower : string -> string := smap lower_char.
Definition upper : string -> string := smap upper_char.

Fixpoint sfilter (p : ascii -> bool) (s : string) : string :=
  match s with
  | EmptyString => EmptyString
  | String c t => if p c then String c (sfilter p t) else sfilter p t
  end.

(** Removes the longest prefix of characters satisfying [p]. *)
Fixpoint drop_while (p : ascii -> bool) (s : string) : string :=
  match s with
  | EmptyString => EmptyString
  | String c t => if p c then drop_while p t else s
  end.

Definition lstrip : string -> string := drop_while isspace.

Fixpoint rstrip (s : string) : string :=
  match s with
  | EmptyString => EmptyString
  | String c t =>
      match rstrip t with
      | EmptyString => if isspace c then EmptyString else String c EmptyString
      | t' => String c t'
      end
  end.

(** [str.strip()] *)
Definition strip (s : string) : string := rstrip (lstrip s).

(** [sub in s] *)
Fixpoint contains (sub s : string) : bool :=
  String.prefix sub s ||
  match s with
  | EmptyString => false
  | String _ t => contains sub t
  end.

(** [s.split(sep)[0]] for a one-character separator. *)
Fixpoint before (sep : ascii) (s : string) : string :=
  match s with
  | EmptyString => EmptyString
  | String c t => if Ascii.eqb c sep then EmptyString else String c (before sep t)
  end.

(** [re.sub(r'[^0-9]', '', s)] *)
Definition digits_only : string -> string := sfilter isdigit.

(** Value of a string of decimal digits, most significant first. *)
Fixpoint digits_value (acc : Z) (s : string) : Z :=
  match s with
  | EmptyString => acc
  | String c t => digits_value (10 * acc + digit_value c) t
  end.

(** Does [s] start with four digits? *)
Definition four_digits_here (s : string) : bool :=
  match s with
  | String a (String b (String c (String d _))) =>
      isdigit a && isdigit b && isdigit c && isdigit d
  | _ => false
  end.

(** [re.search(r'(\d{4})', s)]: the leftmost run of four digits. *)
Fixpoint search_d4 (s : string) : option string :=
  match s with
  | EmptyString => None
  | String _ t =>
      if four_digits_here s then Some (String.substring 0 4 s)
      else search_d4 t
  end.

(** Digits of [int(text)] after the sign: digits, single underscores
    allowed between two digits. *)
Fixpoint int_body (prev_digit : bool) (acc : Z) (s : string) : option Z :=
  match s with
  | EmptyString => if prev_digit then Some acc else None
  | String c t =>
      if isdigit c then int_body true (10 * acc + digit_value c) t
      else if Ascii.eqb c "_" && prev_digit then
        match t with
        | EmptyString => None
        | _ => int_body false acc t
        end
      else None
  end.

(** [int(s)] for text [s]; [None] is [ValueError]. *)
Definition int_of_str (s : string) : option Z :=
  match strip s with
  | String "+" t => int_body false 0 t
  | String "-" t => option_map Z.opp (int_body false 0 t)
  | t => int_body false 0 t
  end.

Fixpoint nat_digits (fuel : nat) (n : Z) (acc : string) : string :=
  match fuel with
  | O => acc
  | S k =>
      let acc' := String (chr (48 + n mod 10)) acc in
      if n <? 10 then acc' else nat_digits k (n / 10) acc'
  end.

(** [str(z)] for an integer. *)
Definition str_of_int (z : Z) : string :=
  let body := nat_digits (S (Z.to_nat (Z.log2 (Z.abs z)))) (Z.abs z) "" in
  if z <? 0 then String "-" body else body.

End PyStr.

(* ===================================================================== *)
(** * binary64 numbers *)
(* ===================================================================== *)

Module F64.

Definition prec : Z := 53.
Definition emax : Z := 1024.

Definition nan : spec_float := S754_nan.
Definition zero : spec_float := S754_zero false.

(** The float nearest to an integer (ties to even), as [float(n)] and the
    int64 to float64 cast compute it. *)
Definition of_Z (z : Z) : spec_float := binary_normalize prec emax z 0 false.

Definition sub : spec_float -> spec_float -> spec_float := SFsub prec emax.
Definition div : spec_float -> spec_float -> spec_float := SFdiv prec emax.
Definition mul : spec_float -> spec_float -> spec_float := SFmul prec emax.

Definition isnan (f : spec_float) : bool :=
  match f with S754_nan => true | _ => false end.

Definition is_finite (f : spec_float) : bool :=
  match f with S754_zero _ | S754_finite _ _ _ => true | _ => false end.

(** Both signed zeros. *)
Definition is_zero (f : spec_float) : bool :=
  match f with S754_zero _ => true | _ => false end.

(** [int(f)]: truncation toward zero; [None] for NaN and the infinities. *)
Definition trunc (f : spec_float) : option Z :=
  match f with
  | S754_zero _ => Some 0
  | S754_finite s m e =>
      let v := Z.shiftl (Zpos m) e in Some (if s then - v else v)
  | _ => None
  end.

End F64.

(* ===================================================================== *)
(** * Cells, the runtime, exceptions *)
(* ===================================================================== *)

(** A cell of a sheet, or a column label: a Python object. Integers are
    those a sheet can hold (within int64). *)
Inductive cell : Type :=
| CStr (s : string)
| CInt (z : Z)
| CFloat (f : spec_float)
| CNone.

(** What Python and pandas supply.
    - [float_repr f] is [repr(f)] for a finite non-zero float;
    - [float_of_str s] is [float(s)], [None] when it raises [ValueError];
    - [to_numeric_str s] is [pd.to_numeric(s, errors='coerce')], NaN when the
      text is not a number;
    - [astype_str_keeps_na] tells what [Series.astype(str)] does to a
      missing value: pandas 3 keeps it missing ([true]), pandas 2 stores
      the text of the object, ['nan'] for NaN ([false]). *)
Record Runtime : Type := {
  float_repr : spec_float -> string;
  float_of_str : string -> option spec_float;
  to_numeric_str : string -> spec_float;
  astype_str_keeps_na : bool
}.

Inductive exn : Type :=
| ValueError_missing (missing_columns : list string) (available_columns : list cell)
    (* "Missing required columns: ... Available columns: ..." *)
| ValueError_empty
    (* "No valid data rows found after cleaning." *)
| PandasError
    (* any exception raised by pandas or a builtin *)
| ProcessingError (e : exn).
    (* Exception(f"Error processing file: {str(e)}") *)

Inductive result (A : Type) : Type :=
| Ok (a : A)
| Raise (e : exn).

Arguments Ok {A} a.
Arguments Raise {A} e.

Definition bind {A B : Type} (m : result A) (k : A -> result B) : result B :=
  match m with
  | Ok a => k a
  | Raise e => Raise e
  end.

Notation "x <- m ;; k" := (bind m (fun x => k))
  (at level 61, m at next level, right associativity).

(** [try: body except Exception: handler] *)
Definition try_except {A : Type} (body : result A) (handler : A) : A :=
  match body with
  | Ok a => a
  | Raise _ => handler
  end.

Section Objects.

Variable rt : Runtime.

(** [pd.isna] *)
Definition is_null (c : cell) : bool :=
  match c with
  | CNone => true
  | CFloat f => F64.isnan f
  | _ => false
  end.

Definition notna (c : cell) : bool := negb (is_null c).

Definition str_of_float (f : spec_float) : string :=
  match f with
  | S754_nan => "nan"
  | S754_infinity false => "inf"
  | S754_infinity true => "-inf"
  | S754_zero false => "0.0"
  | S754_zero true => "-0.0"
  | S754_finite _ _ _ => float_repr rt f
  end.

(** [str(c)], also what [astype(str)] stores. *)
Definition py_str (c : cell) : string :=
  match c with
  | CStr s => s
  | CInt z => PyStr.str_of_int z
  | CFloat f => str_of_float f
  | CNone => "None"
  end.

(** [int(c)]; [None] when it raises. *)
Definition py_int (c : cell) : option Z :=
  match c with
  | CStr s => PyStr.int_of_str s
  | CInt z => Some z
  | CFloat f => F64.trunc f
  | CNone => None
  end.

(** [float(c)]; [None] when it raises [ValueError] or [TypeError]. *)
Definition py_float (c : cell) : option spec_float :=
  match c with
  | CStr s => float_of_str rt s
  | CInt z => Some (F64.of_Z z)
  | CFloat f => Some f
  | CNone => None
  end.

(** One element of [pd.to_numeric(column, errors='coerce')], as a float. *)
Definition to_numeric (c : cell) : spec_float :=
  match c with
  | CStr s => to_numeric_str rt s
  | CInt z => F64.of_Z z
  | CFloat f => f
  | CNone => F64.nan
  end.

End Objects.

(* ===================================================================== *)
(** * Data frames *)
(* ===================================================================== *)

(** Column labels and the rows below them. Labels are pairwise distinct in
    a frame read from a workbook; a row has one cell per column. *)
Record DataFrame : Type := {
  columns : list cell;
  rows : list (list cell)
}.

Definition cell_at (j : nat) (r : list cell) : cell := nth j r (CFloat F64.nan).

Definition label_is (name : string) (l : cell) : bool :=
  match l with
  | CStr s => String.eqb s name
  | _ => false
  end.

(** [name in df.columns] *)
Definition has_column (name : string) (df : DataFrame) : bool :=
  existsb (label_is name) (columns df).

Fixpoint positions_from (i : nat) (name : string) (cols : list cell) : list nat :=
  match cols with
  | [] => []
  | l :: t =>
      if label_is name l then i :: positions_from (S i) name t
      else positions_from (S i) name t
  end.

(** [df[name]] as a Series: with a repeated label pandas hands back a frame,
    and every use the cleaners make of it then raises. *)
Definition series_position (name : string) (df : DataFrame) : result nat :=
  match positions_from 0 name (columns df) with
  | [j] => Ok j
  | _ => Raise PandasError
  end.

(** A row shorter than the header reads as padded with missing values, in
    [cell_at] as in [map_at]. *)
Fixpoint map_at (j : nat) (f : cell -> cell) (r : list cell) : list cell :=
  match j, r with
  | O, [] => [f (CFloat F64.nan)]
  | O, c :: t => f c :: t
  | S k, [] => CFloat F64.nan :: map_at k f []
  | S k, c :: t => c :: map_at k f t
  end.

(** [df[col] = df[col].map(f)] by position. *)
Definition map_col (j : nat) (f : cell -> cell) (df : DataFrame) : DataFrame :=
  {| columns := columns df; rows := map (map_at j f) (rows df) |}.

(** [df = df[p(df[col])]] by position. *)
Definition filter_col (j : nat) (p : cell -> bool) (df : DataFrame) : DataFrame :=
  {| columns := columns df; rows := filter (fun r => p (cell_at j r)) (rows df) |}.

(** [df.dropna(how='all')] *)
Definition dropna_rows_all (df : DataFrame) : DataFrame :=
  {| columns := columns df;
     rows := filter (fun r => negb (forallb is_null r)) (rows df) |}.

Fixpoint select {A : Type} (mask : list bool) (l : list A) : list A :=
  match mask, l with
  | b :: m, x :: t => if b then x :: select m t else select m t
  | _, _ => []
  end.

(** [df.dropna(axis=1, how='all')]: a column stays when some row holds a
    value in it. *)
Definition dropna_columns_all (df : DataFrame) : DataFrame :=
  let mask :=
    map (fun j => existsb (fun r => notna (cell_at j r)) (rows df))
        (seq 0 (length (columns df))) in
  {| columns := select mask (columns df);
     rows := map (select mask) (rows df) |}.

(** ** Sorting *)

Definition cell_compare (a b : cell) : comparison :=
  match a, b with
  | CStr s, CStr t => String.compare s t
  | CInt x, CInt y => Z.compare x y
  | _, _ => Eq
  end.

(** Lexicographic order on the key columns. *)
Fixpoint rows_leb (keys : list nat) (r1 r2 : list cell) : bool :=
  match keys with
  | [] => true
  | j :: ks =>
      match cell_compare (cell_at j r1) (cell_at j r2) with
      | Lt => true
      | Gt => false
      | Eq => rows_leb ks r1 r2
      end
  end.

Section Sort.

Variable A : Type.
Variable leb : A -> A -> bool.

Fixpoint insert (x : A) (l : list A) : list A :=
  match l with
  | [] => [x]
  | y :: t => if leb x y then x :: l else y :: insert x t
  end.

(** A stable ascending sort. *)
Fixpoint sort (l : list A) : list A :=
  match l with
  | [] => []
  | x :: t => insert x (sort t)
  end.

End Sort.

Arguments insert {A} leb x l.
Arguments sort {A} leb l.

(** [df.sort_values(keys)] on key columns holding text or integers. *)
Definition sort_values (keys : list nat) (df : DataFrame) : DataFrame :=
  {| columns := columns df; rows := sort (rows_leb keys) (rows df) |}.

(* ===================================================================== *)
(** * class DataProcessor *)
(* ===================================================================== *)

Definition required_columns : list string := ["Country"; "Year"; "Emissions"].

(** [self.column_mappings] *)
Definition country_synonyms : list string :=
  ["Country"; "COUNTRY"; "Countries"; "COUNTRIES"; "Country Name"; "Region";
   "REGION"; "Location"; "LOCATION"; "Reference area"; "REFERENCE_AREA";
   "REF_AREA"; "Reference Area"].

Definition year_synonyms : list string :=
  ["Year"; "YEAR"; "Time"; "TIME"; "Period"; "Date"; "TIME_PERIOD";
   "Time period"; "TIME_PERIOD"; "Time Period"; "TIME PERIOD"].

Definition emissions_synonyms : list string :=
  ["Emissions"; "EMISSIONS"; "CO2"; "CO2_EMISSIONS"; "Value"; "VALUE";
   "Tonnes"; "Mt CO2"; "CO2 Emissions"; "Carbon Emissions"; "Emission";
   "OBS_VALUE"; "Obs Value"; "Observation Value"].

(** [series != text] on a column of text. *)
Definition text_ne (s : string) (c : cell) : bool :=
  match c with
  | CStr t => negb (String.eqb t s)
  | _ => true
  end.

Definition is_int (c : cell) : bool :=
  match c with CInt _ => true | _ => false end.

Definition is_some {A : Type} (o : option A) : bool :=
  match o with Some _ => true | None => false end.

Definition spec_float_eqb (f g : spec_float) : bool :=
  match f, g with
  | S754_zero s, S754_zero s' => Bool.eqb s s'
  | S754_infinity s, S754_infinity s' => Bool.eqb s s'
  | S754_nan, S754_nan => true
  | S754_finite s m e, S754_finite s' m' e' =>
      Bool.eqb s s' && Pos.eqb m m' && Z.eqb e e'
  | _, _ => false
  end.

(** Identity of labels, as the key lookup of [rename] sees it. *)
Definition label_eqb (a b : cell) : bool :=
  match a, b with
  | CStr s, CStr t => String.eqb s t
  | CInt x, CInt y => Z.eqb x y
  | CFloat f, CFloat g => spec_float_eqb f g
  | CNone, CNone => true
  | _, _ => false
  end.

(** [df.rename(columns={old: new})] *)
Definition rename (old : cell) (new : string) (df : DataFrame) : DataFrame :=
  {| columns := map (fun l => if label_eqb l old then CStr new else l) (columns df);
     rows := rows df |}.

Definition int_cell (c : cell) : cell :=
  match py_int c with Some z => CInt z | None => c end.

(** [df[col].astype(int)] on a column of arbitrary objects. *)
Definition astype_int (j : nat) (df : DataFrame) : result DataFrame :=
  if forallb (fun r => is_some (py_int (cell_at j r))) (rows df)
  then Ok (map_col j int_cell df)
  else Raise PandasError.

(** [pd.api.types.is_integer_dtype] of the column at [j], read off the
    cells: pandas holds a column of integers alone as int64. A column of
    another dtype from which every cell that is not an integer was
    dropped keeps its dtype in pandas and is parsed again. *)
Definition is_integer_dtype (j : nat) (df : DataFrame) : bool :=
  forallb (fun r => is_int (cell_at j r)) (rows df).

Fixpoint find_index {A : Type} (p : A -> bool) (i : nat) (l : list A) : option nat :=
  match l with
  | [] => None
  | x :: t => if p x then Some i else find_index p (S i) t
  end.

(** What [Series.apply] stores for results that are integers or [None]:
    int64 when all are integers, objects when all are [None], float64 with
    NaN otherwise. *)
Definition infer_year_cells (ys : list (option Z)) : list cell :=
  if forallb is_some ys then
    map (fun y => match y with Some z => CInt z | None => CNone end) ys
  else if forallb (fun y => negb (is_some y)) ys then
    map (fun _ => CNone) ys
  else
    map (fun y => match y with
                  | Some z => CFloat (F64.of_Z z)
                  | None => CFloat F64.nan
                  end) ys.

(** [_extract_year_from_time_period] on the text of a period label. *)
Definition _extract_year_from_time_period (time_str : string) : option Z :=
  match PyStr.search_d4 time_str with
  | Some group =>
      let year := PyStr.digits_value 0 group in
      if (1900 <=? year) && (year <=? 2030) then Some year else None
  | None => None
  end.

(** [pd.to_numeric(text, errors='coerce')] on text made of digits only:
    the integer it spells, NaN for the empty text. pandas returns an int64
    below 2^63; the embedding keeps the integer beyond that as well, where
    pandas returns a uint64 or a float. *)
Definition to_numeric_digits (s : string) : option Z :=
  if String.eqb s "" then None else Some (PyStr.digits_value 0 s).

Section DataProcessor.

Variable rt : Runtime.

(** ** Layout classification *)

Definition is_year_label (col : cell) : bool :=
  match py_int col with
  | Some year => (2000 <=? year) && (year <=? 2030)
  | None => false
  end.

Definition _is_wide_format_with_years (df : DataFrame) : bool :=
  if (length (columns df) <? 3)%nat then false
  else (2 <=? length (filter is_year_label (tl (columns df))))%nat.

(** The year columns among [cols], with their positions counted from [i]. *)
Fixpoint year_cols_from (i : nat) (cols : list cell) : list (nat * cell) :=
  match cols with
  | [] => []
  | col :: t =>
      if is_year_label col then (i, col) :: year_cols_from (S i) t
      else year_cols_from (S i) t
  end.

(** [pd.melt(df, id_vars=[columns[0]], value_vars=..., var_name='Year',
    value_name='Emissions')]: one block of rows per value column, in
    column order. pandas (2.0 and later) refuses a frame that already has
    a column of the value name. *)
Definition melted_rows (df : DataFrame) (value_vars : list (nat * cell))
  : list (list cell) :=
  flat_map (fun jl => map (fun r => [cell_at 0 r; snd jl; cell_at (fst jl) r]) (rows df))
           value_vars.

Definition melt (df : DataFrame) (id_var : cell) (value_vars : list (nat * cell))
  : result DataFrame :=
  if has_column "Emissions" df then Raise PandasError
  else
    Ok {| columns := [id_var; CStr "Year"; CStr "Emissions"];
          rows := melted_rows df value_vars |}.

(** One element of [column.astype(str).str.strip()]: a missing value that
    [astype(str)] keeps stays missing through [.str.strip()]. *)
Definition clean_text (c : cell) : cell :=
  if is_null c && astype_str_keeps_na rt then CFloat F64.nan
  else CStr (PyStr.strip (py_str rt c)).

Definition float_cell (c : cell) : cell := CFloat (to_numeric rt c).

(** [year_cols], each with the position of its column. *)
Definition year_columns (df : DataFrame) : list (nat * cell) :=
  year_cols_from 1 (tl (columns df)).

Definition _transform_wide_to_long (df : DataFrame) : result DataFrame :=
  match columns df with
  | [] => Raise PandasError
  | country_col :: rest =>
      match year_cols_from 1 rest with
      | [] => Ok df
      | year_cols =>
          long_df <- melt df country_col year_cols ;;
          let long_df := rename country_col "Country" long_df in
          jy <- series_position "Year" long_df ;;
          long_df <- astype_int jy long_df ;;
          je <- series_position "Emissions" long_df ;;
          let long_df := map_col je float_cell long_df in
          let long_df := filter_col je notna long_df in
          jc <- series_position "Country" long_df ;;
          let long_df := map_col jc clean_text long_df in
          let long_df := filter_col jc (text_ne "nan") long_df in
          let long_df := filter_col jc (text_ne "") long_df in
          Ok long_df
      end
  end.

(** The rows [_transform_wide_to_long] returns when nothing raises: the
    melted rows after each of its steps. *)
Definition long_rows (df : DataFrame) : list (list cell) :=
  filter (fun r => text_ne "" (cell_at 0 r))
    (filter (fun r => text_ne "nan" (cell_at 0 r))
       (map (map_at 0 clean_text)
          (filter (fun r => notna (cell_at 2 r))
             (map (map_at 2 float_cell)
                (map (map_at 1 int_cell) (melted_rows df (year_columns df))))))).

(** ** The agency-report transformer *)

Definition dropna_row (r : list cell) : list cell := filter notna r.

Definition mentions_recent_year (v : string) : bool :=
  PyStr.contains "2022" v || PyStr.contains "2021" v ||
  PyStr.contains "2020" v || PyStr.contains "2019" v.

Definition is_time_row (r : list cell) : bool :=
  let row_data := map (py_str rt) (dropna_row r) in
  (5 <? length row_data)%nat && existsb mentions_recent_year row_data.

(** [re.sub] of the leading run of middle dots (code point 183) and
    white space; the figure space of the pattern lies outside the
    alphabet. *)
Definition strip_indent (s : string) : string :=
  PyStr.drop_while (fun c => (PyStr.ord c =? 183) || PyStr.isspace c) s.

(** The records of one data row: (country, period label, emissions). *)
Definition country_records (time_periods : list cell) (r : list cell)
  : list (string * string * spec_float) :=
  let row_data := dropna_row r in
  if (5 <? length row_data)%nat then
    let country := strip_indent (PyStr.strip (py_str rt (hd CNone row_data))) in
    if negb (String.eqb country "") &&
       negb (existsb (String.eqb country) ["nan"; "NaN"; ""]) then
      let values := tl row_data in
      flat_map
        (fun tv =>
           if notna (snd tv) then
             match py_float rt (snd tv) with
             | Some emission_value => [(country, py_str rt (fst tv), emission_value)]
             | None => []
             end
           else [])
        (combine time_periods values)
    else []
  else [].

Definition period_of (rec : string * string * spec_float) : string := snd (fst rec).

Definition oecd_columns : list cell :=
  [CStr "Country"; CStr "Year"; CStr "Emissions"; CStr "Original_Time_Period"].

Definition oecd_row (rec : string * string * spec_float) (year : cell) : list cell :=
  [CStr (fst (fst rec)); year; CFloat (snd rec); CStr (period_of rec)].

Definition time_row_of (df : DataFrame) : option nat :=
  find_index is_time_row 0 (firstn 15 (rows df)).

Definition processed_data_of (df : DataFrame) (time_row : nat)
  : list (string * string * spec_float) :=
  let country_start_row := (time_row + 2)%nat in
  let time_periods := dropna_row (tl (nth time_row (rows df) [])) in
  flat_map (country_records time_periods) (skipn country_start_row (rows df)).

(** [result_df]: the records with the Year column applied to the labels. *)
Definition result_df (processed_data : list (string * string * spec_float))
  : DataFrame :=
  let years :=
    infer_year_cells
      (map (fun rec => _extract_year_from_time_period (period_of rec))
           processed_data) in
  {| columns := oecd_columns;
     rows := map (fun ry => oecd_row (fst ry) (snd ry))
                 (combine processed_data years) |}.

(** Nothing in the body raises, so its [try] never reaches the handler. *)
Definition _parse_oecd_format (df : DataFrame) : DataFrame :=
  match time_row_of df with
  | None => df
  | Some time_row =>
      match processed_data_of df time_row with
      | [] => df
      | processed_data => result_df processed_data
      end
  end.

Definition row_text (r : list cell) : string :=
  String.concat " " (map (py_str rt) (dropna_row r)).

Definition is_indicator_row (r : list cell) : bool :=
  let row_str := PyStr.lower (row_text r) in
  existsb (fun indicator => PyStr.contains indicator row_str)
          ["reference area"; "time period"; "maritime"; "emissions"].

Definition oecd_indicators (df : DataFrame) : list (list cell) :=
  filter is_indicator_row (firstn 20 (rows df)).

(** The body of the [try] of [_handle_oecd_structure]. *)
Definition handle_body (df : DataFrame) : result DataFrame :=
  if _is_wide_format_with_years df then _transform_wide_to_long df
  else if (2 <=? length (oecd_indicators df))%nat then Ok (_parse_oecd_format df)
  else Ok df.

Definition _handle_oecd_structure (df : DataFrame) : DataFrame :=
  try_except (handle_body df) df.

(** ** The column mapper *)

Definition exact_match (synonyms : list string) (col_str : string) : bool :=
  existsb (fun v => String.eqb (PyStr.lower v) (PyStr.lower col_str)) synonyms.

Definition partial_match (synonyms : list string) (col_str : string) : bool :=
  existsb (fun v => PyStr.contains (PyStr.lower v) (PyStr.lower col_str)) synonyms.

(** The entry of [column_mapping] for one label, the label itself when the
    dictionary has none. *)
Definition map_label (col : cell) : cell :=
  let col_str := PyStr.strip (py_str rt col) in
  if exact_match country_synonyms col_str then CStr "Country"
  else if exact_match year_synonyms col_str then CStr "Year"
  else if exact_match emissions_synonyms col_str then CStr "Emissions"
  else if partial_match emissions_synonyms col_str then CStr "Emissions"
  else col.

Definition _map_columns (df : DataFrame) : DataFrame :=
  {| columns := map map_label (columns df); rows := rows df |}.

(** ** The field cleaners *)

(** One value of [_parse_time_period]; [None] is NaN. *)
Definition parse_time_value (value : cell) : option Z :=
  let str_value := PyStr.strip (py_str rt value) in
  if PyStr.contains "-" str_value then
    to_numeric_digits (PyStr.digits_only (PyStr.before "-" str_value))
  else if PyStr.contains "M" (PyStr.upper str_value) then
    to_numeric_digits (PyStr.digits_only (PyStr.before "M" (PyStr.upper str_value)))
  else
    let numeric_value := PyStr.digits_only str_value in
    if negb (String.eqb numeric_value "") then to_numeric_digits numeric_value
    else None.

Definition parsed_year_cell (value : cell) : cell :=
  match parse_time_value value with
  | Some year => CInt year
  | None => CFloat F64.nan
  end.

Definition all_required (df : DataFrame) : bool :=
  forallb (fun col => has_column col df) required_columns.

Definition clean_country (df : DataFrame) : result DataFrame :=
  if has_column "Country" df then
    j <- series_position "Country" df ;;
    let df := map_col j clean_text df in
    let df := filter_col j (text_ne "nan") df in
    Ok (filter_col j (text_ne "") df)
  else Ok df.

(** The closing [astype(int)] is the identity on an int64 column and on
    the integers [_parse_time_period] returns below 2^63; for a year text
    beyond that pandas raises or wraps, which is outside the embedding:
    the statements that depend on it carry the bound [years_fit]. *)
Definition clean_year (df : DataFrame) : result DataFrame :=
  if has_column "Year" df then
    j <- series_position "Year" df ;;
    if is_integer_dtype j df then Ok df
    else Ok (filter_col j notna (map_col j parsed_year_cell df))
  else Ok df.

Definition nonnegative (c : cell) : bool :=
  match c with
  | CFloat f => SFleb F64.zero f
  | _ => false
  end.

Definition clean_emissions (df : DataFrame) : result DataFrame :=
  if has_column "Emissions" df then
    j <- series_position "Emissions" df ;;
    let df := map_col j float_cell df in
    let df := filter_col j notna df in
    Ok (filter_col j nonnegative df)
  else Ok df.

(** [df.dropna(subset=self.required_columns)] *)
Definition dropna_required (df : DataFrame) : result DataFrame :=
  if all_required df then
    jc <- series_position "Country" df ;;
    jy <- series_position "Year" df ;;
    je <- series_position "Emissions" df ;;
    Ok (filter_col je notna (filter_col jy notna (filter_col jc notna df)))
  else Ok df.

Definition sort_key (name : string) (df : DataFrame) : result (list nat) :=
  if has_column name df then j <- series_position name df ;; Ok [j] else Ok [].

Definition sort_by_country_year (df : DataFrame) : result DataFrame :=
  kc <- sort_key "Country" df ;;
  ky <- sort_key "Year" df ;;
  match kc ++ ky with
  | [] => Ok df
  | sort_cols => Ok (sort_values sort_cols df)
  end.

(** The frame the cleaners receive: empty rows and columns dropped, headers
    mapped unless the three canonical names are already there. *)
Definition prepare (df : DataFrame) : DataFrame :=
  let df := dropna_columns_all (dropna_rows_all df) in
  if all_required df then df else _map_columns df.

Definition _clean_data (df : DataFrame) : result DataFrame :=
  let df := prepare df in
  df <- clean_country df ;;
  df <- clean_year df ;;
  df <- clean_emissions df ;;
  df <- dropna_required df ;;
  sort_by_country_year df.

(** ** The validator; its advisory warnings are displayed, not raised. *)

Definition missing_columns (df : DataFrame) : list string :=
  filter (fun col => negb (has_column col df)) required_columns.

Definition _validate_data (df : DataFrame) : result unit :=
  match missing_columns df with
  | _ :: _ => Raise (ValueError_missing (missing_columns df) (columns df))
  | [] =>
      match rows df with
      | [] => Raise ValueError_empty
      | _ => Ok tt
      end
  end.

(** ** [load_and_clean_data], from the sheet that was selected *)

Definition process_sheet (df : DataFrame) : result DataFrame :=
  let df := _handle_oecd_structure df in
  df <- _clean_data df ;;
  _ <- _validate_data df ;;
  Ok df.

Definition load_and_clean_data (df : DataFrame) : result DataFrame :=
  match process_sheet df with
  | Ok df => Ok df
  | Raise e => Raise (ProcessingError e)
  end.

End DataProcessor.

(* ===================================================================== *)
(** * Canonical tables and [calculate_trends] *)
(* ===================================================================== *)

Record CanonicalRecord : Type := {
  country : string;
  year : Z;
  emissions : spec_float
}.

Definition canonical_row (jc jy je : nat) (r : list cell) : option CanonicalRecord :=
  match cell_at jc r, cell_at jy r, cell_at je r with
  | CStr c, CInt y, CFloat e => Some {| country := c; year := y; emissions := e |}
  | _, _, _ => None
  end.

Fixpoint all_some {A : Type} (l : list (option A)) : option (list A) :=
  match l with
  | [] => Some []
  | Some x :: t => option_map (cons x) (all_some t)
  | None :: _ => None
  end.

(** The records of a frame whose columns Country, Year and Emissions hold
    text, integers and floats; [None] for any other frame. *)
Definition canonical_table (df : DataFrame) : option (list CanonicalRecord) :=
  match series_position "Country" df, series_position "Year" df,
        series_position "Emissions" df with
  | Ok jc, Ok jy, Ok je => all_some (map (canonical_row jc jy je) (rows df))
  | _, _, _ => None
  end.

Inductive direction : Type := Increasing | Decreasing | Stable.

Record TrendRow : Type := {
  Country : string;
  First_Year : Z;
  Last_Year : Z;
  First_Year_Emissions : spec_float;
  Last_Year_Emissions : spec_float;
  Trend_Percentage : spec_float;
  Trend_Direction : direction
}.

(** [Series.unique()]: first occurrences, in order. *)
Fixpoint unique (l : list string) : list string :=
  match l with
  | [] => []
  | x :: t => x :: filter (fun y => negb (String.eqb y x)) (unique t)
  end.

Definition trend_pct_of (first_year_emissions last_year_emissions : spec_float)
  : spec_float :=
  if SFltb F64.zero first_year_emissions then
    F64.mul (F64.div (F64.sub last_year_emissions first_year_emissions)
                     first_year_emissions)
            (F64.of_Z 100)
  else F64.zero.

Definition direction_of (trend_pct : spec_float) : direction :=
  if SFltb F64.zero trend_pct then Increasing
  else if SFltb trend_pct F64.zero then Decreasing
  else Stable.

(** The rows of one country ordered by year. numpy does not fix the order of
    equal years; the stable order is taken here. *)
Definition country_data_of (c : string) (table : list CanonicalRecord)
  : list CanonicalRecord :=
  sort (fun a b => year a <=? year b)
       (filter (fun r => String.eqb (country r) c) table).

Definition trend_of (c : string) (table : list CanonicalRecord) : list TrendRow :=
  let country_data := country_data_of c table in
  if (1 <? length country_data)%nat then
    match country_data with
    | [] => []
    | first :: _ =>
        let last := List.last country_data first in
        let trend_pct := trend_pct_of (emissions first) (emissions last) in
        [{| Country := c;
            First_Year := year first;
            Last_Year := year last;
            First_Year_Emissions := emissions first;
            Last_Year_Emissions := emissions last;
            Trend_Percentage := trend_pct;
            Trend_Direction := direction_of trend_pct |}]
    end
  else [].

(** [calculate_trends] on a table that has the three columns, as every
    table returned by [load_and_clean_data] has. *)
Definition calculate_trends (table : list CanonicalRecord) : list TrendRow :=
  flat_map (fun c => trend_of c table) (unique (map country table)).

(* ===================================================================== *)
(** * A runtime for whole numbers *)
(* ===================================================================== *)

(** Reads the decimal integers and the text [nan], prints integer-valued
    floats. It serves to run the transformers on sheets whose numbers are
    whole; the statements below hold for every runtime. *)
Definition whole_of_str (s : string) : option spec_float :=
  if String.eqb (PyStr.lower (PyStr.strip s)) "nan" then Some F64.nan
  else option_map F64.of_Z (PyStr.int_of_str s).

Definition whole_runtime : Runtime := {|
  float_repr := fun f =>
    match F64.trunc f with
    | Some z => (PyStr.str_of_int z ++ ".0")%string
    | None => "nan"
    end;
  float_of_str := whole_of_str;
  to_numeric_str := fun s =>
    match whole_of_str s with
    | Some f => f
    | None => F64.nan
    end;
  astype_str_keeps_na := true
|}.

Definition text_row (l : list string) : list cell := map CStr l.

(** The sheets of the scenarios. *)
Definition scenario_A : DataFrame := {|
  columns := text_row ["Country"; "2020"; "2021"];
  rows := [text_row ["USA"; "10"; "20"]; text_row ["France"; "nan"; "5"]]
|}.

Definition scenario_B : DataFrame := {|
  columns := text_row ["Reference area"; "TIME_PERIOD"; "OBS_VALUE"];
  rows := [[CStr "Norway"; CStr "2019-M03"; CInt 7]]
|}.

Definition scenario_C : DataFrame := {|
  columns := text_row ["Country"; "Year"];
  rows := [[CStr "Norway"; CInt 2019]]
|}.

Definition scenario_D : DataFrame := {|
  columns := text_row ["Country"; "Year"; "Emissions"];
  rows := [[CStr "Norway"; CInt 2019; CInt (-3)];
           [CStr "Chile"; CInt 2020; CInt (-1)]]
|}.

(** Tables for [calculate_trends]. *)
Definition mk (c : string) (y : Z) (e : spec_float) : CanonicalRecord :=
  {| country := c; year := y; emissions := e |}.

Definition unbounded_table : list CanonicalRecord :=
  [mk "A" 2020 (S754_infinity false); mk "A" 2021 (S754_infinity false)].

Definition small_table : list CanonicalRecord :=
  [mk "A" 2021 (F64.of_Z 20); mk "B" 2020 (F64.of_Z 4); mk "A" 2020 (F64.of_Z 10)].

(** How many records of [table] belong to country [c]. *)
Definition observations (c : string) (table : list CanonicalRecord) : nat :=
  length (filter (fun r => String.eqb (country r) c) table).

(** A sheet with two country-like headers and no emissions-like one. *)
Definition duplicate_sheet : DataFrame := {|
  columns := text_row ["Country"; "Region"; "Year"];
  rows := [[CStr "Norway"; CStr "North"; CInt 2019]]
|}.

(** A wide sheet that already has an Emissions column: [melt] refuses it. *)
Definition clashing_sheet : DataFrame := {|
  columns := text_row ["Country"; "2020"; "2021"; "Emissions"];
  rows := [text_row ["USA"; "10"; "20"; "30"]]
|}.

(** No canonical name labels two columns. *)
Definition single_canonical (df : DataFrame) : Prop :=
  forall name, In name required_columns ->
    (length (positions_from 0 name (columns df)) <= 1)%nat.

(** Every year the period parser reads in the Year column lies within
    int64, where the closing [astype(int)] of the year cleaner is the
    identity. *)
Definition years_fit (rt : Runtime) (df : DataFrame) : Prop :=
  forall j r y,
    series_position "Year" df = Ok j -> In r (rows df) ->
    parse_time_value rt (cell_at j r) = Some y -> y < 2 ^ 63.

(** A frame row and the record it holds. *)
Definition holds (jc jy je : nat) (r : list cell) (rec : CanonicalRecord) : Prop :=
  cell_at jc r = CStr (country rec) /\ cell_at jy r = CInt (year rec) /\
  cell_at je r = CFloat (emissions rec).

(** Order of two records: by country, then by year. *)
Definition record_le (a b : CanonicalRecord) : Prop :=
  String.leb (country a) (country b) = true /\
  (country a = country b -> year a <= year b).

(** An agency report: two header rows, a blank row, one country row; the
    last period label carries no year. *)
Definition agency_sheet : DataFrame := {|
  columns := text_row ["Table 1"; "c1"; "c2"; "c3"; "c4"; "c5"];
  rows :=
    [[CStr "Reference area"; CNone; CNone; CNone; CNone; CNone];
     text_row ["Time period"; "2021-Q1"; "2021-Q2"; "2021-Q3"; "2021-Q4"; "Total"];
     [CNone; CNone; CNone; CNone; CNone; CNone];
     [CStr "Norway"; CInt 1; CInt 2; CInt 3; CInt 4; CInt 10]]
|}.

(** A final row that stems from a record of the transformer and whose
    period label yields a year. *)
Definition dated_row (recs : list (string * string * spec_float)) (r : list cell) : Prop :=
  exists label y,
    cell_at 3 r = CStr label /\
    (exists rec, In rec recs /\ period_of rec = label) /\
    _extract_year_from_time_period label = Some y.

(** The same before the Year column is cleaned: the label yields a year
    whenever the Year cell holds a value. *)
Definition labelled_row (recs : list (string * string * spec_float)) (r : list cell) : Prop :=
  exists label,
    cell_at 3 r = CStr label /\
    (exists rec, In rec recs /\ period_of rec = label) /\
    (notna (cell_at 1 r) = true ->
     exists y, _extract_year_from_time_period label = Some y).

(** What the cleaners leave in the three canonical columns. *)
Definition clean_country_cell (c : cell) : Prop :=
  exists s, c = CStr s /\ s <> "nan" /\ s <> "".

Definition clean_year_cell (c : cell) : Prop := exists y, c = CInt y.

Definition clean_emissions_cell (c : cell) : Prop :=
  exists e, c = CFloat e /\ F64.isnan e = false /\ SFleb F64.zero e = true.

Definition clean_row (jc jy je : nat) (r : list cell) : Prop :=
  clean_country_cell (cell_at jc r) /\ clean_year_cell (cell_at jy r) /\
  clean_emissions_cell (cell_at je r).

(* ===================================================================== *)
(** * The sheet selector *)
(* ===================================================================== *)

Definition priority_keywords : list string :=
  ["table"; "data"; "emissions"; "maritime"; "transport"; "co2"; "sheet1"].

(** [keyword.lower() in sheet.lower()] *)
Definition names_keyword (keyword sheet : string) : bool :=
  PyStr.contains (PyStr.lower keyword) (PyStr.lower sheet).

(** The two nested loops: keywords outside, sheets inside. *)
Fixpoint first_keyword_sheet (keywords sheet_names : list string) : option string :=
  match keywords with
  | [] => None
  | keyword :: rest =>
      match find (names_keyword keyword) sheet_names with
      | Some sheet => Some sheet
      | None => first_keyword_sheet rest sheet_names
      end
  end.

(** [sheet_names[0]] raises [IndexError] on the empty list. *)
Definition _find_main_sheet (sheet_names : list string) : result string :=
  match first_keyword_sheet priority_keywords sheet_names with
  | Some sheet => Ok sheet
  | None =>
      match sheet_names with
      | [] => Raise PandasError
      | sheet :: _ => Ok sheet
      end
  end.

(** [df[main_sheet]] in the dictionary [pd.read_excel(..., sheet_name=None)]
    returns, kept as the list of its items. *)
Definition sheet_of (book : list (string * DataFrame)) (name : string)
  : result DataFrame :=
  match find (fun item => String.eqb (fst item) name) book with
  | Some item => Ok (snd item)
  | None => Raise PandasError
  end.

(** [load_and_clean_data] from the workbook that was read. *)
Definition load_and_clean_workbook (rt : Runtime) (book : list (string * DataFrame))
  : result DataFrame :=
  match (main_sheet <- _find_main_sheet (map fst book) ;;
         df <- sheet_of book main_sheet ;;
         process_sheet rt df) with
  | Ok df => Ok df
  | Raise e => Raise (ProcessingError e)
  end.

(* ===================================================================== *)
(** * Summaries of a canonical table *)
(* ===================================================================== *)

(** The reductions of pandas over a float column; how they round is theirs:
    [Series.sum()], the sum of one group of [groupby(...).sum()], and
    [Series.mean()]. *)
Record Reductions : Type := {
  series_sum : list spec_float -> spec_float;
  group_sum : list spec_float -> spec_float;
  series_mean : list spec_float -> spec_float
}.

Record SummaryStats : Type := {
  total_records : nat;
  countries_count : nat;
  year_range : Z * Z;
  total_emissions : spec_float;
  avg_emissions_per_country : spec_float
}.

Definition emissions_of (c : string) (table : list CanonicalRecord) : list spec_float :=
  map emissions (filter (fun r => String.eqb (country r) c) table).

(** [get_summary_stats] on a table that has the three columns, as every
    table returned by [load_and_clean_data] has; [None] is the empty
    dictionary. The groups of [groupby('Country')] come in the order of
    their keys. *)
Definition get_summary_stats (rd : Reductions) (table : list CanonicalRecord)
  : option SummaryStats :=
  match table with
  | [] => None
  | r :: rest =>
      Some {| total_records := length table;
              countries_count := length (unique (map country table));
              year_range := (fold_left Z.min (map year rest) (year r),
                             fold_left Z.max (map year rest) (year r));
              total_emissions := series_sum rd (map emissions table);
              avg_emissions_per_country :=
                series_mean rd
                  (map (fun c => group_sum rd (emissions_of c table))
                       (sort String.leb (unique (map country table)))) |}
  end.

Definition key_of (r : CanonicalRecord) : string * Z := (country r, year r).

Definition key_eqb (a b : string * Z) : bool :=
  String.eqb (fst a) (fst b) && Z.eqb (snd a) (snd b).

Definition key_leb (a b : string * Z) : bool :=
  match String.compare (fst a) (fst b) with
  | Lt => true
  | Gt => false
  | Eq => Z.leb (snd a) (snd b)
  end.

Fixpoint unique_keys (l : list (string * Z)) : list (string * Z) :=
  match l with
  | [] => []
  | k :: t => k :: filter (fun k' => negb (key_eqb k' k)) (unique_keys t)
  end.

(** The group keys of [groupby(['Country', 'Year'])], sorted as pandas
    sorts them. *)
Definition group_keys (table : list CanonicalRecord) : list (string * Z) :=
  sort key_leb (unique_keys (map key_of table)).

(** [aggregate_by_region]: one row per (country, year), the emissions of
    the group summed. *)
Definition aggregate_by_region (rd : Reductions) (table : list CanonicalRecord)
  : list CanonicalRecord :=
  map (fun k =>
         {| country := fst k; year := snd k;
            emissions :=
              group_sum rd
                (map emissions (filter (fun r => key_eqb (key_of r) k) table)) |})
      (group_keys table).

(** ** The advisory warnings of [_validate_data] *)

Inductive warning : Type :=
| UnusualYearRange (min_year max_year : Z)
| LargeEmissions.

(** [Series.max()] of a float column: NaN is skipped, and is the result
    when nothing else is there. *)
Definition series_max (l : list spec_float) : spec_float :=
  match filter (fun e => negb (F64.isnan e)) l with
  | [] => F64.nan
  | x :: t => fold_left (fun m e => if SFltb m e then e else m) t x
  end.

(** The warnings shown for a table that passed the two checks. *)
Definition validation_warnings (table : list CanonicalRecord) : list warning :=
  match table with
  | [] => []
  | r :: rest =>
      let min_year := fold_left Z.min (map year rest) (year r) in
      let max_year := fold_left Z.max (map year rest) (year r) in
      let max_emissions := series_max (map emissions table) in
      (if (min_year <? 1900) || (2030 <? max_year)
       then [UnusualYearRange min_year max_year] else []) ++
      (if SFltb (F64.of_Z 1000000000) max_emissions then [LargeEmissions] else [])
  end.

(** The order of the binary64 values other than NaN, as a triple compared
    from the left: the class (the infinities outermost, zero in the middle),
    then exponent and mantissa, negated for a negative value. *)
Definition float_rank (f : spec_float) : Z * Z * Z :=
  match f with
  | S754_infinity true => (-2, 0, 0)
  | S754_finite true m e => (-1, - e, - Zpos m)
  | S754_zero _ => (0, 0, 0)
  | S754_nan => (0, 0, 0)
  | S754_finite false m e => (1, e, Zpos m)
  | S754_infinity false => (2, 0, 0)
  end.

Definition rank_lt (a b : Z * Z * Z) : Prop :=
  let '(a1, a2, a3) := a in
  let '(b1, b2, b3) := b in
  a1 < b1 \/ (a1 = b1 /\ (a2 < b2 \/ (a2 = b2 /\ a3 < b3))).

(** A frame with the three canonical columns and nothing else. *)
Definition canonical_frame (rws : list (list cell)) : DataFrame :=
  {| columns := text_row ["Country"; "Year"; "Emissions"]; rows := rws |}.

(** A row of three cells as the wide transformer leaves them: a trimmed
    country that is neither empty nor the text nan, an integer year and a
    number. *)
Definition canonical_shape (r : list cell) : Prop :=
  exists s y e,
    r = [CStr s; CInt y; CFloat e] /\
    PyStr.strip s = s /\ s <> "nan" /\ s <> "" /\ F64.isnan e = false.

(** A row of three cells as the wide transformer returns it. Its country
    is as in [canonical_shape], or is missing, which happens only where
    [astype(str)] keeps a missing value. *)
Definition wide_shape (rt : Runtime) (r : list cell) : Prop :=
  exists c y e,
    r = [c; CInt y; CFloat e] /\ F64.isnan e = false /\
    ((c = CFloat F64.nan /\ astype_str_keeps_na rt = true) \/
     exists s, c = CStr s /\ PyStr.strip s = s /\ s <> "nan" /\ s <> "").

(** The cell at position [j] holds text without surrounding white space. *)
Definition trimmed_at (j : nat) (r : list cell) : Prop :=
  exists s, cell_at j r = CStr s /\ PyStr.strip s = s.

(** A row of the agency transformer whose Year column became floats: the
    float of the label's year, NaN when the label has none. *)
Definition float_dated_row (r : list cell) : Prop :=
  exists label,
    cell_at 3 r = CStr label /\
    cell_at 1 r = match _extract_year_from_time_period label with
                  | Some z => CFloat (F64.of_Z z)
                  | None => CFloat F64.nan
                  end.

(** A row whose Year cell is the integer year of its period label. *)
Definition int_dated_row (r : list cell) : Prop :=
  exists label y,
    cell_at 3 r = CStr label /\
    _extract_year_from_time_period label = Some y /\
    cell_at 1 r = CInt y.

(** A final row whose year is ten times the year of its period label. *)
Definition scaled_row (r : list cell) : Prop :=
  exists label y,
    cell_at 3 r = CStr label /\
    _extract_year_from_time_period label = Some y /\
    cell_at 1 r = CInt (10 * y).

(** Every character of [s] satisfies [p]. *)
Fixpoint all_chars (p : ascii -> bool) (s : string) : bool :=
  match s with
  | EmptyString => true
  | String c t => p c && all_chars p t
  end.

(** A non-empty text of decimal digits. *)
Definition is_number_text (s : string) : Prop :=
  s <> "" /\ all_chars PyStr.isdigit s = true.

(** Examples for the statements below. *)
Definition cover_book : list string := ["Cover"; "Notes data"; "Table 1"].

Definition repeated_table : list CanonicalRecord :=
  [mk "B" 2021 (F64.of_Z 3); mk "A" 2020 (F64.of_Z 1); mk "B" 2021 (F64.of_Z 4)].

(** Agency reports: one whose period labels all carry a year, and one none
    of whose labels does (the leftmost run of four digits of the first
    label is not a year). *)
Definition dated_sheet : DataFrame := {|
  columns := text_row ["Table 1"; "c1"; "c2"; "c3"; "c4"; "c5"];
  rows :=
    [[CStr "Reference area"; CNone; CNone; CNone; CNone; CNone];
     text_row ["Time period"; "2021-Q1"; "2021-Q2"; "2021-Q3"; "2021-Q4"; "2022-Q1"];
     [CNone; CNone; CNone; CNone; CNone; CNone];
     [CStr "Norway"; CInt 1; CInt 2; CInt 3; CInt 4; CInt 5]]
|}.

Definition undated_sheet : DataFrame := {|
  columns := text_row ["Table 1"; "c1"; "c2"; "c3"; "c4"; "c5"];
  rows :=
    [[CStr "Reference area"; CNone; CNone; CNone; CNone; CNone];
     text_row ["Time period"; "99992021"; "Q1"; "Q2"; "Q3"; "Q4"];
     [CNone; CNone; CNone; CNone; CNone; CNone];
     [CStr "Norway"; CInt 1; CInt 2; CInt 3; CInt 4; CInt 5]]
|}.

(** A country that starts from zero emissions. *)
Definition zero_start_table : list CanonicalRecord :=
  [mk "A" 2020 (F64.of_Z 0); mk "A" 2021 (F64.of_Z 50)].

(** Reductions that add from the left, to run the summaries on examples. *)
Definition left_sum (l : list spec_float) : spec_float :=
  fold_left (SFadd F64.prec F64.emax) l F64.zero.

Definition left_reductions : Reductions := {|
  series_sum := left_sum;
  group_sum := left_sum;
  series_mean := fun l => F64.div (left_sum l) (F64.of_Z (Z.of_nat (length l)))
|}.

(* ===================================================================== *)
(** * Properties *)
(* ===================================================================== *)

Example strip_example : PyStr.strip "  2019-M03 " = "2019-M03".
Proof. reflexivity. Qed.

Example int_of_str_examples :
  PyStr.int_of_str " 2_020 " = Some 2020 /\ PyStr.int_of_str "2020.0" = None /\
  PyStr.int_of_str "-7" = Some (-7) /\ PyStr.int_of_str "" = None /\
  PyStr.int_of_str "1__0" = None.
Proof. repeat split; reflexivity. Qed.

Example str_of_int_examples :
  PyStr.str_of_int 0 = "0" /\ PyStr.str_of_int 2020 = "2020" /\
  PyStr.str_of_int (-15) = "-15" /\ PyStr.str_of_int 1000 = "1000".
Proof. repeat split; reflexivity. Qed.

Example search_d4_examples :
  PyStr.search_d4 "2022-Jan" = Some "2022" /\ PyStr.search_d4 "Q1 12345" = Some "1234" /\
  PyStr.search_d4 "Jan-22" = None.
Proof. repeat split; reflexivity. Qed.

(** ** The stable sort *)

Section SortFacts.

Variable A : Type.
Variable leb : A -> A -> bool.

Lemma In_insert (x y : A) (l : list A) :
  In y (insert leb x l) <-> y = x \/ In y l.
Proof.
  induction l as [|z t IH]; simpl.
  - intuition.
  - destruct (leb x z); simpl; [intuition | rewrite IH; intuition].
Qed.

Lemma In_sort (y : A) (l : list A) : In y (sort leb l) <-> In y l.
Proof.
  induction l as [|x t IH]; simpl; [tauto|].
  rewrite In_insert, IH. intuition.
Qed.

Lemma length_insert (x : A) (l : list A) :
  length (insert leb x l) = S (length l).
Proof.
  induction l as [|z t IH]; simpl; [reflexivity|].
  destruct (leb x z); simpl; congruence.
Qed.

Lemma length_sort (l : list A) : length (sort leb l) = length l.
Proof.
  induction l as [|x t IH]; simpl; [reflexivity|].
  rewrite length_insert. congruence.
Qed.

Lemma Forall_sort (P : A -> Prop) (l : list A) :
  Forall P l -> Forall P (sort leb l).
Proof.
  rewrite !Forall_forall. intros H x Hx. apply H, In_sort, Hx.
Qed.

Hypothesis leb_total : forall a b, leb a b = false -> leb b a = true.

Let le (a b : A) : Prop := leb a b = true.

Lemma HdRel_insert (a x : A) (l : list A) :
  le a x -> HdRel le a l -> HdRel le a (insert leb x l).
Proof.
  intros Hax Hl. destruct l as [|z t]; simpl.
  - constructor. exact Hax.
  - destruct (leb x z); constructor; [exact Hax|].
    inversion Hl; assumption.
Qed.

Lemma Sorted_insert (x : A) (l : list A) :
  Sorted le l -> Sorted le (insert leb x l).
Proof.
  induction 1 as [|z t Hs IH Hd]; simpl.
  - repeat constructor.
  - destruct (leb x z) eqn:E.
    + constructor; [constructor; assumption | constructor; exact E].
    + constructor; [exact IH|].
      apply HdRel_insert; [apply leb_total, E | exact Hd].
Qed.

Lemma Sorted_sort (l : list A) : Sorted le (sort leb l).
Proof.
  induction l as [|x t IH]; simpl; [constructor | apply Sorted_insert, IH].
Qed.

End SortFacts.

(** Adjacent elements of a sorted list are related. *)
Lemma Sorted_adjacent (A : Type) (R : A -> A -> Prop) (l : list A) :
  Sorted R l ->
  forall i a b, nth_error l i = Some a -> nth_error l (S i) = Some b -> R a b.
Proof.
  induction 1 as [|x t Hs IH Hd]; intros i a b Ha Hb.
  - destruct i; discriminate.
  - destruct i as [|i]; simpl in Ha, Hb.
    + inversion Ha; subst. destruct t as [|y t']; [discriminate|].
      simpl in Hb. inversion Hb; subst. inversion Hd; assumption.
    + eapply IH; eassumption.
Qed.

(** ** binary64 arithmetic never invents a NaN *)

Module F64Facts.

Lemma shr_1_nonneg (mrs : shr_record) : 0 <= shr_m mrs -> 0 <= shr_m (shr_1 mrs).
Proof.
  destruct mrs as [m r s]; simpl. intros Hm.
  destruct m as [|p|p]; [simpl; lia | | lia].
  destruct p; simpl; lia.
Qed.

Lemma iter_pos_invariant (A : Type) (P : A -> Prop) (f : A -> A) :
  (forall x, P x -> P (f x)) -> forall n x, P x -> P (iter_pos f n x).
Proof.
  intros Hf. induction n as [n IH|n IH|]; intros x Hx; simpl; auto.
Qed.

Lemma shr_nonneg (mrs : shr_record) (e n : Z) :
  0 <= shr_m mrs -> 0 <= shr_m (fst (shr mrs e n)).
Proof.
  intros Hm. destruct n; simpl; try assumption.
  apply iter_pos_invariant with (P := fun r => 0 <= shr_m r); [apply shr_1_nonneg | assumption].
Qed.

Lemma shr_fexp_nonneg (m e : Z) (l : location) :
  0 <= m -> 0 <= shr_m (fst (shr_fexp F64.prec F64.emax m e l)).
Proof.
  intros Hm. unfold shr_fexp. apply shr_nonneg.
  destruct l as [|[]]; simpl; assumption.
Qed.

Lemma round_nearest_even_nonneg (m : Z) (l : location) :
  0 <= m -> 0 <= round_nearest_even m l.
Proof.
  intros Hm. destruct l as [|[]]; simpl; try lia.
  destruct (Z.even m); lia.
Qed.

Lemma binary_round_aux_not_nan (sx : bool) (mx ex : Z) (lx : location) :
  0 <= mx -> F64.isnan (binary_round_aux F64.prec F64.emax sx mx ex lx) = false.
Proof.
  intros Hm. unfold binary_round_aux.
  pose proof (shr_fexp_nonneg mx ex lx Hm) as H1.
  destruct (shr_fexp F64.prec F64.emax mx ex lx) as [mrs' e']. simpl in H1.
  pose proof (round_nearest_even_nonneg _ (loc_of_shr_record mrs') H1) as H2.
  pose proof (shr_fexp_nonneg _ e' loc_Exact H2) as H3.
  destruct (shr_fexp F64.prec F64.emax _ e' loc_Exact) as [mrs'' e'']. simpl in H3.
  destruct (shr_m mrs'') as [|p|p]; [reflexivity | | lia].
  destruct (e'' <=? F64.emax - F64.prec); reflexivity.
Qed.

Lemma binary_normalize_not_nan (m e : Z) (sz : bool) :
  F64.isnan (binary_normalize F64.prec F64.emax m e sz) = false.
Proof.
  destruct m as [|p|p]; simpl; [reflexivity | |];
    unfold binary_round;
    destruct (shl_align _ _ _) as [mz ez];
    apply binary_round_aux_not_nan; lia.
Qed.

Lemma of_Z_not_nan (z : Z) : F64.isnan (F64.of_Z z) = false.
Proof. apply binary_normalize_not_nan. Qed.

Lemma sub_finite_not_nan (x : spec_float) (s : bool) (m : positive) (e : Z) :
  F64.isnan x = false -> F64.isnan (F64.sub x (S754_finite s m e)) = false.
Proof.
  destruct x as [sx|sx| |sx mx ex]; simpl; intros Hx;
    try reflexivity; try discriminate.
  apply binary_normalize_not_nan.
Qed.

Lemma div_core_nonneg (m1 m2 : positive) (e1 e2 : Z) :
  0 <= fst (fst (SFdiv_core_binary F64.prec F64.emax (Zpos m1) e1 (Zpos m2) e2)).
Proof.
  unfold SFdiv_core_binary.
  set (s := _ - _ - Z.min _ _).
  set (m' := match s with Zpos _ => Z.shiftl (Zpos m1) s | Z0 => Zpos m1 | Zneg _ => 0 end).
  assert (Hm' : 0 <= m').
  { unfold m'. destruct s; try lia. apply Z.shiftl_nonneg. lia. }
  pose proof (Z.div_pos m' (Zpos m2) Hm' ltac:(lia)) as Hq.
  unfold Z.div in Hq.
  destruct (Z.div_eucl m' (Zpos m2)) as [q r]. simpl in *. exact Hq.
Qed.

Lemma div_finite_not_nan (x : spec_float) (s : bool) (m : positive) (e : Z) :
  F64.isnan x = false -> F64.isnan (F64.div x (S754_finite s m e)) = false.
Proof.
  destruct x as [sx|sx| |sx mx ex]; simpl; intros Hx;
    try reflexivity; try discriminate.
  pose proof (div_core_nonneg mx m ex e) as Hq.
  destruct (SFdiv_core_binary F64.prec F64.emax (Zpos mx) ex (Zpos m) e) as [[mz ez] lz].
  simpl in Hq. apply binary_round_aux_not_nan, Hq.
Qed.

Lemma mul_finite_not_nan (x : spec_float) (s : bool) (m : positive) (e : Z) :
  F64.isnan x = false -> F64.isnan (F64.mul x (S754_finite s m e)) = false.
Proof.
  destruct x as [sx|sx| |sx mx ex]; simpl; intros Hx;
    try reflexivity; try discriminate.
  apply binary_round_aux_not_nan. lia.
Qed.

Lemma hundred : F64.of_Z 100 = S754_finite false 7036874417766400 (-46).
Proof. reflexivity. Qed.

(** Comparisons with zero look at the sign only. *)
Lemma ltb_zero_pos (f : spec_float) :
  SFltb F64.zero f = true <->
  (exists m e, f = S754_finite false m e) \/ f = S754_infinity false.
Proof.
  destruct f as [s|s| |s m e]; try destruct s; cbn;
    split; intros H; try discriminate; eauto;
    destruct H as [(m' & e' & H)|H]; congruence.
Qed.

Lemma ltb_zero_neg (f : spec_float) :
  SFltb f F64.zero = true <->
  (exists m e, f = S754_finite true m e) \/ f = S754_infinity true.
Proof.
  destruct f as [s|s| |s m e]; try destruct s; cbn;
    split; intros H; try discriminate; eauto;
    destruct H as [(m' & e' & H)|H]; congruence.
Qed.

Lemma leb_zero_not_ltb (f : spec_float) :
  SFleb F64.zero f = true -> SFltb f F64.zero = false.
Proof. destruct f as [s|s| |s m e]; try destruct s; cbn; congruence. Qed.

Lemma ltb_zero_not_leb (f : spec_float) :
  SFltb f F64.zero = true -> SFleb F64.zero f = false.
Proof. destruct f as [s|s| |s m e]; try destruct s; cbn; congruence. Qed.

End F64Facts.

(** ** [calculate_trends] *)

Lemma In_unique (c : string) (l : list string) : In c (unique l) <-> In c l.
Proof.
  induction l as [|x t IH]; simpl; [tauto|].
  rewrite filter_In, IH, negb_true_iff, String.eqb_neq.
  destruct (String.eqb_spec x c); intuition congruence.
Qed.

Lemma country_data_length (c : string) (table : list CanonicalRecord) :
  length (country_data_of c table) = observations c table.
Proof. unfold country_data_of, observations. apply length_sort. Qed.

Lemma In_country_data (c : string) (table : list CanonicalRecord) (r : CanonicalRecord) :
  In r (country_data_of c table) <-> In r table /\ country r = c.
Proof.
  unfold country_data_of. rewrite In_sort, filter_In.
  destruct (String.eqb_spec (country r) c); intuition congruence.
Qed.

Lemma In_last (A : Type) (l : list A) (d : A) : l <> [] -> In (List.last l d) l.
Proof.
  induction l as [|x t IH]; [congruence|]. intros _.
  destruct t as [|y t']; [left; reflexivity|].
  right. apply IH. discriminate.
Qed.

(** The shape of the row a country contributes. *)
Lemma trend_of_row (c : string) (table : list CanonicalRecord) (row : TrendRow) :
  In row (trend_of c table) ->
  Country row = c /\
  (2 <= observations c table)%nat /\
  Trend_Percentage row =
    trend_pct_of (First_Year_Emissions row) (Last_Year_Emissions row) /\
  Trend_Direction row = direction_of (Trend_Percentage row) /\
  exists first last,
    In first table /\ In last table /\ country first = c /\ country last = c /\
    First_Year_Emissions row = emissions first /\
    Last_Year_Emissions row = emissions last.
Proof.
  unfold trend_of. rewrite <- country_data_length.
  destruct (1 <? length (country_data_of c table))%nat eqn:E; [|intros []].
  apply Nat.ltb_lt in E.
  destruct (country_data_of c table) as [|first rest] eqn:D; [intros []|].
  intros [<-|[]]. simpl.
  split; [reflexivity|]. split; [simpl in E; lia|].
  split; [reflexivity|]. split; [reflexivity|].
  exists first, (List.last (first :: rest) first).
  assert (Hf : In first (country_data_of c table)) by (rewrite D; left; reflexivity).
  assert (Hl : In (List.last (first :: rest) first) (country_data_of c table)).
  { rewrite D. apply In_last. discriminate. }
  apply In_country_data in Hf, Hl. intuition.
Qed.

Lemma trend_of_nonempty (c : string) (table : list CanonicalRecord) :
  (2 <= observations c table)%nat ->
  exists row, trend_of c table = [row] /\ Country row = c.
Proof.
  intros H. unfold trend_of. rewrite <- country_data_length in H.
  destruct (1 <? length (country_data_of c table))%nat eqn:E.
  - destruct (country_data_of c table) as [|first rest]; [simpl in H; lia|].
    eexists. split; reflexivity.
  - apply Nat.ltb_ge in E. lia.
Qed.

Lemma In_calculate_trends (table : list CanonicalRecord) (row : TrendRow) :
  In row (calculate_trends table) <->
  exists c, In c (map country table) /\ In row (trend_of c table).
Proof.
  unfold calculate_trends. rewrite in_flat_map.
  split; intros (c & Hc & Hr); exists c; split; try assumption;
    apply In_unique; assumption.
Qed.

(** C10. The trend table has a row for a country exactly when the input
    holds at least two records of that country; a country with a single
    record is left out. *)
Theorem trend_rows_need_two_records (table : list CanonicalRecord) (c : string) :
  (exists row, In row (calculate_trends table) /\ Country row = c) <->
  (2 <= observations c table)%nat.
Proof.
  split.
  - intros (row & Hin & Hc). apply In_calculate_trends in Hin.
    destruct Hin as (c' & _ & Hr). apply trend_of_row in Hr.
    destruct Hr as (Hc' & Hn & _). congruence.
  - intros H. destruct (trend_of_nonempty c table H) as (row & Hr & Hc).
    exists row. split; [|exact Hc].
    apply In_calculate_trends. exists c. split; [|rewrite Hr; left; reflexivity].
    unfold observations in H.
    destruct (filter _ table) as [|r rest] eqn:F; [simpl in H; lia|].
    assert (Hr' : In r (filter (fun r => String.eqb (country r) c) table))
      by (rewrite F; left; reflexivity).
    apply filter_In in Hr'. destruct Hr' as [Hr' Hc'].
    apply String.eqb_eq in Hc'. rewrite <- Hc'. apply in_map, Hr'.
Qed.

Lemma direction_increasing (p : spec_float) :
  direction_of p = Increasing <-> SFltb F64.zero p = true.
Proof.
  unfold direction_of. destruct (SFltb F64.zero p); [tauto|].
  destruct (SFltb p F64.zero); split; congruence.
Qed.

Lemma direction_decreasing (p : spec_float) :
  direction_of p = Decreasing <-> SFltb p F64.zero = true.
Proof.
  unfold direction_of. destruct p as [s|s| |s m e]; try destruct s; cbn;
    split; congruence.
Qed.

Lemma direction_stable (p : spec_float) :
  direction_of p = Stable <-> F64.is_zero p = true \/ F64.isnan p = true.
Proof.
  unfold direction_of. destruct p as [s|s| |s m e]; try destruct s; cbn;
    split; intros H; auto; try discriminate; destruct H; discriminate.
Qed.

(** The percentage is NaN exactly when the first value is plus infinity, or
    is positive while the last value is NaN. *)
Lemma trend_pct_nan (first last : spec_float) :
  F64.isnan (trend_pct_of first last) = true <->
  first = S754_infinity false \/
  (SFltb F64.zero first = true /\ F64.isnan last = true).
Proof.
  unfold trend_pct_of. destruct (SFltb F64.zero first) eqn:E.
  - apply F64Facts.ltb_zero_pos in E. destruct E as [(m & e & ->)| ->].
    + rewrite F64Facts.hundred.
      destruct (F64.isnan last) eqn:N.
      * destruct last; try discriminate. cbn. intuition.
      * rewrite F64Facts.mul_finite_not_nan.
        { split; [discriminate|]. intros [H|[_ H]]; discriminate. }
        apply F64Facts.div_finite_not_nan, F64Facts.sub_finite_not_nan, N.
    + rewrite F64Facts.hundred.
      split; [intros _; left; reflexivity|]. intros _.
      destruct last as [s|s| |s m e]; try destruct s; reflexivity.
  - split; [discriminate|]. intros [->|[H _]]; discriminate.
Qed.

(** C9, as the code has it. For every row of the trend table the label is
    Increasing exactly when the percentage is positive, Decreasing exactly
    when it is negative, and Stable exactly when it is zero or not a number;
    the percentage is not a number only when the first value is infinite or
    the last one is missing. *)
Theorem trend_direction_spec (table : list CanonicalRecord) (row : TrendRow) :
  In row (calculate_trends table) ->
  let pct := Trend_Percentage row in
  pct = trend_pct_of (First_Year_Emissions row) (Last_Year_Emissions row) /\
  (Trend_Direction row = Increasing <-> SFltb F64.zero pct = true) /\
  (Trend_Direction row = Decreasing <-> SFltb pct F64.zero = true) /\
  (Trend_Direction row = Stable <-> F64.is_zero pct = true \/ F64.isnan pct = true) /\
  (F64.isnan pct = true <->
     First_Year_Emissions row = S754_infinity false \/
     (SFltb F64.zero (First_Year_Emissions row) = true /\
      F64.isnan (Last_Year_Emissions row) = true)).
Proof.
  intros Hin pct. apply In_calculate_trends in Hin.
  destruct Hin as (c & _ & Hr). apply trend_of_row in Hr.
  destruct Hr as (_ & _ & Hp & Hd & _). subst pct.
  rewrite Hd. split; [exact Hp|].
  split; [apply direction_increasing|].
  split; [apply direction_decreasing|].
  split; [apply direction_stable|].
  rewrite Hp at 1. apply trend_pct_nan.
Qed.

Lemma trend_direction_spec_witness :
  exists row, In row (calculate_trends small_table) /\
    (Trend_Direction row = Stable <->
     F64.is_zero (Trend_Percentage row) = true \/
     F64.isnan (Trend_Percentage row) = true).
Proof.
  eexists. split; [left; reflexivity|].
  apply (trend_direction_spec small_table). left. reflexivity.
Defined.

(** C9 as stated fails on a table whose values are infinite: the change is
    not a number, hence not zero, and the label is Stable. *)
Lemma stable_without_zero_change :
  ~ (forall row, In row (calculate_trends unbounded_table) ->
       (Trend_Direction row = Stable <-> F64.is_zero (Trend_Percentage row) = true)).
Proof.
  intros H.
  assert (Hin : In (hd (Build_TrendRow "" 0 0 F64.nan F64.nan F64.nan Stable)
                       (calculate_trends unbounded_table))
                   (calculate_trends unbounded_table)) by (left; reflexivity).
  apply H in Hin. destruct Hin as [Hs _].
  specialize (Hs eq_refl). discriminate Hs.
Qed.

(** ** The column mapper and the period parser *)

Lemma map_label_rules (rt : Runtime) (col : cell) :
  let col_str := PyStr.strip (py_str rt col) in
  (exact_match country_synonyms col_str = true -> map_label rt col = CStr "Country") /\
  (exact_match country_synonyms col_str = false ->
   exact_match year_synonyms col_str = true -> map_label rt col = CStr "Year") /\
  (exact_match country_synonyms col_str = false ->
   exact_match year_synonyms col_str = false ->
   exact_match emissions_synonyms col_str || partial_match emissions_synonyms col_str = true ->
   map_label rt col = CStr "Emissions") /\
  (exact_match country_synonyms col_str = false ->
   exact_match year_synonyms col_str = false ->
   exact_match emissions_synonyms col_str = false ->
   partial_match emissions_synonyms col_str = false ->
   map_label rt col = col).
Proof.
  unfold map_label. cbv zeta.
  destruct (exact_match country_synonyms _), (exact_match year_synonyms _),
    (exact_match emissions_synonyms _), (partial_match emissions_synonyms _);
    simpl; repeat split; intros; congruence.
Qed.

(** C8. Headers Reference area, TIME_PERIOD, OBS_VALUE become Country, Year,
    Emissions; every header receives one name, chosen by the first rule that
    matches (country, year, emissions, emissions as a substring), hence at
    most one canonical field; and the period value 2019-M03 is cleaned to
    the year 2019. *)
Theorem column_mapper_spec (rt : Runtime) :
  (forall rws,
     _map_columns rt {| columns := text_row ["Reference area"; "TIME_PERIOD"; "OBS_VALUE"];
                        rows := rws |}
     = {| columns := text_row ["Country"; "Year"; "Emissions"]; rows := rws |}) /\
  (forall col, exact_match country_synonyms (PyStr.strip (py_str rt col)) = true ->
               map_label rt col = CStr "Country") /\
  (forall col, exact_match country_synonyms (PyStr.strip (py_str rt col)) = false ->
               exact_match year_synonyms (PyStr.strip (py_str rt col)) = true ->
               map_label rt col = CStr "Year") /\
  (forall col, exact_match country_synonyms (PyStr.strip (py_str rt col)) = false ->
               exact_match year_synonyms (PyStr.strip (py_str rt col)) = false ->
               exact_match emissions_synonyms (PyStr.strip (py_str rt col))
               || partial_match emissions_synonyms (PyStr.strip (py_str rt col)) = true ->
               map_label rt col = CStr "Emissions") /\
  (forall col, exact_match country_synonyms (PyStr.strip (py_str rt col)) = false ->
               exact_match year_synonyms (PyStr.strip (py_str rt col)) = false ->
               exact_match emissions_synonyms (PyStr.strip (py_str rt col)) = false ->
               partial_match emissions_synonyms (PyStr.strip (py_str rt col)) = false ->
               map_label rt col = col) /\
  (forall df, columns (_map_columns rt df) = map (map_label rt) (columns df) /\
              rows (_map_columns rt df) = rows df) /\
  parse_time_value rt (CStr "2019-M03") = Some 2019 /\
  load_and_clean_data rt scenario_B
  = Ok {| columns := text_row ["Country"; "Year"; "Emissions"];
          rows := [[CStr "Norway"; CInt 2019; CFloat (F64.of_Z 7)]] |}.
Proof.
  split; [intros rws; reflexivity|].
  split; [intros col; apply (map_label_rules rt col)|].
  split; [intros col; apply (map_label_rules rt col)|].
  split; [intros col; apply (map_label_rules rt col)|].
  split; [intros col; apply (map_label_rules rt col)|].
  split; [intros df; split; reflexivity|].
  split; reflexivity.
Qed.

(** ** Cells and columns by position *)

Lemma cell_at_map_at_same (j : nat) (f : cell -> cell) (r : list cell) :
  cell_at j (map_at j f r) = f (cell_at j r).
Proof.
  unfold cell_at. revert r. induction j as [|j IH]; intros [|c t]; simpl; auto.
  - rewrite IH. destruct j; reflexivity.
Qed.

Lemma cell_at_map_at_other (j k : nat) (f : cell -> cell) (r : list cell) :
  k <> j -> cell_at k (map_at j f r) = cell_at k r.
Proof.
  unfold cell_at. revert k r.
  induction j as [|j IH]; intros [|k] [|c t] H; simpl; try congruence; auto.
  - destruct k; reflexivity.
  - rewrite IH by congruence. destruct k; reflexivity.
Qed.

Lemma positions_from_spec (name : string) (cols : list cell) (i j : nat) :
  In j (positions_from i name cols) ->
  (i <= j)%nat /\ exists l, nth_error cols (j - i) = Some l /\ label_is name l = true.
Proof.
  revert i. induction cols as [|l t IH]; intros i; simpl; [tauto|].
  assert (Hrec : In j (positions_from (S i) name t) ->
            (i <= j)%nat /\ exists l', nth_error (l :: t) (j - i) = Some l' /\
                                       label_is name l' = true).
  { intros H. apply IH in H. destruct H as (Hle & l' & Hn & Hl).
    split; [lia|]. exists l'. split; [|exact Hl].
    replace (j - i)%nat with (S (j - S i)) by lia. exact Hn. }
  destruct (label_is name l) eqn:E; [|exact Hrec].
  intros [<-|H]; [|exact (Hrec H)].
  split; [lia|]. exists l. rewrite Nat.sub_diag. split; [reflexivity | exact E].
Qed.

Lemma series_position_spec (name : string) (df : DataFrame) (j : nat) :
  series_position name df = Ok j ->
  exists l, nth_error (columns df) j = Some l /\ label_is name l = true.
Proof.
  unfold series_position.
  destruct (positions_from 0 name (columns df)) as [|j' [|]] eqn:E; try discriminate.
  intros H. inversion H; subst j'.
  assert (Hin : In j (positions_from 0 name (columns df))) by (rewrite E; left; reflexivity).
  apply positions_from_spec in Hin. rewrite Nat.sub_0_r in Hin. apply Hin.
Qed.

Lemma label_is_functional (a b : string) (l : cell) :
  label_is a l = true -> label_is b l = true -> a = b.
Proof.
  destruct l; simpl; try discriminate.
  intros Ha Hb. apply String.eqb_eq in Ha, Hb. congruence.
Qed.

Lemma series_positions_differ (a b : string) (df : DataFrame) (i j : nat) :
  a <> b -> series_position a df = Ok i -> series_position b df = Ok j -> i <> j.
Proof.
  intros Hab Hi Hj ->.
  apply series_position_spec in Hi, Hj.
  destruct Hi as (l & Hl & Ha), Hj as (l' & Hl' & Hb).
  rewrite Hl in Hl'. inversion Hl'; subst l'.
  apply Hab. eapply label_is_functional; eassumption.
Qed.

Lemma label_eqb_refl (l : cell) : label_eqb l l = true.
Proof.
  destruct l as [s|z|f|]; simpl; auto using String.eqb_refl, Z.eqb_refl.
  destruct f as [s|s| |s m e]; simpl; auto using Bool.eqb_reflx.
  rewrite Bool.eqb_reflx, Pos.eqb_refl, Z.eqb_refl. reflexivity.
Qed.

Lemma label_eqb_text (s : string) (l : cell) : label_eqb (CStr s) l = label_is s l.
Proof. destruct l; simpl; auto using String.eqb_sym. Qed.

(** ** The wide transformer *)

Lemma text_ne_spec (s : string) (c : cell) : text_ne s c = true <-> c <> CStr s.
Proof.
  destruct c as [t| | |]; cbn [text_ne]; try (split; [discriminate|reflexivity]).
  rewrite negb_true_iff, String.eqb_neq. split; [congruence|].
  intros H E. apply H. rewrite E. reflexivity.
Qed.

Section WideFacts.

Variable rt : Runtime.

Lemma year_cols_from_spec (cols : list cell) (i j : nat) (label : cell) :
  In (j, label) (year_cols_from i cols) <->
  (i <= j)%nat /\ nth_error cols (j - i) = Some label /\ is_year_label label = true.
Proof.
  revert i. induction cols as [|col t IH]; intros i; simpl.
  - split; [tauto|]. intros (_ & H & _). destruct (j - i)%nat; discriminate.
  - assert (Hrec : In (j, label) (year_cols_from (S i) t) <->
              (S i <= j)%nat /\ nth_error (col :: t) (j - i) = Some label /\
              is_year_label label = true).
    { rewrite IH. split; intros (Hle & Hn & Hy); (split; [lia|split; [|exact Hy]]).
      - replace (j - i)%nat with (S (j - S i)) by lia. exact Hn.
      - replace (j - i)%nat with (S (j - S i)) in Hn by lia. exact Hn. }
    destruct (Nat.eq_dec i j) as [->|Hne].
    + rewrite Nat.sub_diag. simpl.
      destruct (is_year_label col) eqn:E; simpl.
      * split.
        -- intros [H|H]; [inversion H; subst; auto|]. apply Hrec in H. lia.
        -- intros (_ & H & _). inversion H; subst. left; reflexivity.
      * split.
        -- intros H. apply Hrec in H. lia.
        -- intros (_ & H & Hy). inversion H; subst. congruence.
    + destruct (is_year_label col); simpl.
      * split.
        -- intros [H|H]; [inversion H; congruence|].
           apply Hrec in H. destruct H as (Hle & Hn & Hy). split; [lia|auto].
        -- intros (Hle & Hn & Hy). right. apply Hrec. split; [lia|auto].
      * rewrite Hrec. split; intros (Hle & Hn & Hy); (split; [lia|auto]).
Qed.

Lemma year_cols_from_length (cols : list cell) (i : nat) :
  length (year_cols_from i cols) = length (filter is_year_label cols).
Proof.
  revert i. induction cols as [|col t IH]; intros i; simpl; [reflexivity|].
  destruct (is_year_label col); simpl; rewrite IH; reflexivity.
Qed.

Lemma year_columns_spec (df : DataFrame) (j : nat) (label : cell) :
  In (j, label) (year_columns df) <->
  (1 <= j)%nat /\ nth_error (columns df) j = Some label /\
  exists y, py_int label = Some y /\ 2000 <= y <= 2030.
Proof.
  unfold year_columns. rewrite year_cols_from_spec.
  assert (Hy : is_year_label label = true <->
               exists y, py_int label = Some y /\ 2000 <= y <= 2030).
  { unfold is_year_label. destruct (py_int label) as [y|].
    - rewrite andb_true_iff, !Z.leb_le. split.
      + intros H. exists y. auto.
      + intros (y' & H & Hr). inversion H; subst. exact Hr.
    - split; [discriminate|]. intros (y' & H & _). discriminate. }
  rewrite Hy.
  assert (Hn : forall k, (1 <= k)%nat ->
                 nth_error (tl (columns df)) (k - 1) = nth_error (columns df) k).
  { intros k Hk. destruct k as [|k]; [lia|]. simpl. rewrite Nat.sub_0_r.
    destruct (columns df); [destruct k|]; reflexivity. }
  split; intros (Hle & H & Hr); (split; [exact Hle|split; [|exact Hr]]).
  - rewrite <- Hn; assumption.
  - rewrite Hn; assumption.
Qed.

Lemma melted_rows_length (df : DataFrame) (value_vars : list (nat * cell)) :
  length (melted_rows df value_vars) = (length (rows df) * length value_vars)%nat.
Proof.
  unfold melted_rows. induction value_vars as [|jl t IH]; simpl; [lia|].
  rewrite length_app, length_map, IH. lia.
Qed.

Lemma filter_length_le (A : Type) (p : A -> bool) (l : list A) :
  (length (filter p l) <= length l)%nat.
Proof.
  induction l as [|x t IH]; simpl; [lia|]. destruct (p x); simpl; lia.
Qed.

Lemma melted_year_labels (df : DataFrame) (r : list cell) :
  In r (melted_rows df (year_columns df)) ->
  is_some (py_int (cell_at 1 r)) = true.
Proof.
  unfold melted_rows. rewrite in_flat_map. intros ([j label] & Hjl & Hr).
  apply in_map_iff in Hr. destruct Hr as (r0 & <- & _).
  apply year_columns_spec in Hjl. destruct Hjl as (_ & _ & y & Hy & _).
  unfold cell_at. simpl. rewrite Hy. reflexivity.
Qed.

Lemma wide_long_form (df : DataFrame) :
  year_columns df <> [] ->
  has_column "Emissions" df = false ->
  label_is "Year" (hd CNone (columns df)) = false ->
  _transform_wide_to_long rt df
  = Ok {| columns := text_row ["Country"; "Year"; "Emissions"]; rows := long_rows rt df |}.
Proof.
  intros Hy He Hc. unfold _transform_wide_to_long.
  destruct (columns df) as [|c0 rest] eqn:Hcols.
  { exfalso. apply Hy. unfold year_columns. rewrite Hcols. reflexivity. }
  change (year_cols_from 1 rest) with (year_cols_from 1 (tl (c0 :: rest))).
  rewrite <- Hcols. fold (year_columns df).
  destruct (year_columns df) as [|yc ycs] eqn:Hyc; [congruence|].
  rewrite <- Hyc. unfold melt. rewrite He. simpl in Hc.
  assert (He0 : label_is "Emissions" c0 = false).
  { unfold has_column in He. rewrite Hcols in He. simpl in He.
    apply orb_false_iff in He. apply He. }
  unfold bind, rename. cbn [columns rows map].
  rewrite label_eqb_refl, !label_eqb_text, Hc, He0.
  assert (Hint : astype_int 1 {| columns := [CStr "Country"; CStr "Year"; CStr "Emissions"];
                                 rows := melted_rows df (year_columns df) |}
                 = Ok {| columns := [CStr "Country"; CStr "Year"; CStr "Emissions"];
                         rows := map (map_at 1 int_cell)
                                     (melted_rows df (year_columns df)) |}).
  { unfold astype_int. cbn [rows].
    replace (forallb _ _) with true; [reflexivity|].
    symmetry. apply forallb_forall. intros r Hr. eapply melted_year_labels; exact Hr. }
  cbn [series_position positions_from columns label_is String.eqb Ascii.eqb Bool.eqb].
  rewrite Hint. reflexivity.
Qed.

Lemma wide_raise (df : DataFrame) (e : exn) :
  year_columns df <> [] ->
  _transform_wide_to_long rt df = Raise e ->
  has_column "Emissions" df = true \/ label_is "Year" (hd CNone (columns df)) = true.
Proof.
  intros Hy Hr.
  destruct (has_column "Emissions" df) eqn:He; [left; reflexivity|].
  destruct (label_is "Year" (hd CNone (columns df))) eqn:Hc; [right; reflexivity|].
  rewrite (wide_long_form df Hy He Hc) in Hr. discriminate.
Qed.

Lemma wide_ok (df out : DataFrame) :
  year_columns df <> [] ->
  _transform_wide_to_long rt df = Ok out ->
  out = {| columns := text_row ["Country"; "Year"; "Emissions"]; rows := long_rows rt df |}.
Proof.
  intros Hy Ho.
  destruct (has_column "Emissions" df) eqn:He.
  { unfold _transform_wide_to_long in Ho.
    destruct (columns df) as [|c0 rest] eqn:Hcols; [discriminate|].
    unfold year_columns in Hy. rewrite Hcols in Hy. simpl in Hy.
    destruct (year_cols_from 1 rest); [congruence|].
    unfold melt in Ho. rewrite He in Ho. discriminate. }
  destruct (label_is "Year" (hd CNone (columns df))) eqn:Hc.
  { unfold _transform_wide_to_long in Ho.
    destruct (columns df) as [|c0 rest] eqn:Hcols; [discriminate|].
    unfold year_columns in Hy. rewrite Hcols in Hy. simpl in Hy, Hc.
    destruct (year_cols_from 1 rest); [congruence|].
    unfold melt in Ho. rewrite He in Ho.
    assert (He0 : label_is "Emissions" c0 = false).
    { unfold has_column in He. rewrite Hcols in He. simpl in He.
      apply orb_false_iff in He. apply He. }
    unfold bind, rename in Ho. cbn [columns rows map] in Ho.
    rewrite label_eqb_refl, !label_eqb_text, Hc, He0 in Ho.
    discriminate. }
  rewrite (wide_long_form df Hy He Hc) in Ho. congruence.
Qed.

Lemma clean_text_text (c : cell) :
  is_null c = false -> clean_text rt c = CStr (PyStr.strip (py_str rt c)).
Proof. intros H. unfold clean_text. rewrite H. reflexivity. Qed.

Lemma clean_text_missing (c : cell) :
  is_null c = true ->
  clean_text rt c = if astype_str_keeps_na rt then CFloat F64.nan
                    else CStr (PyStr.strip (py_str rt c)).
Proof. intros H. unfold clean_text. rewrite H. reflexivity. Qed.

(** What [clean_text] returns is text or missing, and missing only for a
    missing value that [astype(str)] keeps. *)
Lemma clean_text_cases (c : cell) :
  clean_text rt c = CStr (PyStr.strip (py_str rt c)) \/
  (clean_text rt c = CFloat F64.nan /\ is_null c = true /\
   astype_str_keeps_na rt = true).
Proof.
  unfold clean_text. destruct (is_null c); [|left; reflexivity].
  destruct (astype_str_keeps_na rt); [right|left]; auto.
Qed.

Lemma In_long_rows (df : DataFrame) (rec : list cell) :
  In rec (long_rows rt df) <->
  exists r j label y,
    In r (rows df) /\ In (j, label) (year_columns df) /\ py_int label = Some y /\
    F64.isnan (to_numeric rt (cell_at j r)) = false /\
    text_ne "nan" (clean_text rt (cell_at 0 r)) = true /\
    text_ne "" (clean_text rt (cell_at 0 r)) = true /\
    rec = [clean_text rt (cell_at 0 r); CInt y;
           CFloat (to_numeric rt (cell_at j r))].
Proof.
  unfold long_rows. rewrite !filter_In, in_map_iff. split.
  - intros [[(r3 & <- & H3) Hnan] Hempty].
    apply filter_In in H3. destruct H3 as [H3 Hna].
    apply in_map_iff in H3. destruct H3 as (r5 & <- & H5).
    apply in_map_iff in H5. destruct H5 as (r6 & <- & H6).
    unfold melted_rows in H6. apply in_flat_map in H6.
    destruct H6 as ([j label] & Hjl & H6).
    apply in_map_iff in H6. destruct H6 as (r & <- & Hr).
    pose proof Hjl as Hjl'. apply year_columns_spec in Hjl'.
    destruct Hjl' as (_ & _ & y & Hy & _).
    exists r, j, label, y.
    cbn [map_at] in Hna, Hnan, Hempty |- *.
    unfold int_cell in *. rewrite Hy in *.
    unfold notna, float_cell in Hna. unfold cell_at at 1 in Hna. cbn [nth is_null] in Hna.
    apply negb_true_iff in Hna.
    unfold cell_at at 1 in Hnan. unfold cell_at at 1 in Hempty. cbn [nth] in Hnan, Hempty.
    cbn [fst snd] in *. rewrite Hy.
    repeat split; try assumption; reflexivity.
  - intros (r & j & label & y & Hr & Hjl & Hy & Hna & Hnan & Hempty & ->).
    assert (Hm : In [cell_at 0 r; label; cell_at j r] (melted_rows df (year_columns df))).
    { unfold melted_rows. apply in_flat_map. exists (j, label).
      split; [exact Hjl|]. apply in_map_iff. exists r. auto. }
    split; [split|].
    + exists [cell_at 0 r; CInt y; CFloat (to_numeric rt (cell_at j r))].
      split; [reflexivity|].
      apply filter_In. split.
      * apply in_map_iff. exists [cell_at 0 r; CInt y; cell_at j r].
        split; [reflexivity|].
        apply in_map_iff. exists [cell_at 0 r; label; cell_at j r].
        split; [|exact Hm]. simpl. unfold int_cell. rewrite Hy. reflexivity.
      * change (negb (F64.isnan (to_numeric rt (cell_at j r))) = true).
        rewrite Hna. reflexivity.
    + exact Hnan.
    + exact Hempty.
Qed.

Lemma long_rows_length (df : DataFrame) :
  (length (long_rows rt df) <= length (rows df) * length (year_columns df))%nat.
Proof.
  unfold long_rows. rewrite <- melted_rows_length.
  etransitivity; [apply filter_length_le|].
  etransitivity; [apply filter_length_le|]. rewrite length_map.
  etransitivity; [apply filter_length_le|]. rewrite !length_map. apply Nat.le_refl.
Qed.

Lemma wide_has_year_columns (df : DataFrame) :
  _is_wide_format_with_years df = true ->
  (3 <= length (columns df))%nat /\ (2 <= length (year_columns df))%nat.
Proof.
  unfold _is_wide_format_with_years, year_columns.
  destruct (length (columns df) <? 3)%nat eqn:E; [discriminate|].
  apply Nat.ltb_ge in E. rewrite year_cols_from_length.
  intros H. apply Nat.leb_le in H. auto.
Qed.

End WideFacts.

(** C1. On a wide table (at least three columns, at least two year columns
    after the first) the transformer either raises, which only a column
    already named Emissions or a first column named Year causes, or returns
    the frame Country, Year, Emissions whose rows number at most N x K and
    are exactly the triples (cleaned first cell, year of a year column,
    numeric value of the cell) whose value is a number and whose country is
    neither the empty text nor the text nan. The cleaned first cell is the
    trimmed text of the cell; for a missing cell it is that text (nan for
    NaN, hence dropped) where astype(str) makes text of it, and stays
    missing where astype(str) keeps it. On scenario A it returns the three
    records USA 2020 10, USA 2021 20 and France 2021 5. *)
Theorem wide_transformer_spec (rt : Runtime) :
  (forall c, is_null c = false ->
     clean_text rt c = CStr (PyStr.strip (py_str rt c))) /\
  (forall c, is_null c = true ->
     clean_text rt c = if astype_str_keeps_na rt then CFloat F64.nan
                       else CStr (PyStr.strip (py_str rt c))) /\
  (forall df, _is_wide_format_with_years df = true ->
     (3 <= length (columns df))%nat /\
     (2 <= length (year_columns df))%nat /\
     (forall j label,
        In (j, label) (year_columns df) <->
        (1 <= j)%nat /\ nth_error (columns df) j = Some label /\
        exists y, py_int label = Some y /\ 2000 <= y <= 2030) /\
     match _transform_wide_to_long rt df with
     | Raise _ =>
         has_column "Emissions" df = true \/
         label_is "Year" (hd CNone (columns df)) = true
     | Ok out =>
         columns out = text_row ["Country"; "Year"; "Emissions"] /\
         (length (rows out) <= length (rows df) * length (year_columns df))%nat /\
         forall rec,
           In rec (rows out) <->
           exists r j label y,
             In r (rows df) /\ In (j, label) (year_columns df) /\
             py_int label = Some y /\
             F64.isnan (to_numeric rt (cell_at j r)) = false /\
             clean_text rt (cell_at 0 r) <> CStr "nan" /\
             clean_text rt (cell_at 0 r) <> CStr "" /\
             rec = [clean_text rt (cell_at 0 r); CInt y;
                    CFloat (to_numeric rt (cell_at j r))]
     end) /\
  (to_numeric_str rt "10" = F64.of_Z 10 ->
   to_numeric_str rt "20" = F64.of_Z 20 ->
   to_numeric_str rt "5" = F64.of_Z 5 ->
   to_numeric_str rt "nan" = F64.nan ->
   _transform_wide_to_long rt scenario_A
   = Ok {| columns := text_row ["Country"; "Year"; "Emissions"];
           rows := [[CStr "USA"; CInt 2020; CFloat (F64.of_Z 10)];
                    [CStr "USA"; CInt 2021; CFloat (F64.of_Z 20)];
                    [CStr "France"; CInt 2021; CFloat (F64.of_Z 5)]] |}).
Proof.
  split; [apply clean_text_text|]. split; [apply clean_text_missing|].
  split.
  - intros df Hw. destruct (wide_has_year_columns df Hw) as [H3 H2].
    split; [exact H3|]. split; [exact H2|].
    split; [intros j label; apply year_columns_spec|].
    assert (Hy : year_columns df <> []).
    { intros E. rewrite E in H2. simpl in H2. lia. }
    destruct (_transform_wide_to_long rt df) as [out|e] eqn:Ht.
    + apply (wide_ok rt df out Hy) in Ht. subst out. cbn [columns rows].
      split; [reflexivity|]. split; [apply long_rows_length|].
      intros rec. rewrite In_long_rows.
      split; intros (r & j & label & y & Hr & Hjl & Hy' & Hna & Hnan & Hempty & Hrec);
        exists r, j, label, y; repeat split; try assumption;
        first [apply text_ne_spec; assumption | apply (proj1 (text_ne_spec _ _)); assumption].
    + eapply wide_raise; eassumption.
  - intros H10 H20 H5 Hnan.
    rewrite wide_long_form; [|discriminate|reflexivity|reflexivity].
    unfold long_rows.
    replace (melted_rows scenario_A (year_columns scenario_A))
      with [text_row ["USA"; "2020"; "10"]; text_row ["France"; "2020"; "nan"];
            text_row ["USA"; "2021"; "20"]; text_row ["France"; "2021"; "5"]]
      by reflexivity.
    replace (map (map_at 1 int_cell) _)
      with [[CStr "USA"; CInt 2020; CStr "10"]; [CStr "France"; CInt 2020; CStr "nan"];
            [CStr "USA"; CInt 2021; CStr "20"]; [CStr "France"; CInt 2021; CStr "5"]]
      by reflexivity.
    cbn [map map_at]. unfold float_cell, to_numeric.
    rewrite H10, H20, H5, Hnan. reflexivity.
Qed.

Lemma wide_transformer_spec_witness :
  _is_wide_format_with_years scenario_A = true /\
  _transform_wide_to_long whole_runtime scenario_A
  = Ok {| columns := text_row ["Country"; "Year"; "Emissions"];
          rows := [[CStr "USA"; CInt 2020; CFloat (F64.of_Z 10)];
                   [CStr "USA"; CInt 2021; CFloat (F64.of_Z 20)];
                   [CStr "France"; CInt 2021; CFloat (F64.of_Z 5)]] |}.
Proof.
  split; [reflexivity|].
  apply (proj2 (proj2 (proj2 (wide_transformer_spec whole_runtime)))); reflexivity.
Defined.

(** ** The field cleaners, one step at a time *)

Section CleanFacts.

Variable rt : Runtime.

Lemma rows_map_col (j : nat) (f : cell -> cell) (df : DataFrame) (r' : list cell) :
  In r' (rows (map_col j f df)) <-> exists r, In r (rows df) /\ r' = map_at j f r.
Proof.
  unfold map_col. cbn [rows]. rewrite in_map_iff.
  split; intros (r & H1 & H2); exists r; auto.
Qed.

Lemma rows_filter_col (j : nat) (p : cell -> bool) (df : DataFrame) (r : list cell) :
  In r (rows (filter_col j p df)) <-> In r (rows df) /\ p (cell_at j r) = true.
Proof. unfold filter_col. cbn [rows]. apply filter_In. Qed.

Lemma has_column_position (name : string) (df : DataFrame) (j : nat) :
  series_position name df = Ok j -> has_column name df = true.
Proof.
  intros H. apply series_position_spec in H. destruct H as (l & Hn & Hl).
  unfold has_column. apply existsb_exists. exists l.
  split; [eapply nth_error_In; eassumption | exact Hl].
Qed.

Lemma series_position_columns (name : string) (df df' : DataFrame) :
  columns df' = columns df -> series_position name df' = series_position name df.
Proof. unfold series_position. intros ->. reflexivity. Qed.

Lemma has_column_columns (name : string) (df df' : DataFrame) :
  columns df' = columns df -> has_column name df' = has_column name df.
Proof. unfold has_column. intros ->. reflexivity. Qed.

Lemma clean_country_spec (df df' : DataFrame) :
  clean_country rt df = Ok df' ->
  columns df' = columns df /\
  ((has_column "Country" df = false /\ df' = df) \/
   exists j, series_position "Country" df = Ok j /\
     forall r', In r' (rows df') <->
       exists r, In r (rows df) /\ r' = map_at j (clean_text rt) r /\
                 clean_text rt (cell_at j r) <> CStr "nan" /\
                 clean_text rt (cell_at j r) <> CStr "").
Proof.
  unfold clean_country. destruct (has_column "Country" df) eqn:Hc.
  - destruct (series_position "Country" df) as [j|e] eqn:Hj; [|discriminate].
    cbn [bind]. intros H. inversion H; subst df'; clear H.
    split; [reflexivity|]. right. exists j. split; [reflexivity|].
    intros r'. rewrite !rows_filter_col, rows_map_col. split.
    + intros [[(r & Hr & ->) Hnan] Hempty].
      rewrite cell_at_map_at_same in Hnan, Hempty.
      apply text_ne_spec in Hnan, Hempty.
      exists r. auto.
    + intros (r & Hr & -> & Hnan & Hempty).
      rewrite cell_at_map_at_same, !text_ne_spec. eauto.
  - intros H. inversion H; subst. auto.
Qed.

Lemma clean_year_spec (df df' : DataFrame) :
  clean_year rt df = Ok df' ->
  columns df' = columns df /\
  ((has_column "Year" df = false /\ df' = df) \/
   exists j, series_position "Year" df = Ok j /\
     ((is_integer_dtype j df = true /\ df' = df) \/
      (is_integer_dtype j df = false /\
       forall r', In r' (rows df') <->
         exists r y, In r (rows df) /\ parse_time_value rt (cell_at j r) = Some y /\
                     r' = map_at j (parsed_year_cell rt) r))).
Proof.
  unfold clean_year. destruct (has_column "Year" df) eqn:Hc.
  - destruct (series_position "Year" df) as [j|e] eqn:Hj; [|discriminate].
    cbn [bind]. destruct (is_integer_dtype j df) eqn:Hi;
      intros H; inversion H; subst df'; clear H.
    + split; [reflexivity|]. right. exists j. auto.
    + split; [reflexivity|]. right. exists j. split; [reflexivity|]. right.
      split; [exact Hi|].
      intros r'. rewrite rows_filter_col, rows_map_col. split.
      * intros [(r & Hr & ->) Hna]. rewrite cell_at_map_at_same in Hna.
        unfold parsed_year_cell in Hna.
        destruct (parse_time_value rt (cell_at j r)) as [y|] eqn:Hp; [|discriminate].
        exists r, y. auto.
      * intros (r & y & Hr & Hp & ->). split; [eauto|].
        rewrite cell_at_map_at_same. unfold parsed_year_cell. rewrite Hp. reflexivity.
  - intros H. inversion H; subst. auto.
Qed.

Lemma clean_emissions_spec (df df' : DataFrame) :
  clean_emissions rt df = Ok df' ->
  columns df' = columns df /\
  ((has_column "Emissions" df = false /\ df' = df) \/
   exists j, series_position "Emissions" df = Ok j /\
     forall r', In r' (rows df') <->
       exists r, In r (rows df) /\ r' = map_at j (float_cell rt) r /\
                 F64.isnan (to_numeric rt (cell_at j r)) = false /\
                 SFleb F64.zero (to_numeric rt (cell_at j r)) = true).
Proof.
  unfold clean_emissions. destruct (has_column "Emissions" df) eqn:Hc.
  - destruct (series_position "Emissions" df) as [j|e] eqn:Hj; [|discriminate].
    cbn [bind]. intros H. inversion H; subst df'; clear H.
    split; [reflexivity|]. right. exists j. split; [reflexivity|].
    intros r'. rewrite !rows_filter_col, rows_map_col. split.
    + intros [[(r & Hr & ->) Hna] Hpos].
      rewrite cell_at_map_at_same in Hna, Hpos.
      unfold float_cell, notna in Hna, Hpos. cbn [is_null nonnegative] in Hna, Hpos.
      apply negb_true_iff in Hna. exists r. auto.
    + intros (r & Hr & -> & Hna & Hpos).
      rewrite cell_at_map_at_same. unfold float_cell, notna. cbn [is_null nonnegative].
      rewrite Hna. eauto.
  - intros H. inversion H; subst. auto.
Qed.

Lemma dropna_required_spec (df df' : DataFrame) :
  dropna_required df = Ok df' ->
  columns df' = columns df /\ forall r, In r (rows df') -> In r (rows df).
Proof.
  unfold dropna_required. destruct (all_required df).
  - destruct (series_position "Country" df); [|discriminate].
    destruct (series_position "Year" df); [|discriminate].
    destruct (series_position "Emissions" df); [|discriminate].
    cbn [bind]. intros H. inversion H; subst df'; clear H.
    split; [reflexivity|]. intros r. rewrite !rows_filter_col. tauto.
  - intros H. inversion H; subst. auto.
Qed.

Lemma dropna_required_notna (df df' : DataFrame) (jc : nat) :
  dropna_required df = Ok df' -> all_required df = true ->
  series_position "Country" df = Ok jc ->
  forall r, In r (rows df') -> notna (cell_at jc r) = true.
Proof.
  unfold dropna_required. intros H A J. rewrite A, J in H. cbn [bind] in H.
  destruct (series_position "Year" df); [|discriminate].
  destruct (series_position "Emissions" df); [|discriminate].
  cbn [bind] in H. inversion H; subst df'; clear H.
  intros r. rewrite !rows_filter_col. tauto.
Qed.

Lemma sort_key_spec (name : string) (df : DataFrame) (ks : list nat) :
  sort_key name df = Ok ks ->
  (has_column name df = false /\ ks = []) \/
  exists j, series_position name df = Ok j /\ ks = [j].
Proof.
  unfold sort_key. destruct (has_column name df).
  - destruct (series_position name df) as [j|]; [|discriminate].
    cbn [bind]. intros H. inversion H. right. exists j. auto.
  - intros H. inversion H. auto.
Qed.

Lemma sort_by_country_year_spec (df df' : DataFrame) :
  sort_by_country_year df = Ok df' ->
  columns df' = columns df /\
  (forall r, In r (rows df') <-> In r (rows df)) /\
  exists kc ky, sort_key "Country" df = Ok kc /\ sort_key "Year" df = Ok ky /\
    (kc ++ ky <> [] ->
     Sorted (fun a b => rows_leb (kc ++ ky) a b = true) (rows df')).
Proof.
  unfold sort_by_country_year.
  destruct (sort_key "Country" df) as [kc|] eqn:Hc; [|discriminate].
  destruct (sort_key "Year" df) as [ky|] eqn:Hy; [|discriminate].
  cbn [bind]. destruct (kc ++ ky) as [|k ks] eqn:E.
  - intros H. inversion H; subst df'. split; [reflexivity|].
    split; [tauto|]. exists kc, ky. rewrite E. repeat split. congruence.
  - intros H. inversion H; subst df'; clear H. split; [reflexivity|].
    split; [intros r; apply In_sort|].
    exists kc, ky. rewrite E. repeat split. intros _.
    apply Sorted_sort.
    intros a b.
    (* the order is total *)
    generalize (k :: ks). clear. intros keys.
    induction keys as [|j t IH]; simpl; [discriminate|].
    assert (Hanti : cell_compare (cell_at j b) (cell_at j a)
                    = CompOpp (cell_compare (cell_at j a) (cell_at j b))).
    { destruct (cell_at j a), (cell_at j b); simpl; auto using String.compare_antisym, Z.compare_antisym. }
    rewrite Hanti.
    destruct (cell_compare (cell_at j a) (cell_at j b)); simpl; auto; discriminate.
Qed.

(** A property of rows that no single-cell update at the cleaned column can
    break survives the cleaner. *)
Lemma country_step_keeps (R : list cell -> Prop) (df df' : DataFrame) :
  clean_country rt df = Ok df' ->
  (forall j f r, series_position "Country" df = Ok j -> R r -> R (map_at j f r)) ->
  Forall R (rows df) -> Forall R (rows df').
Proof.
  intros H HR HF. apply clean_country_spec in H.
  destruct H as [_ [[_ ->]|(j & Hj & Hrows)]]; [exact HF|].
  rewrite Forall_forall in *. intros r' Hr'. apply Hrows in Hr'.
  destruct Hr' as (r & Hr & -> & _). eauto.
Qed.

Lemma year_step_keeps (R : list cell -> Prop) (df df' : DataFrame) :
  clean_year rt df = Ok df' ->
  (forall j f r, series_position "Year" df = Ok j -> R r -> R (map_at j f r)) ->
  Forall R (rows df) -> Forall R (rows df').
Proof.
  intros H HR HF. apply clean_year_spec in H.
  destruct H as [_ [[_ ->]|(j & Hj & [[_ ->]|[_ Hrows]])]]; try exact HF.
  rewrite Forall_forall in *. intros r' Hr'. apply Hrows in Hr'.
  destruct Hr' as (r & y & Hr & _ & ->). eauto.
Qed.

Lemma emissions_step_keeps (R : list cell -> Prop) (df df' : DataFrame) :
  clean_emissions rt df = Ok df' ->
  (forall j f r, series_position "Emissions" df = Ok j -> R r -> R (map_at j f r)) ->
  Forall R (rows df) -> Forall R (rows df').
Proof.
  intros H HR HF. apply clean_emissions_spec in H.
  destruct H as [_ [[_ ->]|(j & Hj & Hrows)]]; [exact HF|].
  rewrite Forall_forall in *. intros r' Hr'. apply Hrows in Hr'.
  destruct Hr' as (r & Hr & -> & _). eauto.
Qed.

Lemma tail_steps_keep (R : list cell -> Prop) (d3 d4 out : DataFrame) :
  dropna_required d3 = Ok d4 -> sort_by_country_year d4 = Ok out ->
  Forall R (rows d3) -> Forall R (rows out).
Proof.
  intros H4 H5 HF. apply dropna_required_spec in H4. destruct H4 as [_ H4].
  apply sort_by_country_year_spec in H5. destruct H5 as (_ & H5 & _).
  rewrite Forall_forall in *. intros r Hr. apply HF, H4, H5, Hr.
Qed.

(** The five steps of [_clean_data], named. *)
Lemma clean_data_steps (df out : DataFrame) :
  _clean_data rt df = Ok out ->
  exists d1 d2 d3 d4,
    clean_country rt (prepare rt df) = Ok d1 /\ clean_year rt d1 = Ok d2 /\
    clean_emissions rt d2 = Ok d3 /\ dropna_required d3 = Ok d4 /\
    sort_by_country_year d4 = Ok out.
Proof.
  unfold _clean_data. cbv zeta.
  destruct (clean_country rt (prepare rt df)) as [d1|] eqn:H1; [|discriminate].
  cbn [bind]. destruct (clean_year rt d1) as [d2|] eqn:H2; [|discriminate].
  cbn [bind]. destruct (clean_emissions rt d2) as [d3|] eqn:H3; [|discriminate].
  cbn [bind]. destruct (dropna_required d3) as [d4|] eqn:H4; [|discriminate].
  cbn [bind]. intros H5. exists d1, d2, d3, d4. auto.
Qed.

Lemma clean_data_columns (df out : DataFrame) :
  _clean_data rt df = Ok out -> columns out = columns (prepare rt df).
Proof.
  intros H. apply clean_data_steps in H.
  destruct H as (d1 & d2 & d3 & d4 & H1 & H2 & H3 & H4 & H5).
  apply clean_country_spec in H1. apply clean_year_spec in H2.
  apply clean_emissions_spec in H3. apply dropna_required_spec in H4.
  apply sort_by_country_year_spec in H5.
  destruct H1 as [H1 _], H2 as [H2 _], H3 as [H3 _], H4 as [H4 _], H5 as [H5 _].
  congruence.
Qed.

Lemma no_missing_columns (df : DataFrame) :
  missing_columns df = [] ->
  has_column "Country" df = true /\ has_column "Year" df = true /\
  has_column "Emissions" df = true.
Proof.
  unfold missing_columns, required_columns. cbn [filter].
  destruct (has_column "Country" df), (has_column "Year" df),
    (has_column "Emissions" df); cbn; intros H; try discriminate; auto.
Qed.

Lemma cell_stable (P : cell -> Prop) (j k : nat) (f : cell -> cell) (r : list cell) :
  k <> j -> P (cell_at k r) -> P (cell_at k (map_at j f r)).
Proof. intros H. rewrite cell_at_map_at_other by exact H. auto. Qed.

(** Every row of a cleaned frame that has the three columns is clean, and
    the rows are ordered by country, then year. *)
Lemma clean_data_output (df out : DataFrame) :
  _clean_data rt df = Ok out ->
  missing_columns out = [] ->
  exists jc jy je,
    series_position "Country" out = Ok jc /\
    series_position "Year" out = Ok jy /\
    series_position "Emissions" out = Ok je /\
    Forall (clean_row jc jy je) (rows out) /\
    Sorted (fun a b => rows_leb [jc; jy] a b = true) (rows out).
Proof.
  intros Hclean Hmiss.
  pose proof (clean_data_steps df out Hclean)
    as (d1 & d2 & d3 & d4 & H1 & H2 & H3 & H4 & H5).
  pose proof (clean_country_spec _ _ H1) as [C1 S1].
  pose proof (clean_year_spec _ _ H2) as [C2 S2].
  pose proof (clean_emissions_spec _ _ H3) as [C3 S3].
  pose proof (dropna_required_spec _ _ H4) as [C4 C4r].
  pose proof (sort_by_country_year_spec _ _ H5) as (C5 & _ & kc & ky & Kc & Ky & Hsorted).
  apply no_missing_columns in Hmiss. destruct Hmiss as (Mc & My & Me).
  assert (E4 : columns out = columns d4) by congruence.
  assert (E3 : columns out = columns d3) by congruence.
  assert (E2 : columns out = columns d2) by congruence.
  assert (E1 : columns out = columns d1) by congruence.
  assert (E0 : columns out = columns (prepare rt df)) by congruence.
  (* the three positions *)
  destruct S1 as [[S1 _]|(jc & Jc & R1)].
  { rewrite <- (has_column_columns "Country" _ _ E0), Mc in S1. discriminate. }
  destruct S2 as [[S2 _]|(jy & Jy & R2)].
  { rewrite <- (has_column_columns "Year" _ _ E1), My in S2. discriminate. }
  destruct S3 as [[S3 _]|(je & Je & R3)].
  { rewrite <- (has_column_columns "Emissions" _ _ E2), Me in S3. discriminate. }
  assert (Jc1 : series_position "Country" d1 = Ok jc)
    by (rewrite (series_position_columns "Country" _ _ C1); exact Jc).
  assert (Jc2 : series_position "Country" d2 = Ok jc)
    by (rewrite (series_position_columns "Country" _ _ C2); exact Jc1).
  assert (Jy2 : series_position "Year" d2 = Ok jy)
    by (rewrite (series_position_columns "Year" _ _ C2); exact Jy).
  assert (Ncy : jc <> jy).
  { apply (series_positions_differ "Country" "Year" d1); [discriminate|assumption..]. }
  assert (Nce : jc <> je).
  { apply (series_positions_differ "Country" "Emissions" d2); [discriminate|assumption..]. }
  assert (Nye : jy <> je).
  { apply (series_positions_differ "Year" "Emissions" d2); [discriminate|assumption..]. }
  exists jc, jy, je.
  split; [rewrite (series_position_columns "Country" _ _ E2); exact Jc2|].
  split; [rewrite (series_position_columns "Year" _ _ E2); exact Jy2|].
  split; [rewrite (series_position_columns "Emissions" _ _ E2); exact Je|].
  split.
  - (* rows *)
    set (country_ok := fun c => clean_country_cell c \/ is_null c = true).
    assert (F1 : Forall (fun r => country_ok (cell_at jc r)) (rows d1)).
    { apply Forall_forall. intros r' Hr'. apply R1 in Hr'.
      destruct Hr' as (r & _ & -> & Hnan & Hempty).
      rewrite cell_at_map_at_same.
      destruct (clean_text_cases rt (cell_at jc r)) as [E|(E & _)]; rewrite E in *.
      - left. eexists. split; [reflexivity|]. split; congruence.
      - right. reflexivity. }
    assert (F2 : Forall (fun r => country_ok (cell_at jc r) /\
                                  clean_year_cell (cell_at jy r)) (rows d2)).
    { destruct R2 as [[Hint ->]|[_ R2]].
      - unfold is_integer_dtype in Hint. rewrite forallb_forall in Hint.
        rewrite Forall_forall in *. intros r Hr. split; [apply F1, Hr|].
        specialize (Hint r Hr). destruct (cell_at jy r); try discriminate.
        eexists. reflexivity.
      - rewrite Forall_forall in *. intros r' Hr'. apply R2 in Hr'.
        destruct Hr' as (r & y & Hr & Hp & ->). split.
        + apply cell_stable; [exact Ncy | apply F1, Hr].
        + rewrite cell_at_map_at_same. unfold parsed_year_cell. rewrite Hp.
          eexists. reflexivity. }
    assert (F3 : Forall (fun r => country_ok (cell_at jc r) /\
                                  clean_year_cell (cell_at jy r) /\
                                  clean_emissions_cell (cell_at je r)) (rows d3)).
    { rewrite Forall_forall in *. intros r' Hr'. apply R3 in Hr'.
      destruct Hr' as (r & Hr & -> & Hna & Hpos).
      destruct (F2 r Hr) as [Fc Fy]. split; [|split].
      - apply cell_stable; [exact Nce | exact Fc].
      - apply cell_stable; [exact Nye | exact Fy].
      - rewrite cell_at_map_at_same. unfold float_cell. eexists. eauto. }
    assert (F4 : Forall (clean_row jc jy je) (rows d4)).
    { assert (A3 : all_required d3 = true).
      { unfold all_required, required_columns. cbn [forallb].
        rewrite !(has_column_columns _ out d3) by congruence.
        rewrite Mc, My, Me. reflexivity. }
      assert (J3 : series_position "Country" d3 = Ok jc)
        by (rewrite (series_position_columns "Country" _ _ C3); exact Jc2).
      pose proof (dropna_required_notna _ _ jc H4 A3 J3) as Hna.
      rewrite Forall_forall in *. intros r Hr.
      destruct (F3 r (C4r r Hr)) as ([Fc|Fc] & Fy & Fe).
      - split; [exact Fc|]. split; assumption.
      - specialize (Hna r Hr). unfold notna in Hna. rewrite Fc in Hna. discriminate. }
    apply sort_by_country_year_spec in H5. destruct H5 as (_ & H5 & _).
    rewrite Forall_forall in *. intros r Hr. apply F4, H5, Hr.
  - (* order *)
    assert (M4c : has_column "Country" d4 = true)
      by (rewrite <- (has_column_columns "Country" _ _ C5); exact Mc).
    assert (M4y : has_column "Year" d4 = true)
      by (rewrite <- (has_column_columns "Year" _ _ C5); exact My).
    apply sort_key_spec in Kc, Ky.
    destruct Kc as [[Kc _]|(jc' & Kc & ->)]; [congruence|].
    destruct Ky as [[Ky _]|(jy' & Ky & ->)]; [congruence|].
    assert (jc' = jc).
    { rewrite (series_position_columns "Country" d2 d4) in Kc by congruence.
      congruence. }
    assert (jy' = jy).
    { rewrite (series_position_columns "Year" d2 d4) in Ky by congruence.
      congruence. }
    subst jc' jy'. apply Hsorted. discriminate.
Qed.

End CleanFacts.

(** ** The pipeline *)

Section PipelineFacts.

Variable rt : Runtime.

Lemma validate_ok (d : DataFrame) :
  _validate_data d = Ok tt <-> missing_columns d = [] /\ rows d <> [].
Proof.
  unfold _validate_data.
  destruct (missing_columns d); [|split; [discriminate|intros [H _]; discriminate]].
  destruct (rows d); split; try discriminate; auto.
  - intros [_ H]. congruence.
  - intros _. split; [reflexivity|discriminate].
Qed.

Lemma validate_errors (d : DataFrame) (e : exn) :
  _validate_data d = Raise e ->
  (missing_columns d <> [] /\ e = ValueError_missing (missing_columns d) (columns d)) \/
  (missing_columns d = [] /\ rows d = [] /\ e = ValueError_empty).
Proof.
  unfold _validate_data.
  destruct (missing_columns d) eqn:M.
  - destruct (rows d); [|discriminate]. intros H. inversion H. auto.
  - intros H. inversion H. left. split; [discriminate|reflexivity].
Qed.

Lemma load_unfold (df : DataFrame) :
  load_and_clean_data rt df =
  match _clean_data rt (_handle_oecd_structure rt df) with
  | Ok d => match _validate_data d with
            | Ok _ => Ok d
            | Raise e => Raise (ProcessingError e)
            end
  | Raise e => Raise (ProcessingError e)
  end.
Proof.
  unfold load_and_clean_data, process_sheet. cbv zeta.
  destruct (_clean_data rt (_handle_oecd_structure rt df)) as [d|e]; cbn [bind]; [|reflexivity].
  destruct (_validate_data d) as [u|e]; reflexivity.
Qed.

Lemma load_ok (df out : DataFrame) :
  load_and_clean_data rt df = Ok out ->
  _clean_data rt (_handle_oecd_structure rt df) = Ok out /\
  missing_columns out = [] /\ rows out <> [].
Proof.
  rewrite load_unfold.
  destruct (_clean_data rt (_handle_oecd_structure rt df)) as [d|e]; [|discriminate].
  destruct (_validate_data d) as [[]|e] eqn:V; [|discriminate].
  intros H. inversion H; subst d. split; [reflexivity|].
  apply validate_ok, V.
Qed.

Lemma canonical_of_clean (out : DataFrame) (jc jy je : nat) :
  series_position "Country" out = Ok jc ->
  series_position "Year" out = Ok jy ->
  series_position "Emissions" out = Ok je ->
  Forall (clean_row jc jy je) (rows out) ->
  exists recs, canonical_table out = Some recs /\
               Forall2 (holds jc jy je) (rows out) recs.
Proof.
  intros Jc Jy Je HF. unfold canonical_table. rewrite Jc, Jy, Je.
  induction HF as [|r t Hr HF IH]; simpl.
  - exists []. split; [reflexivity|constructor].
  - destruct IH as (recs & -> & H2).
    destruct Hr as ((s & Hs & _) & (y & Hy) & (e & He & _)).
    unfold canonical_row. rewrite Hs, Hy, He. simpl.
    eexists. split; [reflexivity|]. constructor; [|exact H2].
    unfold holds. simpl. auto.
Qed.

(** The table a successful run returns, as records. *)
Lemma load_output (df out : DataFrame) :
  load_and_clean_data rt df = Ok out ->
  exists jc jy je recs,
    canonical_table out = Some recs /\
    Forall2 (holds jc jy je) (rows out) recs /\
    Forall (clean_row jc jy je) (rows out) /\
    Sorted (fun a b => rows_leb [jc; jy] a b = true) (rows out).
Proof.
  intros H. apply load_ok in H. destruct H as (Hc & Hm & _).
  destruct (clean_data_output rt _ _ Hc Hm) as (jc & jy & je & Jc & Jy & Je & HF & HS).
  destruct (canonical_of_clean out jc jy je Jc Jy Je HF) as (recs & Hrecs & H2).
  exists jc, jy, je, recs. auto.
Qed.

Lemma rows_leb_records (jc jy je : nat) (r1 r2 : list cell) (a b : CanonicalRecord) :
  holds jc jy je r1 a -> holds jc jy je r2 b ->
  rows_leb [jc; jy] r1 r2 = true -> record_le a b.
Proof.
  intros (Hc1 & Hy1 & _) (Hc2 & Hy2 & _). simpl.
  rewrite Hc1, Hc2, Hy1, Hy2. simpl. unfold record_le, String.leb.
  destruct (String.compare (country a) (country b)) eqn:E.
  - apply String.compare_eq_iff in E.
    destruct (Z.compare_spec (year a) (year b)); intros Hle; try discriminate;
      (split; [reflexivity|intros _]); lia.
  - intros _. split; [reflexivity|]. intros Heq. rewrite Heq in E.
    pose proof (String.compare_antisym (country b) (country b)) as Ha.
    rewrite E in Ha. discriminate.
  - discriminate.
Qed.

Lemma sorted_records (jc jy je : nat) (rws : list (list cell)) (recs : list CanonicalRecord) :
  Forall2 (holds jc jy je) rws recs ->
  Sorted (fun a b => rows_leb [jc; jy] a b = true) rws ->
  Sorted record_le recs.
Proof.
  induction 1 as [|r a rws' recs' Hra H2 IH]; intros HS; [constructor|].
  inversion HS as [|? ? HS' Hd]; subst. constructor; [apply IH, HS'|].
  destruct H2 as [|r2 b rws'' recs'' Hrb H2']; constructor.
  inversion Hd; subst. eapply rows_leb_records; eassumption.
Qed.

Lemma held_records (jc jy je : nat) (rws : list (list cell)) (recs : list CanonicalRecord) :
  Forall2 (holds jc jy je) rws recs ->
  forall rec, In rec recs -> exists r, In r rws /\ holds jc jy je r rec.
Proof.
  induction 1 as [|r a rws' recs' Hra H2 IH]; intros rec [].
  - subst. exists r. split; [left; reflexivity|exact Hra].
  - destruct (IH rec H) as (r' & Hr' & Hh). exists r'. split; [right; exact Hr'|exact Hh].
Qed.

Lemma Forall2_same_length (A B : Type) (R : A -> B -> Prop) (l : list A) (l' : list B) :
  Forall2 R l l' -> length l' = length l.
Proof. induction 1; simpl; congruence. Qed.

End PipelineFacts.

(** C5. In the table a run returns, two adjacent records are in order:
    the country of the first is at most the country of the second in the
    lexicographic order of code points, and when the countries are equal
    the year of the first is at most the year of the second. *)
Theorem output_sorted (rt : Runtime) (df out : DataFrame) :
  load_and_clean_data rt df = Ok out ->
  exists recs,
    canonical_table out = Some recs /\
    length recs = length (rows out) /\
    forall i a b,
      nth_error recs i = Some a -> nth_error recs (S i) = Some b ->
      String.leb (country a) (country b) = true /\
      (country a = country b -> year a <= year b).
Proof.
  intros H. destruct (load_output rt df out H) as (jc & jy & je & recs & Hc & H2 & _ & HS).
  exists recs. split; [exact Hc|]. split; [eapply Forall2_same_length; exact H2|].
  intros i a b Ha Hb.
  exact (Sorted_adjacent _ record_le recs (sorted_records jc jy je _ _ H2 HS) i a b Ha Hb).
Qed.

Lemma output_sorted_witness :
  exists recs,
    recs = [mk "France" 2021 (F64.of_Z 5); mk "USA" 2020 (F64.of_Z 10);
            mk "USA" 2021 (F64.of_Z 20)] /\
    forall i a b,
      nth_error recs i = Some a -> nth_error recs (S i) = Some b ->
      String.leb (country a) (country b) = true /\
      (country a = country b -> year a <= year b).
Proof.
  destruct (output_sorted whole_runtime scenario_A
              {| columns := text_row ["Country"; "Year"; "Emissions"];
                 rows := [[CStr "France"; CInt 2021; CFloat (F64.of_Z 5)];
                          [CStr "USA"; CInt 2020; CFloat (F64.of_Z 10)];
                          [CStr "USA"; CInt 2021; CFloat (F64.of_Z 20)]] |}
              eq_refl) as (recs & Hrecs & _ & Hadj).
  exists recs. split; [|exact Hadj].
  vm_compute in Hrecs. inversion Hrecs. reflexivity.
Defined.

(** C6. No record of a table a run returns has emissions below zero, and
    none has the country text nan or the empty text. *)
Theorem output_rejects (rt : Runtime) (df out : DataFrame) :
  load_and_clean_data rt df = Ok out ->
  exists recs,
    canonical_table out = Some recs /\
    length recs = length (rows out) /\
    forall rec, In rec recs ->
      SFltb (emissions rec) F64.zero = false /\
      country rec <> "nan" /\ country rec <> "".
Proof.
  intros H. destruct (load_output rt df out H) as (jc & jy & je & recs & Hc & H2 & HF & _).
  exists recs. split; [exact Hc|]. split; [eapply Forall2_same_length; exact H2|].
  intros rec Hrec.
  destruct (held_records jc jy je _ _ H2 rec Hrec) as (r & Hr & Hcell & _ & Hem).
  rewrite Forall_forall in HF. destruct (HF r Hr) as ((s & Hs & Hnan & Hempty) & _ & (e & He & _ & Hpos)).
  rewrite Hcell in Hs. rewrite Hem in He. inversion Hs; inversion He; subst.
  split; [apply F64Facts.leb_zero_not_ltb, Hpos|]. auto.
Qed.

Lemma output_rejects_witness :
  exists recs,
    recs = [mk "France" 2021 (F64.of_Z 5); mk "USA" 2020 (F64.of_Z 10);
            mk "USA" 2021 (F64.of_Z 20)] /\
    forall rec, In rec recs ->
      SFltb (emissions rec) F64.zero = false /\
      country rec <> "nan" /\ country rec <> "".
Proof.
  destruct (output_rejects whole_runtime scenario_A
              {| columns := text_row ["Country"; "Year"; "Emissions"];
                 rows := [[CStr "France"; CInt 2021; CFloat (F64.of_Z 5)];
                          [CStr "USA"; CInt 2020; CFloat (F64.of_Z 10)];
                          [CStr "USA"; CInt 2021; CFloat (F64.of_Z 20)]] |}
              eq_refl) as (recs & Hrecs & _ & Hall).
  exists recs. split; [|exact Hall].
  vm_compute in Hrecs. inversion Hrecs. reflexivity.
Defined.

(** ** When the cleaners raise *)

Section Totality.

Variable rt : Runtime.

Lemma positions_nonempty (name : string) (cols : list cell) (i : nat) :
  existsb (label_is name) cols = true <-> positions_from i name cols <> [].
Proof.
  revert i. induction cols as [|l t IH]; intros i; simpl.
  - split; [discriminate|congruence].
  - destruct (label_is name l); simpl; [split; [discriminate|reflexivity]|apply IH].
Qed.

(** [df[name]] is a Series exactly when one column carries the name. *)
Lemma series_position_cases (name : string) (df : DataFrame) :
  (has_column name df = false) \/
  (has_column name df = true /\
   length (positions_from 0 name (columns df)) = 1%nat /\
   exists j, series_position name df = Ok j) \/
  (has_column name df = true /\
   (2 <= length (positions_from 0 name (columns df)))%nat /\
   series_position name df = Raise PandasError).
Proof.
  unfold has_column, series_position.
  pose proof (positions_nonempty name (columns df) 0) as Hn.
  destruct (positions_from 0 name (columns df)) as [|j [|j' t]] eqn:E.
  - left. destruct (existsb (label_is name) (columns df)); [|reflexivity].
    exfalso. apply (proj1 Hn); reflexivity.
  - right. left. split; [apply Hn; discriminate|]. split; [reflexivity|eauto].
  - right. right. split; [apply Hn; discriminate|]. split; [simpl; lia|reflexivity].
Qed.

Lemma single_canonical_columns (df df' : DataFrame) :
  columns df' = columns df -> single_canonical df -> single_canonical df'.
Proof. unfold single_canonical. intros ->. auto. Qed.

Lemma series_position_single (name : string) (df : DataFrame) :
  In name required_columns -> single_canonical df -> has_column name df = true ->
  exists j, series_position name df = Ok j.
Proof.
  intros Hin Hs Hc. specialize (Hs name Hin).
  destruct (series_position_cases name df) as [H|[(_ & _ & H)|(_ & H & _)]];
    [congruence|exact H|lia].
Qed.

Lemma clean_country_total (df : DataFrame) :
  single_canonical df -> exists d, clean_country rt df = Ok d.
Proof.
  intros Hs. unfold clean_country. destruct (has_column "Country" df) eqn:Hc; [|eauto].
  destruct (series_position_single "Country" df) as (j & ->); auto.
  - simpl. auto.
  - cbn [bind]. eauto.
Qed.

Lemma clean_year_total (df : DataFrame) :
  single_canonical df -> exists d, clean_year rt df = Ok d.
Proof.
  intros Hs. unfold clean_year. destruct (has_column "Year" df) eqn:Hc; [|eauto].
  destruct (series_position_single "Year" df) as (j & ->); auto.
  - simpl. auto.
  - cbn [bind]. destruct (is_integer_dtype j df); eauto.
Qed.

Lemma clean_emissions_total (df : DataFrame) :
  single_canonical df -> exists d, clean_emissions rt df = Ok d.
Proof.
  intros Hs. unfold clean_emissions. destruct (has_column "Emissions" df) eqn:Hc; [|eauto].
  destruct (series_position_single "Emissions" df) as (j & ->); auto.
  - simpl. auto.
  - cbn [bind]. eauto.
Qed.

Lemma dropna_required_total (df : DataFrame) :
  single_canonical df -> exists d, dropna_required df = Ok d.
Proof.
  intros Hs. unfold dropna_required. destruct (all_required df) eqn:Ha; [|eauto].
  unfold all_required, required_columns in Ha. cbn [forallb] in Ha.
  rewrite !andb_true_iff in Ha. destruct Ha as (Hc & Hy & He & _).
  destruct (series_position_single "Country" df) as (jc & ->); auto; [simpl; auto|].
  destruct (series_position_single "Year" df) as (jy & ->); auto; [simpl; auto|].
  destruct (series_position_single "Emissions" df) as (je & ->); auto; [simpl; auto|].
  cbn [bind]. eauto.
Qed.

Lemma sort_key_total (name : string) (df : DataFrame) :
  In name required_columns -> single_canonical df -> exists ks, sort_key name df = Ok ks.
Proof.
  intros Hin Hs. unfold sort_key. destruct (has_column name df) eqn:Hc; [|eauto].
  destruct (series_position_single name df Hin Hs Hc) as (j & ->). cbn [bind]. eauto.
Qed.

Lemma sort_total (df : DataFrame) :
  single_canonical df -> exists d, sort_by_country_year df = Ok d.
Proof.
  intros Hs. unfold sort_by_country_year.
  destruct (sort_key_total "Country" df) as (kc & ->); auto; [simpl; auto|].
  destruct (sort_key_total "Year" df) as (ky & ->); auto; [simpl; auto|].
  cbn [bind]. destruct (kc ++ ky); eauto.
Qed.

(** With no repeated canonical name the cleaners return a frame. *)
Lemma clean_data_total (df : DataFrame) :
  single_canonical (prepare rt df) -> exists d, _clean_data rt df = Ok d.
Proof.
  intros Hs. unfold _clean_data. cbv zeta.
  destruct (clean_country_total _ Hs) as (d1 & H1). rewrite H1. cbn [bind].
  pose proof (clean_country_spec rt _ _ H1) as [C1 _].
  assert (S1 := single_canonical_columns _ _ C1 Hs).
  destruct (clean_year_total _ S1) as (d2 & H2). rewrite H2. cbn [bind].
  pose proof (clean_year_spec rt _ _ H2) as [C2 _].
  assert (S2 := single_canonical_columns _ _ C2 S1).
  destruct (clean_emissions_total _ S2) as (d3 & H3). rewrite H3. cbn [bind].
  pose proof (clean_emissions_spec rt _ _ H3) as [C3 _].
  assert (S3 := single_canonical_columns _ _ C3 S2).
  destruct (dropna_required_total _ S3) as (d4 & H4). rewrite H4. cbn [bind].
  pose proof (dropna_required_spec _ _ H4) as [C4 _].
  assert (S4 := single_canonical_columns _ _ C4 S3).
  apply sort_total, S4.
Qed.

Lemma missing_columns_columns (df df' : DataFrame) :
  columns df' = columns df -> missing_columns df' = missing_columns df.
Proof. unfold missing_columns, has_column. intros ->. reflexivity. Qed.

(** The schema error, whenever the cleaners get through: a canonical column
    absent after mapping is reported with the columns present. *)
Lemma schema_error_when_missing (df : DataFrame) :
  let mapped := prepare rt (_handle_oecd_structure rt df) in
  single_canonical mapped ->
  missing_columns mapped <> [] ->
  load_and_clean_data rt df
  = Raise (ProcessingError (ValueError_missing (missing_columns mapped) (columns mapped))).
Proof.
  intros mapped Hs Hm. rewrite load_unfold.
  destruct (clean_data_total _ Hs) as (d & Hd). rewrite Hd.
  pose proof (clean_data_columns rt _ _ Hd) as Hc. fold mapped in Hc.
  unfold _validate_data.
  rewrite (missing_columns_columns _ _ Hc), Hc.
  destruct (missing_columns mapped); [congruence|reflexivity].
Qed.

End Totality.

Example scenario_C_schema_error (rt : Runtime) :
  load_and_clean_data rt scenario_C
  = Raise (ProcessingError (ValueError_missing ["Emissions"] (text_row ["Country"; "Year"]))).
Proof. reflexivity. Qed.

(** C2 at the sheet with headers Country, Region, Year. After mapping the
    headers read Country, Country, Year, so Emissions is the one canonical
    column absent; the run then stops in the country cleaner with an error
    of pandas, not with the error that lists the missing columns. *)
Theorem duplicate_headers_crash (rt : Runtime) :
  columns (prepare rt (_handle_oecd_structure rt duplicate_sheet))
  = text_row ["Country"; "Country"; "Year"] /\
  missing_columns (prepare rt (_handle_oecd_structure rt duplicate_sheet)) = ["Emissions"] /\
  load_and_clean_data rt duplicate_sheet = Raise (ProcessingError PandasError).
Proof. repeat split; reflexivity. Qed.

(** C3. When the three columns are there and no row is left, the run fails
    with the empty-data error, so a returned table always has a row; rows
    whose emissions are all negative are all dropped by the emissions
    cleaner, as on scenario D. *)
Theorem empty_dataset_error (rt : Runtime) :
  (forall df d,
     _clean_data rt (_handle_oecd_structure rt df) = Ok d ->
     missing_columns d = [] -> rows d = [] ->
     load_and_clean_data rt df = Raise (ProcessingError ValueError_empty)) /\
  (forall df out, load_and_clean_data rt df = Ok out -> rows out <> []) /\
  (forall df j,
     series_position "Emissions" df = Ok j ->
     (forall r, In r (rows df) -> SFltb (to_numeric rt (cell_at j r)) F64.zero = true) ->
     exists d, clean_emissions rt df = Ok d /\ rows d = []) /\
  load_and_clean_data rt scenario_D = Raise (ProcessingError ValueError_empty).
Proof.
  split; [|split; [|split]].
  - intros df d Hc Hm Hr. rewrite load_unfold, Hc.
    unfold _validate_data. rewrite Hm, Hr. reflexivity.
  - intros df out H. apply load_ok in H. apply H.
  - intros df j Hj Hneg.
    destruct (clean_emissions rt df) as [d|e] eqn:Hd.
    + exists d. split; [reflexivity|].
      apply clean_emissions_spec in Hd.
      destruct Hd as [_ [[Hc _]|(j' & Hj' & Hrows)]].
      * rewrite (has_column_position _ _ _ Hj) in Hc. discriminate.
      * destruct (rows d) as [|r' t] eqn:E; [reflexivity|].
        destruct (proj1 (Hrows r') (or_introl eq_refl)) as (r & Hr & _ & _ & Hpos).
        rewrite Hj in Hj'. inversion Hj'; subst j'.
        rewrite (F64Facts.ltb_zero_not_leb _ (Hneg r Hr)) in Hpos. discriminate.
    + unfold clean_emissions in Hd.
      rewrite (has_column_position _ _ _ Hj), Hj in Hd. discriminate.
  - reflexivity.
Qed.

Lemma empty_dataset_error_witness :
  (exists d, clean_emissions whole_runtime scenario_D = Ok d /\ rows d = []) /\
  load_and_clean_data whole_runtime scenario_D = Raise (ProcessingError ValueError_empty).
Proof.
  split.
  - apply (proj1 (proj2 (proj2 (empty_dataset_error whole_runtime))) scenario_D 2%nat).
    + reflexivity.
    + intros r [<-|[<-|[]]]; reflexivity.
  - apply (proj2 (proj2 (proj2 (empty_dataset_error whole_runtime)))).
Defined.

(** ** The classification stage *)

Lemma validator_raises_no_pandas_error (d : DataFrame) :
  _validate_data d <> Raise PandasError.
Proof.
  intros H. apply validate_errors in H.
  destruct H as [[_ H]|(_ & _ & H)]; discriminate.
Qed.

(** C4. The stage returns a frame on every input: the sheet itself when no
    layout matches, when a transformer raises, and when the agency-report
    transformer finds no period row or no record; the frame of the
    transformer otherwise. An error of the run is raised after the stage,
    and by the validator alone when no canonical name labels two columns
    after mapping and every year the period parser reads lies within
    int64. On the sheet with headers Country, Region, Year, which the stage
    passes through, the run is stopped by an error of pandas in the
    cleaners, an error the validator never raises. *)
Theorem stage_never_raises (rt : Runtime) (df : DataFrame) :
  (_is_wide_format_with_years df = false ->
   (length (oecd_indicators rt df) < 2)%nat ->
   _handle_oecd_structure rt df = df) /\
  (forall e, handle_body rt df = Raise e -> _handle_oecd_structure rt df = df) /\
  (_is_wide_format_with_years df = false ->
   (2 <= length (oecd_indicators rt df))%nat ->
   time_row_of rt df = None \/
   (exists t, time_row_of rt df = Some t /\ processed_data_of rt df t = []) ->
   _handle_oecd_structure rt df = df) /\
  (forall out, handle_body rt df = Ok out -> _handle_oecd_structure rt df = out) /\
  load_and_clean_data rt df =
    match _clean_data rt (_handle_oecd_structure rt df) with
    | Ok d => match _validate_data d with
              | Ok _ => Ok d
              | Raise e => Raise (ProcessingError e)
              end
    | Raise e => Raise (ProcessingError e)
    end /\
  (single_canonical (prepare rt (_handle_oecd_structure rt df)) ->
   years_fit rt (prepare rt (_handle_oecd_structure rt df)) ->
   forall e, load_and_clean_data rt df = Raise e ->
     exists d e', _clean_data rt (_handle_oecd_structure rt df) = Ok d /\
                  _validate_data d = Raise e' /\ e = ProcessingError e' /\
                  (e' = ValueError_missing (missing_columns d) (columns d) \/
                   e' = ValueError_empty)) /\
  (_handle_oecd_structure rt duplicate_sheet = duplicate_sheet /\
   load_and_clean_data rt duplicate_sheet = Raise (ProcessingError PandasError) /\
   forall d, _validate_data d <> Raise PandasError).
Proof.
  split; [|split; [|split; [|split; [|split; [|split]]]]].
  - intros Hw Hi. unfold _handle_oecd_structure, handle_body. rewrite Hw.
    destruct (2 <=? length (oecd_indicators rt df))%nat eqn:E; [|reflexivity].
    apply Nat.leb_le in E. lia.
  - intros e He. unfold _handle_oecd_structure. rewrite He. reflexivity.
  - intros Hw Hi Hnone. unfold _handle_oecd_structure, handle_body. rewrite Hw.
    apply Nat.leb_le in Hi. rewrite Hi. cbn [try_except].
    unfold _parse_oecd_format.
    destruct Hnone as [->|(t & -> & ->)]; reflexivity.
  - intros out Ho. unfold _handle_oecd_structure. rewrite Ho. reflexivity.
  - apply load_unfold.
  - intros Hs _ e He. rewrite load_unfold in He.
    destruct (clean_data_total rt _ Hs) as (d & Hd). rewrite Hd in He.
    destruct (_validate_data d) as [u|e'] eqn:V; [discriminate|].
    exists d, e'. split; [exact Hd|]. split; [exact V|].
    split; [congruence|].
    apply validate_errors in V. destruct V as [[_ V]|(_ & _ & V)]; auto.
  - split; [reflexivity|]. split; [reflexivity|].
    apply validator_raises_no_pandas_error.
Qed.

Lemma stage_never_raises_witness :
  handle_body whole_runtime clashing_sheet = Raise PandasError /\
  _handle_oecd_structure whole_runtime clashing_sheet = clashing_sheet.
Proof.
  split; [reflexivity|].
  apply (proj1 (proj2 (stage_never_raises whole_runtime clashing_sheet)) PandasError).
  reflexivity.
Defined.

(** ** The agency-report transformer *)

(** [search_d4] returns the leftmost window of four digits. *)
Lemma search_d4_spec (s g : string) :
  PyStr.search_d4 s = Some g <->
  exists pre post,
    s = (pre ++ g ++ post)%string /\
    String.length g = 4%nat /\ PyStr.four_digits_here g = true /\
    forall pre' rest, s = (pre' ++ rest)%string ->
      (String.length pre' < String.length pre)%nat ->
      PyStr.four_digits_here rest = false.
Proof.
  revert g. induction s as [|c t IH]; intros g.
  - simpl. split; [discriminate|].
    intros (pre & post & Hs & Hl & _).
    destruct pre; [|discriminate]. destruct g; discriminate.
  - cbn [PyStr.search_d4].
    destruct (PyStr.four_digits_here (String c t)) eqn:Hd.
    + split.
      * intros H. inversion H; subst g; clear H.
        destruct t as [|b [|c' [|d t']]]; try discriminate.
        assert (E0 : substring 0 0 t' = ""%string) by (destruct t'; reflexivity).
        simpl. rewrite E0.
        exists ""%string, t'. simpl. repeat split; auto.
        intros pre' rest _ Hlt. lia.
      * intros (pre & post & Hs & Hl & Hg & Hleft).
        destruct pre as [|p pre].
        -- simpl in Hs. rewrite Hs.
           destruct g as [|g1 [|g2 [|g3 [|g4 [|]]]]]; try discriminate.
           simpl. destruct post; reflexivity.
        -- assert (Hf : PyStr.four_digits_here (String c t) = false).
           { apply (Hleft ""%string (String c t) eq_refl). simpl. lia. }
           congruence.
    + rewrite IH. split.
      * intros (pre & post & Hs & Hl & Hg & Hleft).
        exists (String c pre), post.
        split; [simpl; rewrite <- Hs; reflexivity|].
        split; [exact Hl|]. split; [exact Hg|].
        intros pre' rest Hs' Hlt.
        destruct pre' as [|p pre'].
        -- simpl in Hs'. subst rest. exact Hd.
        -- simpl in Hs'. inversion Hs'; subst p.
           apply (Hleft pre' rest); [assumption|simpl in Hlt; lia].
      * intros (pre & post & Hs & Hl & Hg & Hleft).
        destruct pre as [|p pre].
        -- simpl in Hs. rewrite Hs in Hd.
           destruct g as [|g1 [|g2 [|g3 [|g4 [|]]]]]; try discriminate.
           simpl in Hd, Hg. congruence.
        -- simpl in Hs. inversion Hs; subst p.
           exists pre, post. repeat split; auto.
           intros pre' rest Hs' Hlt.
           apply (Hleft (String c pre') rest); [simpl; congruence|simpl; lia].
Qed.

Lemma extract_year_spec (label : string) (y : Z) :
  _extract_year_from_time_period label = Some y <->
  exists g, PyStr.search_d4 label = Some g /\ y = PyStr.digits_value 0 g /\
            1900 <= y <= 2030.
Proof.
  unfold _extract_year_from_time_period.
  destruct (PyStr.search_d4 label) as [g|].
  - destruct ((1900 <=? PyStr.digits_value 0 g) && (PyStr.digits_value 0 g <=? 2030)) eqn:E.
    + apply andb_true_iff in E. rewrite !Z.leb_le in E. split.
      * intros H. inversion H. exists g. auto.
      * intros (g' & Hg & -> & _). inversion Hg. reflexivity.
    + split; [discriminate|]. intros (g' & Hg & -> & Hr). inversion Hg; subst g'.
      apply andb_false_iff in E. rewrite !Z.leb_gt in E. lia.
  - split; [discriminate|]. intros (g' & Hg & _). discriminate.
Qed.

Lemma In_combine_map (A B : Type) (h : A -> B) (l : list A) (x : A) (c : B) :
  In (x, c) (combine l (map h l)) -> c = h x.
Proof.
  induction l as [|a t IH]; simpl; [tauto|].
  intros [H|H]; [inversion H; reflexivity|auto].
Qed.

(** The Year cell stored for a record agrees with the year extracted from
    its period label. *)
Lemma year_cell_agrees (A : Type) (f : A -> option Z) (l : list A) (x : A) (c : cell) :
  In (x, c) (combine l (infer_year_cells (map f l))) ->
  match f x with
  | Some y => c = CInt y \/ c = CFloat (F64.of_Z y)
  | None => is_null c = true
  end.
Proof.
  unfold infer_year_cells. intros H.
  assert (Hx : In (f x) (map f l)) by (apply in_map; eapply in_combine_l; exact H).
  destruct (forallb is_some (map f l)) eqn:E1;
    [|destruct (forallb (fun y => negb (is_some y)) (map f l)) eqn:E2];
    rewrite map_map in H; apply In_combine_map in H; subst c.
  - destruct (f x); auto.
  - rewrite forallb_forall in E2. specialize (E2 _ Hx).
    destruct (f x); [discriminate|reflexivity].
  - destruct (f x); auto.
Qed.

Lemma infer_year_cells_length (ys : list (option Z)) :
  length (infer_year_cells ys) = length ys.
Proof.
  unfold infer_year_cells.
  destruct (forallb is_some ys); [|destruct (forallb _ ys)]; apply length_map.
Qed.

Section AgencyFacts.

Variable rt : Runtime.

Lemma result_df_rows (recs : list (string * string * spec_float)) (r : list cell) :
  In r (rows (result_df recs)) ->
  exists rec ycell,
    In rec recs /\ r = oecd_row rec ycell /\
    match _extract_year_from_time_period (period_of rec) with
    | Some y => ycell = CInt y \/ ycell = CFloat (F64.of_Z y)
    | None => is_null ycell = true
    end.
Proof.
  unfold result_df. cbn [rows]. rewrite in_map_iff.
  intros ([rec ycell] & <- & Hin). exists rec, ycell.
  split; [eapply in_combine_l; exact Hin|]. split; [reflexivity|].
  apply (year_cell_agrees _ (fun rec => _extract_year_from_time_period (period_of rec))
           recs rec ycell Hin).
Qed.

Lemma result_df_length (recs : list (string * string * spec_float)) :
  length (rows (result_df recs)) = length recs.
Proof.
  unfold result_df. cbn [rows].
  rewrite length_map, length_combine, infer_year_cells_length, length_map.
  apply Nat.min_id.
Qed.

Lemma parse_oecd_format_records (df : DataFrame) (t : nat) :
  time_row_of rt df = Some t -> processed_data_of rt df t <> [] ->
  _parse_oecd_format rt df = result_df (processed_data_of rt df t).
Proof.
  intros Ht Hp. unfold _parse_oecd_format. rewrite Ht.
  destruct (processed_data_of rt df t); [congruence|reflexivity].
Qed.

Lemma parse_null (c : cell) : is_null c = true -> parse_time_value rt c = None.
Proof.
  destruct c as [s|z|f|]; try discriminate; [|reflexivity].
  destruct f; try discriminate. reflexivity.
Qed.

Lemma result_df_labelled (recs : list (string * string * spec_float)) :
  Forall (labelled_row recs) (rows (result_df recs)).
Proof.
  apply Forall_forall. intros r Hr. apply result_df_rows in Hr.
  destruct Hr as (rec & ycell & Hin & -> & Hy).
  exists (period_of rec). split; [reflexivity|]. split; [eauto|].
  unfold cell_at, oecd_row. cbn [nth]. intros Hna.
  destruct (_extract_year_from_time_period (period_of rec)) as [y|]; [eauto|].
  unfold notna in Hna. rewrite Hy in Hna. discriminate.
Qed.

Lemma filter_all (A : Type) (p : A -> bool) (l : list A) :
  (forall x, In x l -> p x = true) -> filter p l = l.
Proof.
  induction l as [|x t IH]; intros H; simpl; [reflexivity|].
  rewrite (H x (or_introl eq_refl)), IH; [reflexivity|].
  intros y Hy. apply H. right. exact Hy.
Qed.

Lemma map_id_on (A : Type) (f : A -> A) (l : list A) :
  (forall x, In x l -> f x = x) -> map f l = l.
Proof.
  induction l as [|x t IH]; intros H; simpl; [reflexivity|].
  rewrite (H x (or_introl eq_refl)), IH; [reflexivity|].
  intros y Hy. apply H. right. exact Hy.
Qed.

(** The cleaners receive the transformer's frame as it is, unless its Year
    or Emissions column holds no value at all and is dropped. *)
Lemma prepare_result_df (recs : list (string * string * spec_float)) :
  recs <> [] ->
  prepare rt (result_df recs) = result_df recs \/
  missing_columns (prepare rt (result_df recs)) <> [].
Proof.
  intros Hne.
  assert (Hrow : forall r, In r (rows (result_df recs)) ->
                   exists rec ycell, r = oecd_row rec ycell).
  { intros r Hr. apply result_df_rows in Hr.
    destruct Hr as (rec & ycell & _ & -> & _). eauto. }
  assert (Hdrop : dropna_rows_all (result_df recs) = result_df recs).
  { unfold dropna_rows_all. rewrite filter_all; [reflexivity|].
    intros r Hr. destruct (Hrow r Hr) as (rec & ycell & ->). reflexivity. }
  unfold prepare. cbv zeta. rewrite Hdrop.
  destruct (rows (result_df recs)) as [|r0 rest] eqn:Hrows.
  { exfalso. pose proof (result_df_length recs) as Hl. rewrite Hrows in Hl.
    destruct recs; [congruence|discriminate]. }
  destruct (Hrow r0) as (rec0 & y0 & Hr0); [left; reflexivity|].
  assert (M0 : existsb (fun r => notna (cell_at 0 r)) (r0 :: rest) = true)
    by (rewrite Hr0; reflexivity).
  assert (M3 : existsb (fun r => notna (cell_at 3 r)) (r0 :: rest) = true)
    by (rewrite Hr0; reflexivity).
  assert (Hcols : dropna_columns_all (result_df recs)
                  = {| columns := select [true;
                                          existsb (fun r => notna (cell_at 1 r)) (r0 :: rest);
                                          existsb (fun r => notna (cell_at 2 r)) (r0 :: rest);
                                          true] oecd_columns;
                       rows := map (select [true;
                                            existsb (fun r => notna (cell_at 1 r)) (r0 :: rest);
                                            existsb (fun r => notna (cell_at 2 r)) (r0 :: rest);
                                            true]) (r0 :: rest) |}).
  { unfold dropna_columns_all. rewrite Hrows.
    change (columns (result_df recs)) with oecd_columns.
    cbn [oecd_columns length seq map]. rewrite M0, M3. reflexivity. }
  rewrite Hcols. clear Hcols.
  destruct (existsb (fun r => notna (cell_at 1 r)) (r0 :: rest)) eqn:M1;
    destruct (existsb (fun r => notna (cell_at 2 r)) (r0 :: rest)) eqn:M2.
  - left.
    assert (Hsel : map (select [true; true; true; true]) (r0 :: rest) = r0 :: rest).
    { apply map_id_on. intros r Hr.
      destruct (Hrow r Hr) as (rec & ycell & ->). reflexivity. }
    rewrite Hsel. cbn [select].
    change (all_required {| columns := oecd_columns; rows := r0 :: rest |}) with true.
    cbv iota. rewrite <- Hrows. reflexivity.
  - right. cbn [select].
    rewrite (missing_columns_columns
               {| columns := text_row ["Country"; "Year"; "Original_Time_Period"]; rows := [] |});
      [discriminate|].
    reflexivity.
  - right. cbn [select].
    rewrite (missing_columns_columns
               {| columns := text_row ["Country"; "Emissions"; "Original_Time_Period"];
                  rows := [] |});
      [discriminate|].
    reflexivity.
  - right. cbn [select].
    rewrite (missing_columns_columns
               {| columns := text_row ["Country"; "Original_Time_Period"]; rows := [] |});
      [discriminate|].
    reflexivity.
Qed.

Lemma labelled_stable (recs : list (string * string * spec_float))
      (j : nat) (f : cell -> cell) (r : list cell) :
  j <> 1%nat -> j <> 3%nat -> labelled_row recs r -> labelled_row recs (map_at j f r).
Proof.
  intros H1 H3 (label & Hl & Hrec & Hy). exists label.
  rewrite !cell_at_map_at_other by congruence. auto.
Qed.

Lemma dated_stable (recs : list (string * string * spec_float))
      (j : nat) (f : cell -> cell) (r : list cell) :
  j <> 3%nat -> dated_row recs r -> dated_row recs (map_at j f r).
Proof.
  intros H3 (label & y & Hl & Hrec & Hy). exists label, y.
  rewrite cell_at_map_at_other by congruence. auto.
Qed.

(** What reaches the final table from the transformer's records. *)
Lemma agency_final (recs : list (string * string * spec_float)) (out : DataFrame) :
  recs <> [] ->
  _clean_data rt (result_df recs) = Ok out ->
  missing_columns out = [] ->
  columns out = oecd_columns /\ Forall (dated_row recs) (rows out).
Proof.
  intros Hne Hclean Hmiss.
  pose proof (clean_data_columns rt _ _ Hclean) as Hcols.
  destruct (prepare_result_df recs Hne) as [Hprep|Hbad].
  2:{ rewrite <- (missing_columns_columns _ _ Hcols) in Hbad. congruence. }
  rewrite Hprep in Hcols. split; [exact Hcols|].
  pose proof (clean_data_steps rt _ _ Hclean)
    as (d1 & d2 & d3 & d4 & H1 & H2 & H3 & H4 & H5).
  rewrite Hprep in H1.
  pose proof (clean_country_spec rt _ _ H1) as [C1 _].
  pose proof (clean_year_spec rt _ _ H2) as [C2 S2].
  change (columns (result_df recs)) with oecd_columns in C1.
  assert (P0 : forall j, series_position "Country" (result_df recs) = Ok j -> j = 0%nat)
    by (intros j Hj; inversion Hj; reflexivity).
  assert (P1 : forall j, series_position "Year" d1 = Ok j -> j = 1%nat).
  { intros j Hj. unfold series_position in Hj. rewrite C1 in Hj.
    inversion Hj; reflexivity. }
  assert (P2 : forall j, series_position "Emissions" d2 = Ok j -> j = 2%nat).
  { intros j Hj. unfold series_position in Hj. rewrite C2, C1 in Hj.
    inversion Hj; reflexivity. }
  assert (F1 : Forall (labelled_row recs) (rows d1)).
  { apply (country_step_keeps rt _ _ _ H1); [|apply result_df_labelled].
    intros j f r Hj. rewrite (P0 j Hj). apply labelled_stable; discriminate. }
  assert (F2 : Forall (dated_row recs) (rows d2)).
  { destruct S2 as [[Hno _]|(j & Hj & S2)].
    { unfold has_column in Hno. rewrite C1 in Hno. discriminate. }
    rewrite (P1 j Hj) in S2. clear j Hj.
    rewrite Forall_forall in *.
    destruct S2 as [[Hint ->]|[_ S2]].
    - intros r Hr. destruct (F1 r Hr) as (label & Hl & Hrec & Hy).
      unfold is_integer_dtype in Hint. rewrite forallb_forall in Hint.
      specialize (Hint r Hr).
      destruct Hy as (y & Hy).
      { destruct (cell_at 1 r); try discriminate. reflexivity. }
      exists label, y. auto.
    - intros r' Hr'. apply S2 in Hr'. destruct Hr' as (r & y' & Hr & Hp & ->).
      destruct (F1 r Hr) as (label & Hl & Hrec & Hy).
      destruct Hy as (y & Hy).
      { unfold notna. destruct (is_null (cell_at 1 r)) eqn:N; [|reflexivity].
        rewrite (parse_null _ N) in Hp. discriminate. }
      exists label, y. rewrite cell_at_map_at_other by discriminate. auto. }
  assert (F3 : Forall (dated_row recs) (rows d3)).
  { apply (emissions_step_keeps rt _ _ _ H3); [|exact F2].
    intros j f r Hj. rewrite (P2 j Hj). apply dated_stable; discriminate. }
  eapply tail_steps_keep; eassumption.
Qed.

End AgencyFacts.

(** What holds of the years of an agency report. The year extracted from
    a period label is the number spelled by the leftmost run of four
    digits, kept only within 1900..2030. Every record of the agency-report
    transformer stores that year, as an integer or as the float equal to
    it, and a missing value when the label gives none. Every row of the
    final table stems from a record whose label gives a year, so a record
    without one is absent from it. *)
Theorem agency_years (rt : Runtime) :
  (forall label y,
     _extract_year_from_time_period label = Some y <->
     exists pre g post,
       label = (pre ++ g ++ post)%string /\
       String.length g = 4%nat /\ PyStr.four_digits_here g = true /\
       (forall pre' rest, label = (pre' ++ rest)%string ->
          (String.length pre' < String.length pre)%nat ->
          PyStr.four_digits_here rest = false) /\
       y = PyStr.digits_value 0 g /\ 1900 <= y <= 2030) /\
  (forall df t,
     time_row_of rt df = Some t -> processed_data_of rt df t <> [] ->
     _parse_oecd_format rt df = result_df (processed_data_of rt df t) /\
     length (rows (_parse_oecd_format rt df)) = length (processed_data_of rt df t) /\
     forall r, In r (rows (_parse_oecd_format rt df)) ->
       exists rec ycell,
         In rec (processed_data_of rt df t) /\ r = oecd_row rec ycell /\
         match _extract_year_from_time_period (period_of rec) with
         | Some y => ycell = CInt y \/ ycell = CFloat (F64.of_Z y)
         | None => is_null ycell = true
         end) /\
  (forall df t out,
     _is_wide_format_with_years df = false ->
     (2 <= length (oecd_indicators rt df))%nat ->
     time_row_of rt df = Some t -> processed_data_of rt df t <> [] ->
     load_and_clean_data rt df = Ok out ->
     columns out = oecd_columns /\
     forall r, In r (rows out) ->
       exists label y,
         cell_at 3 r = CStr label /\
         (exists rec, In rec (processed_data_of rt df t) /\ period_of rec = label) /\
         _extract_year_from_time_period label = Some y).
Proof.
  split; [|split].
  - intros label y. rewrite extract_year_spec. split.
    + intros (g & Hg & Hy & Hr). apply search_d4_spec in Hg.
      destruct Hg as (pre & post & Hs & Hl & Hd & Hleft).
      exists pre, g, post. auto 10.
    + intros (pre & g & post & Hs & Hl & Hd & Hleft & Hy & Hr).
      exists g. split; [|auto]. apply search_d4_spec. exists pre, post. auto.
  - intros df t Ht Hp.
    rewrite (parse_oecd_format_records rt df t Ht Hp).
    split; [reflexivity|]. split; [apply result_df_length|].
    intros r. apply result_df_rows.
  - intros df t out Hw Hi Ht Hp Hload.
    apply load_ok in Hload. destruct Hload as (Hclean & Hmiss & _).
    assert (Hstage : _handle_oecd_structure rt df = result_df (processed_data_of rt df t)).
    { unfold _handle_oecd_structure, handle_body. rewrite Hw.
      apply Nat.leb_le in Hi. rewrite Hi. cbn [try_except].
      apply parse_oecd_format_records; assumption. }
    rewrite Hstage in Hclean.
    destruct (agency_final rt _ out Hp Hclean Hmiss) as [Hc HF].
    split; [exact Hc|]. rewrite Forall_forall in HF. exact HF.
Qed.

Lemma agency_years_witness :
  exists out,
    load_and_clean_data whole_runtime agency_sheet = Ok out /\
    forall r, In r (rows out) ->
      exists label y,
        cell_at 3 r = CStr label /\
        (exists rec, In rec (processed_data_of whole_runtime agency_sheet 1)
                     /\ period_of rec = label) /\
        _extract_year_from_time_period label = Some y.
Proof.
  eexists. split; [reflexivity|].
  apply (proj2 (proj2 (agency_years whole_runtime)) agency_sheet 1%nat);
    [reflexivity | apply Nat.leb_le; reflexivity | reflexivity | discriminate | reflexivity].
Defined.

(** On the same sheet the transformer stores the years 2021 as floats next
    to the missing year of the last label, and the year cleaner, reading
    each float through its text 2021.0, returns 20210. *)
Example mixed_labels_distort_years (rt : Runtime) :
  float_repr rt (F64.of_Z 2021) = "2021.0" ->
  rows (_handle_oecd_structure rt agency_sheet)
  = [[CStr "Norway"; CFloat (F64.of_Z 2021); CFloat (F64.of_Z 1); CStr "2021-Q1"];
     [CStr "Norway"; CFloat (F64.of_Z 2021); CFloat (F64.of_Z 2); CStr "2021-Q2"];
     [CStr "Norway"; CFloat (F64.of_Z 2021); CFloat (F64.of_Z 3); CStr "2021-Q3"];
     [CStr "Norway"; CFloat (F64.of_Z 2021); CFloat (F64.of_Z 4); CStr "2021-Q4"];
     [CStr "Norway"; CFloat F64.nan; CFloat (F64.of_Z 10); CStr "Total"]] /\
  load_and_clean_data rt agency_sheet
  = Ok {| columns := oecd_columns;
          rows := [[CStr "Norway"; CInt 20210; CFloat (F64.of_Z 1); CStr "2021-Q1"];
                   [CStr "Norway"; CInt 20210; CFloat (F64.of_Z 2); CStr "2021-Q2"];
                   [CStr "Norway"; CInt 20210; CFloat (F64.of_Z 3); CStr "2021-Q3"];
                   [CStr "Norway"; CInt 20210; CFloat (F64.of_Z 4); CStr "2021-Q4"]] |}.
Proof.
  intros Hrepr. split; [reflexivity|].
  rewrite load_unfold.
  change (_handle_oecd_structure rt agency_sheet)
    with {| columns := oecd_columns;
            rows := [[CStr "Norway"; CFloat (F64.of_Z 2021); CFloat (F64.of_Z 1); CStr "2021-Q1"];
                     [CStr "Norway"; CFloat (F64.of_Z 2021); CFloat (F64.of_Z 2); CStr "2021-Q2"];
                     [CStr "Norway"; CFloat (F64.of_Z 2021); CFloat (F64.of_Z 3); CStr "2021-Q3"];
                     [CStr "Norway"; CFloat (F64.of_Z 2021); CFloat (F64.of_Z 4); CStr "2021-Q4"];
                     [CStr "Norway"; CFloat F64.nan; CFloat (F64.of_Z 10); CStr "Total"]] |}.
  unfold _clean_data. cbv zeta.
  change (prepare rt _)
    with {| columns := oecd_columns;
            rows := [[CStr "Norway"; CFloat (F64.of_Z 2021); CFloat (F64.of_Z 1); CStr "2021-Q1"];
                     [CStr "Norway"; CFloat (F64.of_Z 2021); CFloat (F64.of_Z 2); CStr "2021-Q2"];
                     [CStr "Norway"; CFloat (F64.of_Z 2021); CFloat (F64.of_Z 3); CStr "2021-Q3"];
                     [CStr "Norway"; CFloat (F64.of_Z 2021); CFloat (F64.of_Z 4); CStr "2021-Q4"];
                     [CStr "Norway"; CFloat F64.nan; CFloat (F64.of_Z 10); CStr "Total"]] |}.
  change (clean_country rt _)
    with (Ok {| columns := oecd_columns;
            rows := [[CStr "Norway"; CFloat (F64.of_Z 2021); CFloat (F64.of_Z 1); CStr "2021-Q1"];
                     [CStr "Norway"; CFloat (F64.of_Z 2021); CFloat (F64.of_Z 2); CStr "2021-Q2"];
                     [CStr "Norway"; CFloat (F64.of_Z 2021); CFloat (F64.of_Z 3); CStr "2021-Q3"];
                     [CStr "Norway"; CFloat (F64.of_Z 2021); CFloat (F64.of_Z 4); CStr "2021-Q4"];
                     [CStr "Norway"; CFloat F64.nan; CFloat (F64.of_Z 10); CStr "Total"]] |}).
  cbn [bind].
  assert (Hy : parsed_year_cell rt (CFloat (F64.of_Z 2021)) = CInt 20210).
  { unfold parsed_year_cell, parse_time_value.
    change (py_str rt (CFloat (F64.of_Z 2021))) with (float_repr rt (F64.of_Z 2021)).
    rewrite Hrepr. reflexivity. }
  unfold clean_year.
  cbn [has_column columns oecd_columns existsb label_is String.eqb Ascii.eqb Bool.eqb orb
       series_position positions_from bind].
  change (is_integer_dtype 1 _) with false. cbv iota.
  unfold map_col, filter_col. cbn [rows columns map map_at filter cell_at nth].
  rewrite Hy.
  reflexivity.
Qed.

(** C7 at the agency report with the period labels 2021-Q1 to 2021-Q4 and
    Total. The year extracted from the label 2021-Q1 is 2021, the integer
    the record should hold; the table the run returns holds 20210 in the
    row of that label and in every other row. The label Total gives no
    year, so the Year column of the transformer holds floats, and the year
    cleaner reads the digits of the text 2021.0. *)
Theorem agency_year_is_not_label_year (rt : Runtime) :
  float_repr rt (F64.of_Z 2021) = "2021.0" ->
  _extract_year_from_time_period "2021-Q1" = Some 2021 /\
  In [CStr "Norway"; CFloat (F64.of_Z 2021); CFloat (F64.of_Z 1); CStr "2021-Q1"]
     (rows (_parse_oecd_format rt agency_sheet)) /\
  exists out,
    load_and_clean_data rt agency_sheet = Ok out /\
    In [CStr "Norway"; CInt 20210; CFloat (F64.of_Z 1); CStr "2021-Q1"] (rows out) /\
    forall r, In r (rows out) -> cell_at 1 r = CInt 20210.
Proof.
  intros Hrepr. split; [reflexivity|]. split; [left; reflexivity|].
  destruct (mixed_labels_distort_years rt Hrepr) as [_ Hload].
  eexists. split; [exact Hload|]. cbn [rows]. split; [left; reflexivity|].
  intros r [<-|[<-|[<-|[<-|[]]]]]; reflexivity.
Qed.

Lemma agency_year_is_not_label_year_witness :
  exists out,
    load_and_clean_data whole_runtime agency_sheet = Ok out /\
    In [CStr "Norway"; CInt 20210; CFloat (F64.of_Z 1); CStr "2021-Q1"] (rows out).
Proof.
  destruct (agency_year_is_not_label_year whole_runtime eq_refl)
    as (_ & _ & out & Hload & Hin & _).
  exists out. split; assumption.
Defined.

(* ===================================================================== *)
(** * Further properties of the code *)
(* ===================================================================== *)

(** ** The sheet selector *)

Lemma find_first (A : Type) (p : A -> bool) (before after : list A) (x : A) :
  (forall y, In y before -> p y = false) -> p x = true ->
  find p (before ++ x :: after) = Some x.
Proof.
  intros Hb Hx. induction before as [|y t IH]; simpl.
  - rewrite Hx. reflexivity.
  - rewrite (Hb y (or_introl eq_refl)). apply IH. intros z Hz. apply Hb. right. exact Hz.
Qed.

Lemma find_all_false (A : Type) (p : A -> bool) (l : list A) :
  (forall y, In y l -> p y = false) -> find p l = None.
Proof.
  induction l as [|y t IH]; intros H; simpl; [reflexivity|].
  rewrite (H y (or_introl eq_refl)). apply IH. intros z Hz. apply H. right. exact Hz.
Qed.

Lemma first_keyword_sheet_some (keywords names : list string) (s : string) :
  first_keyword_sheet keywords names = Some s ->
  In s names /\ exists k, In k keywords /\ names_keyword k s = true.
Proof.
  induction keywords as [|k ks IH]; simpl; [discriminate|].
  destruct (find (names_keyword k) names) as [s'|] eqn:F.
  - intros H. inversion H; subst s'. apply find_some in F. destruct F as [Hin Hk].
    split; [exact Hin|]. exists k. auto.
  - intros H. destruct (IH H) as (Hin & k' & Hk' & Hn). split; [exact Hin|].
    exists k'. auto.
Qed.

Lemma first_keyword_sheet_none (keywords names : list string) :
  (forall k s, In k keywords -> In s names -> names_keyword k s = false) ->
  first_keyword_sheet keywords names = None.
Proof.
  induction keywords as [|k ks IH]; intros H; simpl; [reflexivity|].
  rewrite find_all_false.
  - apply IH. intros k' s Hk Hs. apply H; [right; exact Hk|exact Hs].
  - intros s Hs. apply H; [left; reflexivity|exact Hs].
Qed.

Lemma first_keyword_sheet_priority (pre post names before after : list string)
      (k s : string) :
  (forall k' s', In k' pre -> In s' (before ++ s :: after) -> names_keyword k' s' = false) ->
  (forall s', In s' before -> names_keyword k s' = false) ->
  names_keyword k s = true ->
  first_keyword_sheet (pre ++ k :: post) (before ++ s :: after) = Some s.
Proof.
  intros Hpre Hbefore Hs. induction pre as [|k0 pre IH]; simpl.
  - rewrite (find_first _ (names_keyword k) before after s Hbefore Hs). reflexivity.
  - rewrite find_all_false.
    + apply IH. intros k' s' Hk' Hs'. apply Hpre; [right; exact Hk'|exact Hs'].
    + intros s' Hs'. apply Hpre; [left; reflexivity|exact Hs'].
Qed.

Lemma find_main_sheet_in (sheet_names : list string) :
  sheet_names <> [] ->
  exists sheet, _find_main_sheet sheet_names = Ok sheet /\ In sheet sheet_names.
Proof.
  intros Hne. unfold _find_main_sheet.
  destruct (first_keyword_sheet priority_keywords sheet_names) as [s|] eqn:F.
  - exists s. split; [reflexivity|]. apply (first_keyword_sheet_some _ _ _ F).
  - destruct sheet_names as [|s t]; [congruence|].
    exists s. split; [reflexivity|left; reflexivity].
Qed.

(** X1. The selector fails only on a workbook without sheets; otherwise it
    returns one of the names it was given, and the first of them when no
    name contains a keyword. *)
Theorem find_main_sheet_member (sheet_names : list string) :
  (sheet_names = [] -> _find_main_sheet sheet_names = Raise PandasError) /\
  (sheet_names <> [] ->
   exists sheet, _find_main_sheet sheet_names = Ok sheet /\ In sheet sheet_names) /\
  ((forall k s, In k priority_keywords -> In s sheet_names -> names_keyword k s = false) ->
   forall first rest, sheet_names = first :: rest ->
     _find_main_sheet sheet_names = Ok first).
Proof.
  split; [|split].
  - intros ->. reflexivity.
  - apply find_main_sheet_in.
  - intros Hno first rest ->. unfold _find_main_sheet.
    rewrite (first_keyword_sheet_none _ _ Hno). reflexivity.
Qed.

Lemma find_main_sheet_member_witness :
  exists sheet, _find_main_sheet ["Cover"; "Annex"] = Ok sheet /\ In sheet ["Cover"; "Annex"].
Proof.
  apply (proj1 (proj2 (find_main_sheet_member ["Cover"; "Annex"]))). discriminate.
Defined.

(** X2. Keyword priority wins over sheet order: the selector returns the
    first sheet whose name contains the earliest keyword of the list that
    any sheet name contains, in whatever position that sheet stands. *)
Theorem find_main_sheet_priority
        (pre post before after : list string) (keyword sheet : string) :
  priority_keywords = pre ++ keyword :: post ->
  (forall k s, In k pre -> In s (before ++ sheet :: after) -> names_keyword k s = false) ->
  (forall s, In s before -> names_keyword keyword s = false) ->
  names_keyword keyword sheet = true ->
  _find_main_sheet (before ++ sheet :: after) = Ok sheet.
Proof.
  intros Hk Hpre Hbefore Hs. unfold _find_main_sheet. rewrite Hk.
  rewrite (first_keyword_sheet_priority pre post (before ++ sheet :: after)
             before after keyword sheet Hpre Hbefore Hs).
  reflexivity.
Qed.

Lemma find_main_sheet_priority_witness : _find_main_sheet cover_book = Ok "Table 1".
Proof.
  apply (find_main_sheet_priority [] ["data"; "emissions"; "maritime"; "transport"; "co2"; "sheet1"]
           ["Cover"; "Notes data"] [] "table" "Table 1").
  - reflexivity.
  - intros k s [].
  - intros s [<-|[<-|[]]]; reflexivity.
  - reflexivity.
Defined.

(** ** The workbook *)

Lemma find_none_iff_false (book : list (string * DataFrame)) (name : string) (df : DataFrame) :
  In (name, df) book ->
  find (fun item => String.eqb (fst item) name) book = None -> False.
Proof.
  intros Hin F. pose proof (List.find_none _ _ F (name, df) Hin) as H.
  simpl in H. rewrite String.eqb_refl in H. discriminate.
Qed.

(** X3. A workbook with at least one sheet is processed as the sheet the
    selector names, which is one of its sheets; a workbook without sheets
    fails. *)
Theorem workbook_runs_selected_sheet (rt : Runtime) (book : list (string * DataFrame)) :
  (book = [] -> load_and_clean_workbook rt book = Raise (ProcessingError PandasError)) /\
  (book <> [] ->
   exists name df,
     In (name, df) book /\ _find_main_sheet (map fst book) = Ok name /\
     load_and_clean_workbook rt book = load_and_clean_data rt df).
Proof.
  split; [intros ->; reflexivity|]. intros Hne.
  destruct (find_main_sheet_in (map fst book)) as (name & Hname & Hin).
  { destruct book; [congruence|discriminate]. }
  apply in_map_iff in Hin. destruct Hin as ([name' df'] & Hfst & Hin'). simpl in Hfst. subst name'.
  unfold load_and_clean_workbook, sheet_of. rewrite Hname. cbn [bind].
  destruct (find (fun item => String.eqb (fst item) name) book) as [[n d]|] eqn:F.
  - apply find_some in F. destruct F as [Fin Fn]. simpl in Fn.
    apply String.eqb_eq in Fn. subst n.
    exists name, d. repeat split; auto.
  - exfalso. apply (find_none_iff_false book name df' Hin' F).
Qed.

Lemma workbook_runs_selected_sheet_witness :
  load_and_clean_workbook whole_runtime [("Cover"%string, duplicate_sheet);
                                         ("Table 1"%string, scenario_A)]
  = load_and_clean_data whole_runtime scenario_A.
Proof.
  destruct (proj2 (workbook_runs_selected_sheet whole_runtime
                     [("Cover"%string, duplicate_sheet); ("Table 1"%string, scenario_A)]))
    as (name & df & Hin & Hname & Hrun); [discriminate|].
  rewrite Hrun. inversion Hname; subst name.
  destruct Hin as [Hin|[Hin|[]]]; inversion Hin. reflexivity.
Defined.

(** ** When a run fails, and how *)

Section Failures.

Variable rt : Runtime.

Lemma clean_country_raises (df : DataFrame) :
  (2 <= length (positions_from 0 "Country" (columns df)))%nat ->
  clean_country rt df = Raise PandasError.
Proof.
  intros H. unfold clean_country.
  destruct (series_position_cases "Country" df) as [Hc|[(_ & Hl & _)|(Hc & _ & Hs)]].
  - unfold has_column in Hc. apply not_true_iff_false in Hc.
    exfalso. apply Hc. apply positions_nonempty with (i := 0%nat).
    intros E. rewrite E in H. simpl in H. lia.
  - lia.
  - rewrite Hc, Hs. reflexivity.
Qed.

Lemma clean_year_raises (df : DataFrame) :
  (2 <= length (positions_from 0 "Year" (columns df)))%nat ->
  clean_year rt df = Raise PandasError.
Proof.
  intros H. unfold clean_year.
  destruct (series_position_cases "Year" df) as [Hc|[(_ & Hl & _)|(Hc & _ & Hs)]].
  - unfold has_column in Hc. apply not_true_iff_false in Hc.
    exfalso. apply Hc. apply positions_nonempty with (i := 0%nat).
    intros E. rewrite E in H. simpl in H. lia.
  - lia.
  - rewrite Hc, Hs. reflexivity.
Qed.

Lemma clean_emissions_raises (df : DataFrame) :
  (2 <= length (positions_from 0 "Emissions" (columns df)))%nat ->
  clean_emissions rt df = Raise PandasError.
Proof.
  intros H. unfold clean_emissions.
  destruct (series_position_cases "Emissions" df) as [Hc|[(_ & Hl & _)|(Hc & _ & Hs)]].
  - unfold has_column in Hc. apply not_true_iff_false in Hc.
    exfalso. apply Hc. apply positions_nonempty with (i := 0%nat).
    intros E. rewrite E in H. simpl in H. lia.
  - lia.
  - rewrite Hc, Hs. reflexivity.
Qed.

Lemma single_canonical_counts (df : DataFrame) :
  single_canonical df <->
  (length (positions_from 0 "Country" (columns df)) <= 1)%nat /\
  (length (positions_from 0 "Year" (columns df)) <= 1)%nat /\
  (length (positions_from 0 "Emissions" (columns df)) <= 1)%nat.
Proof.
  unfold single_canonical, required_columns. split.
  - intros H. repeat split; apply H; simpl; auto.
  - intros (Hc & Hy & He) name [<-|[<-|[<-|[]]]]; assumption.
Qed.

Lemma series_position_error (name : string) (df : DataFrame) (e : exn) :
  series_position name df = Raise e -> e = PandasError.
Proof.
  unfold series_position.
  destruct (positions_from 0 name (columns df)) as [|j [|]]; intros H;
    inversion H; reflexivity.
Qed.

Lemma clean_country_error (df : DataFrame) (e : exn) :
  clean_country rt df = Raise e -> e = PandasError.
Proof.
  unfold clean_country. destruct (has_column "Country" df); [|discriminate].
  destruct (series_position "Country" df) eqn:Hs; [discriminate|].
  cbn [bind]. intros H. inversion H; subst. eapply series_position_error, Hs.
Qed.

Lemma clean_year_error (df : DataFrame) (e : exn) :
  clean_year rt df = Raise e -> e = PandasError.
Proof.
  unfold clean_year. destruct (has_column "Year" df); [|discriminate].
  destruct (series_position "Year" df) as [j|] eqn:Hs.
  - cbn [bind]. destruct (is_integer_dtype j df); discriminate.
  - cbn [bind]. intros H. inversion H; subst. eapply series_position_error, Hs.
Qed.

(** A canonical name on two columns stops the cleaners. *)
Lemma clean_data_raises (df : DataFrame) :
  ~ single_canonical (prepare rt df) -> _clean_data rt df = Raise PandasError.
Proof.
  intros Hns. unfold _clean_data. cbv zeta.
  destruct (clean_country rt (prepare rt df)) as [d1|e] eqn:H1.
  2:{ rewrite (clean_country_error _ _ H1). reflexivity. }
  cbn [bind]. pose proof (clean_country_spec rt _ _ H1) as [C1 _].
  destruct (clean_year rt d1) as [d2|e] eqn:H2.
  2:{ rewrite (clean_year_error _ _ H2). reflexivity. }
  cbn [bind]. pose proof (clean_year_spec rt _ _ H2) as [C2 _].
  destruct (le_lt_dec (length (positions_from 0 "Country" (columns (prepare rt df)))) 1)
    as [Lc|Lc].
  2:{ rewrite clean_country_raises in H1 by lia. discriminate. }
  destruct (le_lt_dec (length (positions_from 0 "Year" (columns (prepare rt df)))) 1)
    as [Ly|Ly].
  2:{ rewrite clean_year_raises in H2 by (rewrite C1; lia). discriminate. }
  destruct (le_lt_dec (length (positions_from 0 "Emissions" (columns (prepare rt df)))) 1)
    as [Le|Le].
  { exfalso. apply Hns. apply single_canonical_counts. auto. }
  rewrite clean_emissions_raises by (rewrite C2, C1; lia). reflexivity.
Qed.

(** No cell of a blank row holds a value. *)
Lemma single_canonical_dec (df : DataFrame) :
  {single_canonical df} + {~ single_canonical df}.
Proof.
  destruct (le_lt_dec (length (positions_from 0 "Country" (columns df))) 1) as [Lc|Lc];
    [|right; intros H; apply single_canonical_counts in H; lia].
  destruct (le_lt_dec (length (positions_from 0 "Year" (columns df))) 1) as [Ly|Ly];
    [|right; intros H; apply single_canonical_counts in H; lia].
  destruct (le_lt_dec (length (positions_from 0 "Emissions" (columns df))) 1) as [Le|Le];
    [|right; intros H; apply single_canonical_counts in H; lia].
  left. apply single_canonical_counts. auto.
Qed.

(** No cell of a blank row holds a value. *)
Lemma blank_row_cells (r : list cell) (j : nat) :
  forallb is_null r = true -> is_null (cell_at j r) = true.
Proof.
  intros H. unfold cell_at. revert j.
  induction r as [|c t IH]; intros [|j]; simpl in *; try reflexivity;
    apply andb_true_iff in H; destruct H as [Hc Ht]; auto.
Qed.

Lemma to_numeric_null (c : cell) : is_null c = true -> to_numeric rt c = F64.nan.
Proof.
  destruct c as [s|z|f|]; simpl; try discriminate; [|reflexivity].
  destruct f; try discriminate. reflexivity.
Qed.

Lemma In_firstn (A : Type) (n : nat) (l : list A) (x : A) :
  In x (firstn n l) -> In x l.
Proof.
  revert l. induction n as [|n IH]; intros [|y t]; simpl; try tauto.
  intros [H|H]; auto.
Qed.

Lemma blank_rows_stay (df : DataFrame) :
  (forall r, In r (rows df) -> forallb is_null r = true) ->
  forall r, In r (rows (_handle_oecd_structure rt df)) -> forallb is_null r = true.
Proof.
  intros Hblank. unfold _handle_oecd_structure, handle_body.
  destruct (_is_wide_format_with_years df) eqn:Hw.
  - destruct (_transform_wide_to_long rt df) as [out|e] eqn:Ht; cbn [try_except];
      [|exact Hblank].
    assert (Hy : year_columns df <> []).
    { destruct (wide_has_year_columns df Hw) as [_ H2].
      intros E. rewrite E in H2. simpl in H2. lia. }
    rewrite (wide_ok rt df out Hy Ht). cbn [rows]. intros r Hr.
    apply In_long_rows in Hr.
    destruct Hr as (r0 & j & label & y & Hr0 & _ & _ & Hna & _).
    rewrite (to_numeric_null _ (blank_row_cells r0 j (Hblank r0 Hr0))) in Hna.
    discriminate.
  - assert (Hind : oecd_indicators rt df = []).
    { unfold oecd_indicators.
      assert (Hall : forall r, In r (firstn 20 (rows df)) -> is_indicator_row rt r = false).
      { intros r Hr. apply In_firstn in Hr. specialize (Hblank r Hr).
        unfold is_indicator_row, row_text, dropna_row.
        replace (filter notna r) with (@nil cell); [reflexivity|].
        symmetry. clear Hr. induction r as [|c t IH]; [reflexivity|].
        simpl in Hblank. apply andb_true_iff in Hblank. destruct Hblank as [Hc Ht].
        simpl. unfold notna at 1. rewrite Hc. simpl. apply IH, Ht. }
      induction (firstn 20 (rows df)) as [|r t IH]; [reflexivity|].
      simpl. rewrite (Hall r (or_introl eq_refl)). apply IH.
      intros r' Hr'. apply Hall. right. exact Hr'. }
    rewrite Hind. cbn [try_except length Nat.leb]. exact Hblank.
Qed.

Lemma select_none (A : Type) (n : nat) (f : nat -> bool) (l : list A) (i : nat) :
  (forall j, f j = false) -> select (map f (seq i n)) l = [].
Proof.
  intros Hf. revert i l. induction n as [|n IH]; intros i l; simpl; [reflexivity|].
  destruct l as [|x t]; [reflexivity|]. rewrite Hf. apply IH.
Qed.

(** The cleaners on a sheet whose rows are all blank: nothing is left, not
    even the header. *)
Lemma clean_blank (df : DataFrame) :
  (forall r, In r (rows df) -> forallb is_null r = true) ->
  _clean_data rt df = Ok {| columns := []; rows := [] |}.
Proof.
  intros Hblank.
  assert (Hrows : rows (dropna_rows_all df) = []).
  { unfold dropna_rows_all. cbn [rows].
    induction (rows df) as [|r t IH]; [reflexivity|]. simpl.
    rewrite (Hblank r (or_introl eq_refl)). simpl. apply IH.
    intros r' Hr'. apply Hblank. right. exact Hr'. }
  assert (Hprep : prepare rt df = {| columns := []; rows := [] |}).
  { unfold prepare. cbv zeta. unfold dropna_columns_all. rewrite Hrows.
    cbn [map existsb]. rewrite select_none by reflexivity. reflexivity. }
  unfold _clean_data. cbv zeta. rewrite Hprep. reflexivity.
Qed.

End Failures.

(** X4. A sheet without rows, or whose rows are all blank, fails with the
    missing-columns error that names all three columns and no available
    column: the blank rows are dropped, then every column, the header
    included. It never reaches the empty-data error. *)
Theorem blank_sheet_error (rt : Runtime) (df : DataFrame) :
  (forall r, In r (rows df) -> forallb is_null r = true) ->
  load_and_clean_data rt df
  = Raise (ProcessingError (ValueError_missing ["Country"; "Year"; "Emissions"] [])).
Proof.
  intros Hblank. rewrite load_unfold.
  rewrite (clean_blank rt _ (blank_rows_stay rt df Hblank)). reflexivity.
Qed.

Lemma blank_sheet_error_witness :
  load_and_clean_data whole_runtime
    {| columns := text_row ["Country"; "Year"; "Emissions"];
       rows := [[CNone; CFloat F64.nan; CNone]] |}
  = Raise (ProcessingError (ValueError_missing ["Country"; "Year"; "Emissions"] [])).
Proof.
  apply blank_sheet_error. intros r [<-|[]]. reflexivity.
Defined.

(** X5. Every run ends in one of four ways: a table, the missing-columns
    error, the empty-data error, or an error of pandas. When, after
    mapping, no canonical name labels two columns and every year the
    period parser reads lies within int64, the run ends in one of the
    first three; when the name Country labels two columns it ends in an
    error of pandas. *)
Theorem run_outcomes (rt : Runtime) (df : DataFrame) :
  ((exists out, load_and_clean_data rt df = Ok out) \/
   (exists missing available,
      load_and_clean_data rt df
      = Raise (ProcessingError (ValueError_missing missing available))) \/
   load_and_clean_data rt df = Raise (ProcessingError ValueError_empty) \/
   load_and_clean_data rt df = Raise (ProcessingError PandasError)) /\
  (single_canonical (prepare rt (_handle_oecd_structure rt df)) ->
   years_fit rt (prepare rt (_handle_oecd_structure rt df)) ->
   (exists out, load_and_clean_data rt df = Ok out) \/
   (exists missing available,
      load_and_clean_data rt df
      = Raise (ProcessingError (ValueError_missing missing available))) \/
   load_and_clean_data rt df = Raise (ProcessingError ValueError_empty)) /\
  ((2 <= length (positions_from 0 "Country"
                   (columns (prepare rt (_handle_oecd_structure rt df)))))%nat ->
   load_and_clean_data rt df = Raise (ProcessingError PandasError)).
Proof.
  rewrite load_unfold.
  destruct (_clean_data rt (_handle_oecd_structure rt df)) as [d|e] eqn:Hc.
  - assert (Hs : single_canonical (prepare rt (_handle_oecd_structure rt df))).
    { destruct (single_canonical_dec (prepare rt (_handle_oecd_structure rt df)))
        as [Hs|Hns]; [exact Hs|].
      rewrite (clean_data_raises rt _ Hns) in Hc. discriminate. }
    assert (Hdup : ~ (2 <= length (positions_from 0 "Country"
                        (columns (prepare rt (_handle_oecd_structure rt df)))))%nat).
    { apply single_canonical_counts in Hs. lia. }
    destruct (_validate_data d) as [u|e] eqn:V.
    + split; [left; eauto|]. split; [left; eauto|]. intros H. contradiction.
    + apply validate_errors in V. destruct V as [[_ ->]|(_ & _ & ->)].
      * split; [right; left; eauto|]. split; [right; left; eauto|].
        intros H. contradiction.
      * split; [right; right; left; reflexivity|].
        split; [right; right; reflexivity|]. intros H. contradiction.
  - destruct (single_canonical_dec (prepare rt (_handle_oecd_structure rt df))) as [Hs|Hns].
    + destruct (clean_data_total rt _ Hs) as (d & Hd). congruence.
    + rewrite (clean_data_raises rt _ Hns) in Hc. inversion Hc; subst e.
      split; [right; right; right; reflexivity|].
      split; [intros H; contradiction|reflexivity].
Qed.

Lemma run_outcomes_witness :
  (exists out, load_and_clean_data whole_runtime scenario_B = Ok out) \/
  (exists missing available,
     load_and_clean_data whole_runtime scenario_B
     = Raise (ProcessingError (ValueError_missing missing available))) \/
  load_and_clean_data whole_runtime scenario_B = Raise (ProcessingError ValueError_empty).
Proof.
  apply (proj1 (proj2 (run_outcomes whole_runtime scenario_B))).
  - apply single_canonical_counts. vm_compute. repeat split; lia.
  - intros j r y Hj Hr Hp. vm_compute in Hj. inversion Hj; subst j.
    vm_compute in Hr. destruct Hr as [<-|[]]. vm_compute in Hp.
    inversion Hp. reflexivity.
Defined.

(** ** Text *)

Module TextFacts.

Ltac by_cases_on c :=
  destruct c as [[] [] [] [] [] [] [] []]; try discriminate; reflexivity.

Lemma digit_not_space (c : ascii) : PyStr.isdigit c = true -> PyStr.isspace c = false.
Proof. by_cases_on c. Qed.

Lemma digit_not_dash (c : ascii) : PyStr.isdigit c = true -> Ascii.eqb c "-" = false.
Proof. by_cases_on c. Qed.

Lemma digit_not_M (c : ascii) :
  PyStr.isdigit c = true -> Ascii.eqb (PyStr.upper_char c) "M" = false.
Proof. by_cases_on c. Qed.

Lemma digit_upper (c : ascii) : PyStr.isdigit c = true -> PyStr.upper_char c = c.
Proof. by_cases_on c. Qed.

Lemma digit_value_range (c : ascii) :
  PyStr.isdigit c = true -> 0 <= PyStr.digit_value c <= 9.
Proof.
  unfold PyStr.isdigit, PyStr.between, PyStr.digit_value.
  rewrite andb_true_iff, !Z.leb_le. lia.
Qed.

Lemma all_chars_impl (p q : ascii -> bool) (s : string) :
  (forall c, p c = true -> q c = true) -> all_chars p s = true -> all_chars q s = true.
Proof.
  intros H. induction s as [|c t IH]; simpl; [reflexivity|].
  rewrite !andb_true_iff. intros [Hc Ht]. auto.
Qed.

Lemma all_chars_app (p : ascii -> bool) (a b : string) :
  all_chars p (a ++ b) = all_chars p a && all_chars p b.
Proof.
  induction a as [|c t IH]; simpl; [reflexivity|]. rewrite IH, andb_assoc. reflexivity.
Qed.

Lemma lstrip_keep (c : ascii) (t : string) :
  PyStr.isspace c = false -> PyStr.lstrip (String c t) = String c t.
Proof. intros H. unfold PyStr.lstrip. simpl. rewrite H. reflexivity. Qed.

Lemma rstrip_app (a b : string) (c : ascii) :
  PyStr.isspace c = false ->
  PyStr.rstrip (a ++ String c b) = (a ++ String c (PyStr.rstrip b))%string.
Proof.
  intros Hc. induction a as [|x a IH].
  - simpl. destruct (PyStr.rstrip b); [rewrite Hc|]; reflexivity.
  - cbn [append PyStr.rstrip]. rewrite IH. destruct a; reflexivity.
Qed.

Lemma rstrip_plain (s : string) :
  all_chars (fun c => negb (PyStr.isspace c)) s = true -> PyStr.rstrip s = s.
Proof.
  induction s as [|c t IH]; simpl; [reflexivity|].
  rewrite andb_true_iff, negb_true_iff. intros [Hc Ht]. rewrite (IH Ht).
  destruct t; [rewrite Hc|]; reflexivity.
Qed.

(** Text without white space is its own [strip]. *)
Lemma strip_plain (s : string) :
  all_chars (fun c => negb (PyStr.isspace c)) s = true -> PyStr.strip s = s.
Proof.
  intros H. unfold PyStr.strip.
  destruct s as [|c t]; [reflexivity|].
  pose proof H as H'. simpl in H'. apply andb_true_iff in H'. destruct H' as [Hc _].
  apply negb_true_iff in Hc. rewrite (lstrip_keep c t Hc). apply rstrip_plain, H.
Qed.

Lemma contains_char_none (c : ascii) (s : string) :
  all_chars (fun x => negb (Ascii.eqb x c)) s = true ->
  PyStr.contains (String c "") s = false.
Proof.
  induction s as [|x t IH]; simpl; [reflexivity|].
  rewrite andb_true_iff, negb_true_iff. intros [Hx Ht]. rewrite (IH Ht), orb_false_r.
  destruct (ascii_dec c x) as [->|Hne]; [|reflexivity].
  rewrite Ascii.eqb_refl in Hx. discriminate.
Qed.

Lemma contains_char_app (c : ascii) (a b : string) :
  PyStr.contains (String c "") (a ++ String c b) = true.
Proof.
  induction a as [|x a IH]; simpl.
  - destruct (ascii_dec c c); [|congruence]. destruct b; reflexivity.
  - rewrite IH. apply orb_true_r.
Qed.

Lemma before_app (c : ascii) (a b : string) :
  all_chars (fun x => negb (Ascii.eqb x c)) a = true ->
  PyStr.before c (a ++ String c b) = a.
Proof.
  induction a as [|x a IH]; simpl.
  - rewrite Ascii.eqb_refl. reflexivity.
  - rewrite andb_true_iff, negb_true_iff. intros [Hx Ha]. rewrite Hx, (IH Ha). reflexivity.
Qed.

Lemma digits_only_digits (s : string) :
  all_chars PyStr.isdigit s = true -> PyStr.digits_only s = s.
Proof.
  unfold PyStr.digits_only. induction s as [|c t IH]; simpl; [reflexivity|].
  rewrite andb_true_iff. intros [Hc Ht]. rewrite Hc, (IH Ht). reflexivity.
Qed.

Lemma digits_only_app (a b : string) :
  PyStr.digits_only (a ++ b) = (PyStr.digits_only a ++ PyStr.digits_only b)%string.
Proof.
  unfold PyStr.digits_only. induction a as [|c t IH]; simpl; [reflexivity|].
  destruct (PyStr.isdigit c); simpl; rewrite IH; reflexivity.
Qed.

Lemma digits_value_app (v : Z) (a b : string) :
  PyStr.digits_value v (a ++ b) = PyStr.digits_value (PyStr.digits_value v a) b.
Proof. revert v. induction a as [|c t IH]; intros v; simpl; [reflexivity|apply IH]. Qed.

Lemma upper_digits (s : string) :
  all_chars PyStr.isdigit s = true -> PyStr.upper s = s.
Proof.
  unfold PyStr.upper. induction s as [|c t IH]; simpl; [reflexivity|].
  rewrite andb_true_iff. intros [Hc Ht]. rewrite (digit_upper c Hc), (IH Ht). reflexivity.
Qed.

Lemma ord_chr (n : Z) : 0 <= n < 256 -> PyStr.ord (PyStr.chr n) = n.
Proof.
  intros H. unfold PyStr.ord, PyStr.chr.
  rewrite nat_ascii_embedding by lia. lia.
Qed.

Lemma digit_chr (m : Z) :
  0 <= m <= 9 ->
  PyStr.isdigit (PyStr.chr (48 + m)) = true /\ PyStr.digit_value (PyStr.chr (48 + m)) = m.
Proof.
  intros H. unfold PyStr.isdigit, PyStr.between, PyStr.digit_value.
  rewrite ord_chr by lia. split; [|lia].
  apply andb_true_iff. rewrite !Z.leb_le. lia.
Qed.

(** The digits [nat_digits] writes in front of [acc]. *)
Lemma append_assoc (a b c : string) : ((a ++ b) ++ c = a ++ (b ++ c))%string.
Proof. induction a as [|x t IH]; simpl; [reflexivity|rewrite IH; reflexivity]. Qed.

Lemma nat_digits_step (k : nat) (n : Z) (acc : string) :
  PyStr.nat_digits (S k) n acc =
  if n <? 10 then String (PyStr.chr (48 + n mod 10)) acc
  else PyStr.nat_digits k (n / 10) (String (PyStr.chr (48 + n mod 10)) acc).
Proof. reflexivity. Qed.

(** The digits [nat_digits] writes in front of [acc]. *)
Lemma nat_digits_spec (fuel : nat) :
  forall n acc, 0 <= n < 10 ^ Z.of_nat (S fuel) ->
    exists d, PyStr.nat_digits (S fuel) n acc = (d ++ acc)%string /\
              d <> ""%string /\ all_chars PyStr.isdigit d = true /\
              PyStr.digits_value 0 d = n.
Proof.
  induction fuel as [|k IH]; intros n acc Hn;
    rewrite nat_digits_step;
    assert (Hm : 0 <= n mod 10 <= 9) by (pose proof (Z.mod_pos_bound n 10); lia);
    destruct (digit_chr (n mod 10) Hm) as [Hd Hv];
    destruct (n <? 10) eqn:E.
  - apply Z.ltb_lt in E. exists (String (PyStr.chr (48 + n mod 10)) "").
    split; [reflexivity|]. split; [discriminate|].
    split; [cbn [all_chars]; rewrite Hd; reflexivity|].
    cbn [PyStr.digits_value]. rewrite Hv, Z.mod_small by lia. lia.
  - apply Z.ltb_ge in E. simpl in Hn. lia.
  - apply Z.ltb_lt in E. exists (String (PyStr.chr (48 + n mod 10)) "").
    split; [reflexivity|]. split; [discriminate|].
    split; [cbn [all_chars]; rewrite Hd; reflexivity|].
    cbn [PyStr.digits_value]. rewrite Hv, Z.mod_small by lia. lia.
  - apply Z.ltb_ge in E.
    destruct (IH (n / 10) (String (PyStr.chr (48 + n mod 10)) acc))
      as (d & Hd' & Hne & Hall & Hval).
    { split; [apply Z.div_pos; lia|].
      apply Z.div_lt_upper_bound; [lia|].
      rewrite (Nat2Z.inj_succ (S k)), Z.pow_succ_r in Hn by lia. lia. }
    exists (d ++ String (PyStr.chr (48 + n mod 10)) "")%string.
    split; [rewrite Hd', append_assoc; reflexivity|].
    split; [destruct d; [congruence|discriminate]|].
    split.
    + rewrite all_chars_app, Hall. cbn [all_chars]. rewrite Hd. reflexivity.
    + rewrite digits_value_app, Hval. cbn [PyStr.digits_value]. rewrite Hv.
      pose proof (Z.div_mod n 10). lia.
Qed.

(** [str(z)] of a natural number is its decimal text, and reads back. *)
Lemma str_of_int_natural (z : Z) :
  0 <= z ->
  PyStr.str_of_int z <> ""%string /\
  all_chars PyStr.isdigit (PyStr.str_of_int z) = true /\
  PyStr.digits_value 0 (PyStr.str_of_int z) = z.
Proof.
  intros Hz. unfold PyStr.str_of_int.
  destruct (z <? 0) eqn:E; [apply Z.ltb_lt in E; lia|].
  rewrite Z.abs_eq by lia.
  destruct (nat_digits_spec (Z.to_nat (Z.log2 z)) z "") as (d & Hd & Hne & Hall & Hval).
  { split; [lia|]. rewrite Nat2Z.inj_succ, Z2Nat.id by apply Z.log2_nonneg.
    destruct (Z.eq_dec z 0) as [->|Hnz]; [simpl; lia|].
    pose proof (Z.log2_spec z ltac:(lia)) as [_ Hlt].
    eapply Z.lt_le_trans; [exact Hlt|].
    apply Z.pow_le_mono_l. lia. }
  rewrite Hd. assert (Happ : (d ++ "")%string = d).
  { clear. induction d as [|c t IH]; simpl; [reflexivity|rewrite IH; reflexivity]. }
  rewrite Happ. auto.
Qed.

Lemma str_of_int_negative (z : Z) :
  z < 0 -> exists d, PyStr.str_of_int z = String "-" d /\
                     all_chars PyStr.isdigit d = true.
Proof.
  intros Hz. unfold PyStr.str_of_int.
  apply Z.ltb_lt in Hz. rewrite Hz. apply Z.ltb_lt in Hz.
  destruct (str_of_int_natural (Z.abs z) ltac:(lia)) as (_ & Hall & _).
  unfold PyStr.str_of_int in Hall.
  destruct (Z.abs z <? 0) eqn:E; [apply Z.ltb_lt in E; lia|].
  rewrite Z.abs_idemp in Hall. eauto.
Qed.

End TextFacts.

(** ** The period parser *)

Section PeriodFacts.

Variable rt : Runtime.

Lemma digits_plain (s : string) :
  all_chars PyStr.isdigit s = true ->
  all_chars (fun c => negb (PyStr.isspace c)) s = true /\
  all_chars (fun c => negb (Ascii.eqb c "-")) s = true /\
  all_chars (fun c => negb (Ascii.eqb c "M")) (PyStr.upper s) = true.
Proof.
  intros H. split; [|split].
  - eapply TextFacts.all_chars_impl; [|exact H].
    intros c Hc. rewrite (TextFacts.digit_not_space c Hc). reflexivity.
  - eapply TextFacts.all_chars_impl; [|exact H].
    intros c Hc. rewrite (TextFacts.digit_not_dash c Hc). reflexivity.
  - rewrite (TextFacts.upper_digits s H).
    eapply TextFacts.all_chars_impl; [|exact H].
    intros c Hc. pose proof (TextFacts.digit_not_M c Hc) as HM.
    rewrite (TextFacts.digit_upper c Hc) in HM. rewrite HM. reflexivity.
Qed.

Lemma to_numeric_digits_number (d : string) :
  d <> ""%string -> to_numeric_digits d = Some (PyStr.digits_value 0 d).
Proof.
  intros H. unfold to_numeric_digits. destruct d; [congruence|reflexivity].
Qed.

Lemma parse_text_value (s : string) :
  parse_time_value rt (CStr s) =
  let str_value := PyStr.strip s in
  if PyStr.contains "-" str_value then
    to_numeric_digits (PyStr.digits_only (PyStr.before "-" str_value))
  else if PyStr.contains "M" (PyStr.upper str_value) then
    to_numeric_digits (PyStr.digits_only (PyStr.before "M" (PyStr.upper str_value)))
  else if negb (String.eqb (PyStr.digits_only str_value) "") then
    to_numeric_digits (PyStr.digits_only str_value)
  else None.
Proof. reflexivity. Qed.

Lemma parse_number_text (d : string) :
  is_number_text d -> parse_time_value rt (CStr d) = Some (PyStr.digits_value 0 d).
Proof.
  intros [Hne Hd]. destruct (digits_plain d Hd) as (Hs & Hdash & HM).
  rewrite parse_text_value. cbv zeta. rewrite (TextFacts.strip_plain d Hs).
  rewrite (TextFacts.contains_char_none "-" d Hdash).
  rewrite (TextFacts.contains_char_none "M" _ HM).
  rewrite (TextFacts.digits_only_digits d Hd).
  destruct d; [congruence|]. reflexivity.
Qed.

Lemma parse_year_month (d rest : string) :
  is_number_text d ->
  parse_time_value rt (CStr (d ++ "-" ++ rest)) = Some (PyStr.digits_value 0 d).
Proof.
  intros [Hne Hd]. destruct (digits_plain d Hd) as (Hs & Hdash & _).
  rewrite parse_text_value. cbv zeta.
  assert (Hstrip : PyStr.strip (d ++ "-" ++ rest)
                   = (d ++ String "-" (PyStr.rstrip rest))%string).
  { unfold PyStr.strip. destruct d as [|c t]; [congruence|].
    simpl in Hs. apply andb_true_iff in Hs. destruct Hs as [Hc _].
    apply negb_true_iff in Hc.
    change ((String c t ++ "-" ++ rest)%string) with (String c (t ++ String "-" rest)).
    rewrite (TextFacts.lstrip_keep c _ Hc).
    change (String c (t ++ String "-" rest)) with ((String c t ++ String "-" rest)%string).
    apply TextFacts.rstrip_app. reflexivity. }
  rewrite Hstrip, TextFacts.contains_char_app, (TextFacts.before_app "-" d _ Hdash).
  rewrite (TextFacts.digits_only_digits d Hd). apply to_numeric_digits_number, Hne.
Qed.

Lemma parse_int_cell (z : Z) :
  parse_time_value rt (CInt z) = if 0 <=? z then Some z else None.
Proof.
  destruct (0 <=? z) eqn:E.
  - apply Z.leb_le in E.
    destruct (TextFacts.str_of_int_natural z E) as (Hne & Hd & Hv).
    change (parse_time_value rt (CInt z))
      with (parse_time_value rt (CStr (PyStr.str_of_int z))).
    rewrite parse_number_text by (split; assumption). rewrite Hv. reflexivity.
  - apply Z.leb_gt in E.
    destruct (TextFacts.str_of_int_negative z E) as (d & Hd & Hall).
    change (parse_time_value rt (CInt z))
      with (parse_time_value rt (CStr (PyStr.str_of_int z))).
    rewrite Hd, parse_text_value. cbv zeta.
    destruct (digits_plain d Hall) as (Hs & _ & _).
    rewrite TextFacts.strip_plain by (simpl; rewrite Hs; reflexivity).
    change (String "-" d) with (("" ++ String "-" d)%string).
    rewrite TextFacts.contains_char_app, TextFacts.before_app by reflexivity.
    reflexivity.
Qed.

Lemma parse_float_text (f : spec_float) (d : string) :
  F64.is_finite f = true -> F64.is_zero f = false ->
  float_repr rt f = (d ++ ".0")%string -> is_number_text d ->
  parse_time_value rt (CFloat f) = Some (10 * PyStr.digits_value 0 d).
Proof.
  intros Hfin Hnz Hrepr [Hne Hd].
  assert (Hstr : py_str rt (CFloat f) = (d ++ ".0")%string).
  { destruct f; try discriminate. exact Hrepr. }
  change (parse_time_value rt (CFloat f))
    with (parse_time_value rt (CStr (py_str rt (CFloat f)))).
  rewrite Hstr, parse_text_value. cbv zeta.
  destruct (digits_plain d Hd) as (Hs & Hdash & HM).
  assert (Hall : forall p, all_chars p d = true ->
                           p "."%char = true -> p "0"%char = true ->
                           all_chars p (d ++ ".0") = true).
  { intros p H1 H2 H3. rewrite TextFacts.all_chars_app, H1. simpl. rewrite H2, H3. reflexivity. }
  rewrite TextFacts.strip_plain by (apply Hall; auto).
  rewrite TextFacts.contains_char_none by (apply Hall; auto).
  assert (Hup : PyStr.upper (d ++ ".0") = (d ++ ".0")%string).
  { unfold PyStr.upper. rewrite <- (TextFacts.upper_digits d Hd) at 2.
    unfold PyStr.upper. clear. induction d as [|c t IH]; simpl; [reflexivity|].
    rewrite IH. reflexivity. }
  rewrite Hup.
  rewrite TextFacts.contains_char_none by (apply Hall; auto; rewrite <- (TextFacts.upper_digits d Hd); exact HM).
  rewrite TextFacts.digits_only_app, (TextFacts.digits_only_digits d Hd).
  change (PyStr.digits_only ".0") with "0"%string.
  destruct d as [|c t]; [congruence|].
  cbn [append String.eqb negb]. unfold to_numeric_digits. cbn [append String.eqb].
  change (String c (t ++ "0")) with ((String c t ++ "0")%string).
  rewrite TextFacts.digits_value_app. simpl. f_equal. unfold PyStr.digit_value. simpl. lia.
Qed.

End PeriodFacts.

(** X6. The period parser reads the year of a plain number text, of a
    year-month text (digits, a dash, anything), and of a natural number,
    all within int64; a negative number gives no year. *)
Theorem period_parser_years (rt : Runtime) :
  (forall d, is_number_text d -> PyStr.digits_value 0 d < 2 ^ 63 ->
     parse_time_value rt (CStr d) = Some (PyStr.digits_value 0 d)) /\
  (forall d rest, is_number_text d -> PyStr.digits_value 0 d < 2 ^ 63 ->
     parse_time_value rt (CStr (d ++ "-" ++ rest)) = Some (PyStr.digits_value 0 d)) /\
  (forall z, 0 <= z < 2 ^ 63 -> parse_time_value rt (CInt z) = Some z) /\
  (forall z, - 2 ^ 63 <= z < 0 -> parse_time_value rt (CInt z) = None).
Proof.
  split; [intros d Hd _; exact (parse_number_text rt d Hd)|].
  split; [intros d rest Hd _; exact (parse_year_month rt d rest Hd)|].
  split; intros z Hz; rewrite parse_int_cell.
  - destruct Hz as [Hz _]. apply Z.leb_le in Hz. rewrite Hz. reflexivity.
  - destruct Hz as [_ Hz]. apply Z.leb_gt in Hz. rewrite Hz. reflexivity.
Qed.

Lemma period_parser_years_witness :
  parse_time_value whole_runtime (CStr ("2020" ++ "-" ++ "Q3 ")) = Some 2020 /\
  parse_time_value whole_runtime (CInt 1999) = Some 1999.
Proof.
  split.
  - apply (proj1 (proj2 (period_parser_years whole_runtime)) "2020"%string "Q3 "%string);
      [split; [discriminate|reflexivity]|reflexivity].
  - apply (proj1 (proj2 (proj2 (period_parser_years whole_runtime))) 1999). lia.
Defined.

(** X7. A year held as a float is read through its text: when Python
    prints the float as the digits of the year followed by .0, the period
    parser returns ten times the year. This is what a Year column with a
    missing cell, which pandas stores as floats, goes through. *)
Theorem float_year_times_ten (rt : Runtime) (f : spec_float) (d : string) :
  F64.is_finite f = true -> F64.is_zero f = false ->
  float_repr rt f = (d ++ ".0")%string -> is_number_text d ->
  10 * PyStr.digits_value 0 d < 2 ^ 63 ->
  parse_time_value rt (CFloat f) = Some (10 * PyStr.digits_value 0 d) /\
  parsed_year_cell rt (CFloat f) = CInt (10 * PyStr.digits_value 0 d).
Proof.
  intros Hfin Hnz Hrepr Hd _.
  pose proof (parse_float_text rt f d Hfin Hnz Hrepr Hd) as H.
  split; [exact H|]. unfold parsed_year_cell. rewrite H. reflexivity.
Qed.

Lemma float_year_times_ten_witness :
  parsed_year_cell whole_runtime (CFloat (F64.of_Z 2019)) = CInt 20190.
Proof.
  apply (float_year_times_ten whole_runtime (F64.of_Z 2019) "2019");
    [reflexivity | reflexivity | reflexivity | split; [discriminate|reflexivity]
    | reflexivity].
Defined.

(** ** The column mapper on mapped headers *)

Lemma map_label_range (rt : Runtime) (col : cell) :
  In (map_label rt col) (text_row required_columns) \/ map_label rt col = col.
Proof.
  unfold map_label. cbv zeta.
  destruct (exact_match country_synonyms _); [left; simpl; auto|].
  destruct (exact_match year_synonyms _); [left; simpl; auto|].
  destruct (exact_match emissions_synonyms _); [left; simpl; auto|].
  destruct (partial_match emissions_synonyms _); [left; simpl; auto|].
  right. reflexivity.
Qed.

Lemma map_label_idempotent (rt : Runtime) (col : cell) :
  map_label rt (map_label rt col) = map_label rt col.
Proof.
  destruct (map_label_range rt col) as [H|H]; [|rewrite H; exact H].
  simpl in H. destruct H as [<-|[<-|[<-|[]]]]; reflexivity.
Qed.

(** X8. Every header the mapper returns is Country, Year or Emissions, or
    the header it was given; mapping the headers a second time changes
    nothing, and the rows are never touched. *)
Theorem map_columns_idempotent (rt : Runtime) (df : DataFrame) :
  _map_columns rt (_map_columns rt df) = _map_columns rt df /\
  rows (_map_columns rt df) = rows df /\
  length (columns (_map_columns rt df)) = length (columns df) /\
  forall i col, nth_error (columns df) i = Some col ->
    exists col', nth_error (columns (_map_columns rt df)) i = Some col' /\
      (col' = CStr "Country" \/ col' = CStr "Year" \/ col' = CStr "Emissions" \/
       col' = col).
Proof.
  split; [|split; [reflexivity|split; [apply length_map|]]].
  - unfold _map_columns. cbn [columns rows]. f_equal.
    rewrite map_map. apply map_ext. intros col. apply map_label_idempotent.
  - intros i col Hi. exists (map_label rt col). split.
    + unfold _map_columns. cbn [columns]. rewrite nth_error_map, Hi. reflexivity.
    + destruct (map_label_range rt col) as [H|H]; [|auto].
      simpl in H. destruct H as [<-|[<-|[<-|[]]]]; auto.
Qed.

(** X9. The mapper looks at a header only through its text with the
    surrounding white space removed and the letters lowered: two headers
    that agree on it receive the same canonical name, or are both kept. *)
Theorem mapper_ignores_case_and_padding (rt : Runtime) (a b : cell) :
  PyStr.lower (PyStr.strip (py_str rt a)) = PyStr.lower (PyStr.strip (py_str rt b)) ->
  (map_label rt a = map_label rt b /\
   In (map_label rt a) (text_row required_columns)) \/
  (map_label rt a = a /\ map_label rt b = b).
Proof.
  intros H. unfold map_label, exact_match, partial_match. cbv zeta. rewrite H.
  destruct (existsb _ country_synonyms); [left; simpl; auto|].
  destruct (existsb _ year_synonyms); [left; simpl; auto|].
  destruct (existsb _ emissions_synonyms); [left; simpl; auto|].
  destruct (existsb _ emissions_synonyms); [left; simpl; auto|].
  right. split; reflexivity.
Qed.

Lemma mapper_ignores_case_and_padding_witness :
  map_label whole_runtime (CStr "  time PERIOD ") = map_label whole_runtime (CStr "Time Period") /\
  map_label whole_runtime (CStr "  time PERIOD ") = CStr "Year".
Proof.
  destruct (mapper_ignores_case_and_padding whole_runtime
              (CStr "  time PERIOD ") (CStr "Time Period") eq_refl) as [[H _]|[H _]].
  - split; [exact H|reflexivity].
  - discriminate H.
Defined.

(** ** The trend table, row by row *)

Lemma NoDup_unique (l : list string) : NoDup (unique l).
Proof.
  induction l as [|x t IH]; simpl; constructor.
  - rewrite filter_In, String.eqb_refl. intros [_ H]. discriminate.
  - apply NoDup_filter, IH.
Qed.

Lemma length_unique (l : list string) : (length (unique l) <= length l)%nat.
Proof.
  induction l as [|x t IH]; simpl; [lia|].
  pose proof (filter_length_le _ (fun y => negb (String.eqb y x)) (unique t)). lia.
Qed.

Lemma trend_of_country (c : string) (table : list CanonicalRecord) :
  map Country (trend_of c table)
  = if (2 <=? observations c table)%nat then [c] else [].
Proof.
  unfold trend_of. rewrite <- country_data_length.
  destruct (country_data_of c table) as [|a [|b t]]; reflexivity.
Qed.

Lemma trend_countries (table : list CanonicalRecord) (l : list string) :
  map Country (flat_map (fun c => trend_of c table) l)
  = filter (fun c => (2 <=? observations c table)%nat) l.
Proof.
  induction l as [|c t IH]; [reflexivity|].
  cbn [flat_map filter]. rewrite map_app, IH, trend_of_country.
  destruct (2 <=? observations c table)%nat; reflexivity.
Qed.

Lemma trend_rows_in_order_length (table : list CanonicalRecord) :
  (length (calculate_trends table) <= length (unique (map country table)))%nat.
Proof.
  rewrite <- (length_map Country). unfold calculate_trends.
  rewrite trend_countries. apply filter_length_le.
Qed.

(** X10. The trend table lists the countries that have at least two
    records, each once, in the order in which they first appear in the
    input. *)
Theorem trend_rows_in_order (table : list CanonicalRecord) :
  map Country (calculate_trends table)
  = filter (fun c => (2 <=? observations c table)%nat) (unique (map country table)) /\
  NoDup (map Country (calculate_trends table)) /\
  (length (calculate_trends table) <= length (unique (map country table)))%nat.
Proof.
  assert (H : map Country (calculate_trends table)
              = filter (fun c => (2 <=? observations c table)%nat)
                       (unique (map country table)))
    by apply trend_countries.
  split; [exact H|]. split.
  - rewrite H. apply NoDup_filter, NoDup_unique.
  - rewrite <- (length_map Country), H. apply filter_length_le.
Qed.

Lemma first_of_sorted (A : Type) (R : A -> A -> Prop) (x : A) (t : list A) :
  StronglySorted R (x :: t) -> forall r, In r (x :: t) -> r = x \/ R x r.
Proof.
  intros H r [<-|Hr]; [left; reflexivity|]. right.
  apply StronglySorted_inv in H. destruct H as [_ H].
  rewrite Forall_forall in H. apply H, Hr.
Qed.

Lemma last_of_sorted (A : Type) (R : A -> A -> Prop) (l : list A) (d : A) :
  StronglySorted R l -> forall r, In r l -> r = List.last l d \/ R r (List.last l d).
Proof.
  induction 1 as [|x t Hs IH Hx]; intros r Hr; [destruct Hr|].
  destruct t as [|y t'].
  - destruct Hr as [<-|[]]. left. reflexivity.
  - change (List.last (x :: y :: t') d) with (List.last (y :: t') d).
    destruct Hr as [<-|Hr]; [|apply IH, Hr].
    right. rewrite Forall_forall in Hx. apply Hx, In_last. discriminate.
Qed.

Lemma country_data_sorted (c : string) (table : list CanonicalRecord) :
  StronglySorted (fun a b => year a <= year b) (country_data_of c table).
Proof.
  apply Sorted_StronglySorted; [intros x y z; lia|].
  unfold country_data_of.
  pose proof (Sorted_sort CanonicalRecord (fun a b => year a <=? year b)) as H.
  eapply Sorted_ind with (P := fun l => Sorted (fun a b => year a <= year b) l);
    [constructor| |apply H; intros a b E; apply Z.leb_gt in E; apply Z.leb_le; lia].
  intros a l _ IH Hd. constructor; [exact IH|].
  destruct Hd; constructor. apply Z.leb_le. assumption.
Qed.

(** X11. In every trend row the first year is the earliest year the
    country has in the input and the last year is the latest one; both are
    years of records of that country. *)
Theorem trend_year_span (table : list CanonicalRecord) (row : TrendRow) :
  In row (calculate_trends table) ->
  First_Year row <= Last_Year row /\
  (forall r, In r table -> country r = Country row ->
             First_Year row <= year r <= Last_Year row) /\
  (exists r, In r table /\ country r = Country row /\ year r = First_Year row /\
             emissions r = First_Year_Emissions row) /\
  (exists r, In r table /\ country r = Country row /\ year r = Last_Year row /\
             emissions r = Last_Year_Emissions row).
Proof.
  intros Hin. apply In_calculate_trends in Hin. destruct Hin as (c & _ & Hr).
  unfold trend_of in Hr.
  destruct (1 <? length (country_data_of c table))%nat; [|destruct Hr].
  pose proof (country_data_sorted c table) as HS.
  pose proof (In_country_data c table) as HI.
  destruct (country_data_of c table) as [|first rest] eqn:D; [destruct Hr|].
  destruct Hr as [<-|[]]. cbn [Country First_Year Last_Year First_Year_Emissions
                                Last_Year_Emissions].
  set (last := List.last (first :: rest) first) in *.
  assert (Hf : In first (first :: rest)) by (left; reflexivity).
  assert (Hl : In last (first :: rest)) by (apply In_last; discriminate).
  assert (Hspan : forall r, In r (first :: rest) -> year first <= year r <= year last).
  { intros r Hr. split.
    - destruct (first_of_sorted _ _ _ _ HS r Hr) as [->|H]; [lia|exact H].
    - destruct (last_of_sorted _ _ _ first HS r Hr) as [->|H]; [subst last; lia|exact H]. }
  split; [apply (Hspan first Hf)|]. split.
  - intros r Hr Hc. apply Hspan, HI. auto.
  - split; [exists first|exists last]; (split; [|split; [|split; reflexivity]]);
      first [apply (HI first), Hf | apply (HI last), Hl].
Qed.

Lemma trend_year_span_witness :
  exists row, In row (calculate_trends small_table) /\
    First_Year row = 2020 /\ Last_Year row = 2021 /\ First_Year row <= Last_Year row.
Proof.
  eexists. split; [left; reflexivity|]. split; [reflexivity|]. split; [reflexivity|].
  refine (proj1 (trend_year_span small_table _ _)). left. reflexivity.
Defined.

(** X12. A country whose first-year emissions are not above zero is
    reported with a change of 0 percent and the label Stable, whatever its
    last-year emissions are. *)
Theorem zero_baseline_is_stable (table : list CanonicalRecord) (row : TrendRow) :
  In row (calculate_trends table) ->
  SFltb F64.zero (First_Year_Emissions row) = false ->
  Trend_Percentage row = F64.zero /\ Trend_Direction row = Stable.
Proof.
  intros Hin H0. apply In_calculate_trends in Hin. destruct Hin as (c & _ & Hr).
  apply trend_of_row in Hr. destruct Hr as (_ & _ & Hp & Hd & _).
  unfold trend_pct_of in Hp. rewrite H0 in Hp. rewrite Hd, Hp. split; reflexivity.
Qed.

Lemma zero_baseline_is_stable_witness :
  exists row, In row (calculate_trends zero_start_table) /\
    Last_Year_Emissions row = F64.of_Z 50 /\
    Trend_Percentage row = F64.zero /\ Trend_Direction row = Stable.
Proof.
  eexists. split; [left; reflexivity|]. split; [reflexivity|].
  apply (zero_baseline_is_stable zero_start_table); [left; reflexivity|reflexivity].
Defined.

(** ** Summaries *)

Lemma fold_min_spec (l : list Z) (x : Z) :
  let m := fold_left Z.min l x in
  m <= x /\ (forall y, In y l -> m <= y) /\ (m = x \/ In m l).
Proof.
  revert x. induction l as [|a t IH]; intros x; cbn [fold_left].
  - cbv zeta. split; [lia|]. split; [intros y []|left; reflexivity].
  - specialize (IH (Z.min x a)). cbv zeta in *. destruct IH as (H1 & H2 & H3).
    split; [lia|]. split.
    + intros y [<-|Hy]; [lia|apply H2, Hy].
    + destruct H3 as [H3|H3]; [|right; right; exact H3].
      destruct (Z.min_spec x a) as [[_ E]|[_ E]].
      * left. rewrite H3. exact E.
      * right. left. rewrite H3. symmetry. exact E.
Qed.

Lemma fold_max_spec (l : list Z) (x : Z) :
  let m := fold_left Z.max l x in
  x <= m /\ (forall y, In y l -> y <= m) /\ (m = x \/ In m l).
Proof.
  revert x. induction l as [|a t IH]; intros x; cbn [fold_left].
  - cbv zeta. split; [lia|]. split; [intros y []|left; reflexivity].
  - specialize (IH (Z.max x a)). cbv zeta in *. destruct IH as (H1 & H2 & H3).
    split; [lia|]. split.
    + intros y [<-|Hy]; [lia|apply H2, Hy].
    + destruct H3 as [H3|H3]; [|right; right; exact H3].
      destruct (Z.max_spec x a) as [[_ E]|[_ E]].
      * right. left. rewrite H3. symmetry. exact E.
      * left. rewrite H3. exact E.
Qed.

(** The smallest and the largest year of a non-empty table. *)
Lemma year_bounds (r : CanonicalRecord) (rest : list CanonicalRecord) :
  let lo := fold_left Z.min (map year rest) (year r) in
  let hi := fold_left Z.max (map year rest) (year r) in
  (forall x, In x (r :: rest) -> lo <= year x <= hi) /\
  (exists x, In x (r :: rest) /\ year x = lo) /\
  (exists x, In x (r :: rest) /\ year x = hi).
Proof.
  cbv zeta.
  destruct (fold_min_spec (map year rest) (year r)) as (L1 & L2 & L3).
  destruct (fold_max_spec (map year rest) (year r)) as (U1 & U2 & U3).
  cbv zeta in *. split; [|split].
  - intros x [<-|Hx]; [lia|].
    split; [apply L2|apply U2]; apply in_map, Hx.
  - destruct L3 as [L3|L3]; [exists r; split; [left; reflexivity|auto]|].
    apply in_map_iff in L3. destruct L3 as (x & Hx & Hin).
    exists x. split; [right; exact Hin|exact Hx].
  - destruct U3 as [U3|U3]; [exists r; split; [left; reflexivity|auto]|].
    apply in_map_iff in U3. destruct U3 as (x & Hx & Hin).
    exists x. split; [right; exact Hin|exact Hx].
Qed.

(** X13. The summary of a table is empty exactly when the table is. For a
    table with records it counts them, counts between one and that many
    countries and at least as many as the trend table has rows, and its
    year range is the earliest and the latest year of the table. *)
Theorem summary_stats_bounds (rd : Reductions) (table : list CanonicalRecord) :
  (get_summary_stats rd table = None <-> table = []) /\
  forall s, get_summary_stats rd table = Some s ->
    total_records s = length table /\
    (1 <= countries_count s <= total_records s)%nat /\
    (length (calculate_trends table) <= countries_count s)%nat /\
    (forall r, In r table -> fst (year_range s) <= year r <= snd (year_range s)) /\
    (exists r, In r table /\ year r = fst (year_range s)) /\
    (exists r, In r table /\ year r = snd (year_range s)) /\
    total_emissions s = series_sum rd (map emissions table).
Proof.
  split.
  - destruct table; simpl; split; congruence.
  - intros s Hs. destruct table as [|r rest]; [discriminate|].
    unfold get_summary_stats in Hs. inversion Hs; subst s; clear Hs.
    cbn [total_records countries_count year_range total_emissions fst snd].
    split; [reflexivity|]. split.
    + split; [simpl; lia|].
      pose proof (length_unique (map country (r :: rest))) as H.
      rewrite length_map in H. exact H.
    + split; [apply trend_rows_in_order_length|].
      destruct (year_bounds r rest) as (H1 & H2 & H3). cbv zeta in *.
      split; [exact H1|]. split; [exact H2|]. split; [exact H3|reflexivity].
Qed.

Lemma summary_stats_bounds_witness :
  exists s, get_summary_stats left_reductions small_table = Some s /\
    total_records s = 3%nat /\ countries_count s = 2%nat /\
    year_range s = (2020, 2021) /\
    (1 <= countries_count s <= total_records s)%nat.
Proof.
  eexists. split; [reflexivity|]. split; [reflexivity|]. split; [reflexivity|].
  split; [reflexivity|].
  refine (proj1 (proj2 (proj2 (summary_stats_bounds left_reductions small_table) _ eq_refl))).
Defined.

(** ** Aggregation by country and year *)

Lemma key_eqb_eq (a b : string * Z) : key_eqb a b = true <-> a = b.
Proof.
  destruct a as [c y], b as [c' y']. unfold key_eqb. cbn [fst snd].
  rewrite andb_true_iff, String.eqb_eq, Z.eqb_eq. split.
  - intros [-> ->]. reflexivity.
  - intros H. inversion H. auto.
Qed.

Lemma In_unique_keys (k : string * Z) (l : list (string * Z)) :
  In k (unique_keys l) <-> In k l.
Proof.
  induction l as [|x t IH]; simpl; [tauto|].
  rewrite filter_In, IH, negb_true_iff.
  destruct (key_eqb k x) eqn:E.
  - apply key_eqb_eq in E. subst. intuition congruence.
  - assert (x <> k) by (intros ->; rewrite (proj2 (key_eqb_eq k k) eq_refl) in E; discriminate).
    intuition congruence.
Qed.

Lemma NoDup_unique_keys (l : list (string * Z)) : NoDup (unique_keys l).
Proof.
  induction l as [|x t IH]; simpl; constructor.
  - rewrite filter_In, (proj2 (key_eqb_eq x x) eq_refl). intros [_ H]. discriminate.
  - apply NoDup_filter, IH.
Qed.

Lemma length_unique_keys (l : list (string * Z)) :
  (length (unique_keys l) <= length l)%nat.
Proof.
  induction l as [|x t IH]; simpl; [lia|].
  pose proof (filter_length_le _ (fun k' => negb (key_eqb k' x)) (unique_keys t)). lia.
Qed.

Lemma NoDup_insert (A : Type) (leb : A -> A -> bool) (x : A) (l : list A) :
  ~ In x l -> NoDup l -> NoDup (insert leb x l).
Proof.
  induction l as [|z t IH]; intros Hx Hl; simpl.
  - constructor; [exact Hx|constructor].
  - destruct (leb x z); [constructor; assumption|].
    inversion Hl as [|? ? Hz Ht]; subst. constructor.
    + rewrite In_insert. intros [->|H]; [apply Hx; left; reflexivity|contradiction].
    + apply IH; [intros H; apply Hx; right; exact H|exact Ht].
Qed.

Lemma NoDup_sort (A : Type) (leb : A -> A -> bool) (l : list A) :
  NoDup l -> NoDup (sort leb l).
Proof.
  induction 1 as [|x t Hx Ht IH]; simpl; [constructor|].
  apply NoDup_insert; [rewrite In_sort; exact Hx|exact IH].
Qed.

Lemma key_leb_total (a b : string * Z) : key_leb a b = false -> key_leb b a = true.
Proof.
  unfold key_leb. rewrite (String.compare_antisym (fst a) (fst b)).
  destruct (String.compare (fst b) (fst a)); cbn; try congruence.
  intros H. apply Z.leb_gt in H. apply Z.leb_le. lia.
Qed.

Lemma aggregate_keys (rd : Reductions) (table : list CanonicalRecord) :
  map key_of (aggregate_by_region rd table) = group_keys table.
Proof.
  unfold aggregate_by_region. rewrite map_map. apply map_id_on.
  intros [c y] _. reflexivity.
Qed.

(** X14. Aggregation returns one row for every pair of country and year
    of the input and for no other pair, no pair twice, ordered by country
    and then year; the emissions of a row are the group sum of the
    emissions of the input records with that pair, in input order. *)
Theorem aggregate_groups (rd : Reductions) (table : list CanonicalRecord) :
  let out := aggregate_by_region rd table in
  (forall k, In k (map key_of out) <-> In k (map key_of table)) /\
  NoDup (map key_of out) /\
  Sorted (fun a b => key_leb a b = true) (map key_of out) /\
  (length out <= length table)%nat /\
  (forall r, In r out ->
     emissions r =
     group_sum rd (map emissions
                     (filter (fun x => String.eqb (country x) (country r)
                                       && Z.eqb (year x) (year r)) table))).
Proof.
  cbv zeta. rewrite aggregate_keys. unfold group_keys.
  split; [intros k; rewrite In_sort; apply In_unique_keys|].
  split; [apply NoDup_sort, NoDup_unique_keys|].
  split; [apply Sorted_sort, key_leb_total|].
  split.
  - rewrite <- (length_map key_of), aggregate_keys. unfold group_keys.
    rewrite length_sort. rewrite <- (length_map key_of table).
    apply length_unique_keys.
  - intros r Hr. unfold aggregate_by_region in Hr. apply in_map_iff in Hr.
    destruct Hr as ([c y] & <- & _). reflexivity.
Qed.

Lemma aggregate_groups_witness :
  exists r, In r (aggregate_by_region left_reductions repeated_table) /\
    key_of r = ("B"%string, 2021) /\
    emissions r = left_sum [F64.of_Z 3; F64.of_Z 4].
Proof.
  eexists. split; [right; left; reflexivity|]. split; [reflexivity|].
  refine (proj2 (proj2 (proj2 (proj2 (aggregate_groups left_reductions repeated_table)))) _ _).
  right. left. reflexivity.
Defined.

(** ** The order of floats *)

Module OrderFacts.

Lemma ltb_rank (a b : spec_float) :
  SFltb a b = true <->
  F64.isnan a = false /\ F64.isnan b = false /\ rank_lt (float_rank a) (float_rank b).
Proof.
  unfold SFltb, rank_lt.
  destruct a as [sa|sa| |sa ma ea], b as [sb|sb| |sb mb eb];
    try destruct sa; try destruct sb; cbn;
    try (split; [discriminate|intros (_ & _ & H); lia]);
    try (split; [discriminate|intros (H & _); discriminate]);
    try (split; [discriminate|intros (_ & H & _); discriminate]);
    try (split; [intros _; repeat split; lia|reflexivity]).
  - change (PosDef.Pos.compare_cont Eq ma mb) with (Pos.compare ma mb).
    destruct (Z.compare_spec ea eb) as [E|E|E].
    + destruct (Pos.compare_spec ma mb) as [M|M|M]; cbn;
        (split; [try discriminate; intros _; repeat split; lia
                |try reflexivity; intros (_ & _ & H); lia]).
    + split; [discriminate|intros (_ & _ & H); lia].
    + split; [intros _; repeat split; lia|reflexivity].
  - change (PosDef.Pos.compare_cont Eq ma mb) with (Pos.compare ma mb).
    destruct (Z.compare_spec ea eb) as [E|E|E].
    + destruct (Pos.compare_spec ma mb) as [M|M|M]; cbn;
        (split; [try discriminate; intros _; repeat split; lia
                |try reflexivity; intros (_ & _ & H); lia]).
    + split; [intros _; repeat split; lia|reflexivity].
    + split; [discriminate|intros (_ & _ & H); lia].
Qed.

Lemma ltb_irrefl (a : spec_float) : SFltb a a = false.
Proof.
  destruct (SFltb a a) eqn:E; [|reflexivity].
  apply ltb_rank in E. destruct E as (_ & _ & E).
  unfold rank_lt in E. destruct (float_rank a) as [[x y] z]. lia.
Qed.

Lemma ltb_trans (a b c : spec_float) :
  SFltb a b = true -> SFltb b c = true -> SFltb a c = true.
Proof.
  rewrite !ltb_rank. unfold rank_lt.
  destruct (float_rank a) as [[a1 a2] a3], (float_rank b) as [[b1 b2] b3],
    (float_rank c) as [[c1 c2] c3].
  intros (Ha & _ & H1) (_ & Hc & H2). repeat split; try assumption. lia.
Qed.

(** What is above a value is above everything that value is not below. *)
Lemma ltb_bound (c e m : spec_float) :
  SFltb c e = true -> SFltb m e = false -> F64.isnan m = false -> SFltb c m = true.
Proof.
  intros H1 H2 Hm. pose proof (ltb_rank m e) as Hme.
  apply ltb_rank in H1. destruct H1 as (Hc & He & H1).
  apply ltb_rank. split; [exact Hc|]. split; [exact Hm|].
  assert (H3 : ~ rank_lt (float_rank m) (float_rank e)).
  { intros H. rewrite (proj2 Hme) in H2; [discriminate|auto]. }
  clear Hme. unfold rank_lt in *.
  destruct (float_rank c) as [[c1 c2] c3], (float_rank e) as [[e1 e2] e3],
    (float_rank m) as [[m1 m2] m3]. lia.
Qed.

Lemma ltb_not_nan (a b : spec_float) :
  SFltb a b = true -> F64.isnan a = false /\ F64.isnan b = false.
Proof. intros H. apply ltb_rank in H. tauto. Qed.

Lemma ltb_below (m a x : spec_float) :
  SFltb m a = true -> SFltb x a = false -> F64.isnan x = false -> SFltb m x = true.
Proof.
  intros H1 H2 Hx. pose proof (ltb_rank x a) as Hxa.
  apply ltb_rank in H1. destruct H1 as (Hm & Ha & H1).
  apply ltb_rank. split; [exact Hm|]. split; [exact Hx|].
  assert (H3 : ~ rank_lt (float_rank x) (float_rank a)).
  { intros H. rewrite (proj2 Hxa) in H2; [discriminate|auto]. }
  clear Hxa. unfold rank_lt in *.
  destruct (float_rank m) as [[m1 m2] m3], (float_rank a) as [[a1 a2] a3],
    (float_rank x) as [[x1 x2] x3]. lia.
Qed.

(** The running maximum of values other than NaN is one of them and is
    below none of them. *)
Lemma running_max (t : list spec_float) (x : spec_float) :
  (forall e, In e (x :: t) -> F64.isnan e = false) ->
  let m := fold_left (fun m e => if SFltb m e then e else m) t x in
  In m (x :: t) /\ forall e, In e (x :: t) -> SFltb m e = false.
Proof.
  cbv zeta. revert x. induction t as [|a t IH]; intros x Hn; cbn [fold_left].
  - split; [left; reflexivity|]. intros e [<-|[]]. apply ltb_irrefl.
  - set (x' := if SFltb x a then a else x).
    destruct (IH x') as [Hin Hub].
    { intros e [<-|He]; [|apply Hn; right; right; exact He].
      subst x'. destruct (SFltb x a); apply Hn; simpl; auto. }
    set (m := fold_left (fun m e => if SFltb m e then e else m) t x') in *.
    pose proof (Hub x' (or_introl eq_refl)) as H'.
    split.
    + destruct Hin as [Hin|Hin]; [|right; right; exact Hin].
      rewrite <- Hin. subst x'. destruct (SFltb x a); simpl; auto.
    + intros e [He|[He|He]].
      * subst e x'. destruct (SFltb x a) eqn:E; [|exact H'].
        destruct (SFltb m x) eqn:F; [|reflexivity].
        rewrite (ltb_trans _ _ _ F E) in H'. discriminate.
      * subst e x'. destruct (SFltb x a) eqn:E; [exact H'|].
        destruct (SFltb m a) eqn:F; [|reflexivity].
        rewrite (ltb_below _ _ _ F E (Hn x (or_introl eq_refl))) in H'. discriminate.
      * apply Hub. right. exact He.
Qed.

Lemma series_max_above (c : spec_float) (l : list spec_float) :
  SFltb c (series_max l) = true <-> exists e, In e l /\ SFltb c e = true.
Proof.
  unfold series_max.
  destruct (filter (fun e => negb (F64.isnan e)) l) as [|x t] eqn:F.
  - split; [destruct c as [[|]|[|]| |[|] ? ?]; discriminate|].
    intros (e & He & Hc). exfalso.
    assert (Hin : In e (filter (fun e => negb (F64.isnan e)) l)).
    { apply filter_In. split; [exact He|].
      rewrite (proj2 (ltb_not_nan _ _ Hc)). reflexivity. }
    rewrite F in Hin. destruct Hin.
  - assert (Hsub : forall e, In e (x :: t) <-> In e l /\ F64.isnan e = false).
    { intros e. rewrite <- F, filter_In, negb_true_iff. tauto. }
    destruct (running_max t x) as [Hin Hub]; [intros e He; apply Hsub, He|].
    cbv zeta in *. split.
    + intros H. eexists. split; [apply Hsub, Hin|exact H].
    + intros (e & He & Hc).
      apply (ltb_bound c e); [exact Hc| |apply Hsub, Hin].
      apply Hub, Hsub. split; [exact He|apply (ltb_not_nan _ _ Hc)].
Qed.

End OrderFacts.

(** ** The advisory warnings *)

Lemma validation_warnings_year (table : list CanonicalRecord) (lo hi : Z) :
  In (UnusualYearRange lo hi) (validation_warnings table) ->
  exists r, In r table /\ (year r < 1900 \/ 2030 < year r).
Proof.
  destruct table as [|r rest]; [intros []|].
  unfold validation_warnings.
  destruct (year_bounds r rest) as (B & (xlo & Hlo & Elo) & (xhi & Hhi & Ehi)).
  cbv zeta in *. rewrite in_app_iff. intros [H|H].
  - destruct ((_ <? 1900) || (2030 <? _)) eqn:E; [|destruct H].
    apply orb_true_iff in E. destruct E as [E|E]; apply Z.ltb_lt in E.
    + exists xlo. split; [exact Hlo|]. left. lia.
    + exists xhi. split; [exact Hhi|]. right. lia.
  - destruct (SFltb _ _); [|destruct H]. destruct H as [H|[]]. discriminate.
Qed.

(** X15. For a table that passed the validator, the year warning is shown
    exactly when some record has a year before 1900 or after 2030, and it
    reports the earliest and the latest year of the table; the units
    warning is shown exactly when the emissions of some record exceed
    1e9. *)
Theorem validation_warnings_spec (table : list CanonicalRecord) :
  (forall lo hi,
     In (UnusualYearRange lo hi) (validation_warnings table) <->
     (exists r, In r table /\ (year r < 1900 \/ 2030 < year r)) /\
     (forall r, In r table -> lo <= year r <= hi) /\
     (exists r, In r table /\ year r = lo) /\
     (exists r, In r table /\ year r = hi)) /\
  (In LargeEmissions (validation_warnings table) <->
   exists r, In r table /\ SFltb (F64.of_Z 1000000000) (emissions r) = true).
Proof.
  destruct table as [|r rest].
  { split; [intros lo hi|]; simpl; split; try tauto.
    - intros ((x & [] & _) & _).
    - intros (x & [] & _). }
  unfold validation_warnings.
  destruct (year_bounds r rest) as (B & (xlo & Hlo & Elo) & (xhi & Hhi & Ehi)).
  cbv zeta in *.
  set (min_year := fold_left Z.min (map year rest) (year r)) in *.
  set (max_year := fold_left Z.max (map year rest) (year r)) in *.
  split.
  - intros lo hi. rewrite in_app_iff. split.
    + intros [H|H].
      * destruct ((min_year <? 1900) || (2030 <? max_year)) eqn:E; [|destruct H].
        destruct H as [H|[]]. inversion H; subst lo hi.
        split; [|split; [exact B|split; eauto]].
        apply orb_true_iff in E. destruct E as [E|E].
        { apply Z.ltb_lt in E. exists xlo. split; [exact Hlo|]. left. lia. }
        { apply Z.ltb_lt in E. exists xhi. split; [exact Hhi|]. right. lia. }
      * destruct (SFltb _ _); [|destruct H]. destruct H as [H|[]]. discriminate.
    + intros ((x & Hx & Hout) & Hb & (ylo & Hylo & Eylo) & (yhi & Hyhi & Eyhi)).
      left.
      assert (Hl : lo = min_year).
      { pose proof (Hb xlo Hlo). pose proof (B ylo Hylo). lia. }
      assert (Hh : hi = max_year).
      { pose proof (Hb xhi Hhi). pose proof (B yhi Hyhi). lia. }
      rewrite Hl, Hh. pose proof (B x Hx) as Bx.
      replace ((min_year <? 1900) || (2030 <? max_year)) with true;
        [left; reflexivity|].
      symmetry. apply orb_true_iff. rewrite !Z.ltb_lt. lia.
  - rewrite in_app_iff. split.
    + intros [H|H].
      * destruct ((min_year <? 1900) || (2030 <? max_year)); [|destruct H].
        destruct H as [H|[]]. discriminate.
      * destruct (SFltb _ (series_max _)) eqn:E; [|destruct H].
        apply OrderFacts.series_max_above in E. destruct E as (e & He & Hc).
        apply in_map_iff in He. destruct He as (x & <- & Hx). eauto.
    + intros (x & Hx & Hc). right.
      rewrite (proj2 (OrderFacts.series_max_above _ (map emissions (r :: rest))));
        [left; reflexivity|].
      exists (emissions x). split; [apply in_map, Hx|exact Hc].
Qed.

(** ** A wide sheet, from the sheet to the returned table *)

Lemma rstrip_idempotent (s : string) : PyStr.rstrip (PyStr.rstrip s) = PyStr.rstrip s.
Proof.
  induction s as [|c t IH]; [reflexivity|].
  cbn [PyStr.rstrip]. destruct (PyStr.rstrip t) as [|c' t'] eqn:E.
  - destruct (PyStr.isspace c) eqn:Hc; [reflexivity|].
    cbn [PyStr.rstrip]. rewrite Hc. reflexivity.
  - cbn [PyStr.rstrip] in *. rewrite IH. reflexivity.
Qed.

Lemma lstrip_rstrip (s : string) :
  PyStr.lstrip (PyStr.rstrip (PyStr.lstrip s)) = PyStr.rstrip (PyStr.lstrip s).
Proof.
  induction s as [|c t IH]; [reflexivity|].
  unfold PyStr.lstrip in *. cbn [PyStr.drop_while].
  destruct (PyStr.isspace c) eqn:Hc; [exact IH|].
  cbn [PyStr.rstrip]. destruct (PyStr.rstrip t); [rewrite Hc|];
    cbn [PyStr.drop_while]; rewrite Hc; reflexivity.
Qed.

Lemma strip_idempotent (s : string) : PyStr.strip (PyStr.strip s) = PyStr.strip s.
Proof. unfold PyStr.strip. rewrite lstrip_rstrip. apply rstrip_idempotent. Qed.

Lemma sort_sorted (A : Type) (leb : A -> A -> bool) (l : list A) :
  Sorted (fun a b => leb a b = true) l -> sort leb l = l.
Proof.
  induction 1 as [|x t Hs IH Hd]; [reflexivity|].
  cbn [sort]. rewrite IH. destruct Hd as [|y t' Hxy]; [reflexivity|].
  cbn [insert]. rewrite Hxy. reflexivity.
Qed.

Lemma filter_idempotent (A : Type) (p : A -> bool) (l : list A) :
  filter p (filter p l) = filter p l.
Proof. apply filter_all. intros x Hx. apply filter_In in Hx. apply Hx. Qed.

Section CanonicalFrames.

Variable rt : Runtime.

Lemma rows_leb_total (keys : list nat) (a b : list cell) :
  rows_leb keys a b = false -> rows_leb keys b a = true.
Proof.
  induction keys as [|j t IH]; simpl; [discriminate|].
  assert (Hanti : cell_compare (cell_at j b) (cell_at j a)
                  = CompOpp (cell_compare (cell_at j a) (cell_at j b))).
  { destruct (cell_at j a), (cell_at j b); simpl;
      auto using String.compare_antisym, Z.compare_antisym. }
  rewrite Hanti.
  destruct (cell_compare (cell_at j a) (cell_at j b)); simpl; auto; discriminate.
Qed.

Lemma prepare_canonical (rws : list (list cell)) :
  Forall canonical_shape rws -> rws <> [] ->
  prepare rt (canonical_frame rws) = canonical_frame rws.
Proof.
  intros HF Hne. rewrite Forall_forall in HF.
  assert (Hdrop : dropna_rows_all (canonical_frame rws) = canonical_frame rws).
  { unfold dropna_rows_all, canonical_frame. cbn [columns rows].
    rewrite filter_all; [reflexivity|].
    intros r Hr. destruct (HF r Hr) as (s & y & e & -> & _). reflexivity. }
  unfold prepare. cbv zeta. rewrite Hdrop.
  assert (Hcols : dropna_columns_all (canonical_frame rws) = canonical_frame rws).
  { unfold dropna_columns_all, canonical_frame. cbn [columns rows].
    destruct rws as [|r0 rest]; [congruence|].
    destruct (HF r0 (or_introl eq_refl)) as (s & y & e & E0 & _ & _ & _ & Hna).
    assert (M : map (fun j => existsb (fun r => notna (cell_at j r)) (r0 :: rest))
                    (seq 0 (length (text_row ["Country"; "Year"; "Emissions"])))
                = [true; true; true]).
    { cbn [text_row map length seq existsb]. rewrite E0.
      unfold notna, cell_at. cbn [nth is_null]. rewrite Hna. reflexivity. }
    rewrite M. f_equal. apply map_id_on. intros r Hr.
    destruct (HF r Hr) as (s' & y' & e' & -> & _). reflexivity. }
  rewrite Hcols. reflexivity.
Qed.

Lemma clean_country_canonical (rws : list (list cell)) :
  Forall canonical_shape rws ->
  clean_country rt (canonical_frame rws) = Ok (canonical_frame rws).
Proof.
  intros HF. rewrite Forall_forall in HF.
  unfold clean_country.
  change (has_column "Country" (canonical_frame rws)) with true.
  change (series_position "Country" (canonical_frame rws)) with (Ok 0%nat).
  cbn [bind]. unfold filter_col, map_col, canonical_frame. cbn [rows columns].
  rewrite (map_id_on _ (map_at 0 (clean_text rt))).
  2:{ intros r Hr. destruct (HF r Hr) as (s & y & e & -> & Hs & _).
      unfold clean_text. cbn [map_at py_str]. rewrite Hs. reflexivity. }
  rewrite (filter_all _ (fun r => text_ne "nan" (cell_at 0 r))).
  2:{ intros r Hr. destruct (HF r Hr) as (s & y & e & -> & _ & Hnan & _).
      unfold cell_at. cbn [nth text_ne]. apply negb_true_iff, String.eqb_neq, Hnan. }
  rewrite filter_all; [reflexivity|].
  intros r Hr. destruct (HF r Hr) as (s & y & e & -> & _ & _ & Hempty & _).
  unfold cell_at. cbn [nth text_ne]. apply negb_true_iff, String.eqb_neq, Hempty.
Qed.

Lemma clean_year_canonical (rws : list (list cell)) :
  Forall canonical_shape rws ->
  clean_year rt (canonical_frame rws) = Ok (canonical_frame rws).
Proof.
  intros HF. rewrite Forall_forall in HF.
  unfold clean_year.
  change (has_column "Year" (canonical_frame rws)) with true.
  change (series_position "Year" (canonical_frame rws)) with (Ok 1%nat).
  cbn [bind].
  replace (is_integer_dtype 1 (canonical_frame rws)) with true; [reflexivity|].
  symmetry. apply forallb_forall. intros r Hr.
  destruct (HF r Hr) as (s & y & e & -> & _). reflexivity.
Qed.

Lemma clean_emissions_canonical (rws : list (list cell)) :
  Forall canonical_shape rws ->
  clean_emissions rt (canonical_frame rws)
  = Ok (canonical_frame (filter (fun r => nonnegative (cell_at 2 r)) rws)).
Proof.
  intros HF. rewrite Forall_forall in HF.
  unfold clean_emissions.
  change (has_column "Emissions" (canonical_frame rws)) with true.
  change (series_position "Emissions" (canonical_frame rws)) with (Ok 2%nat).
  cbn [bind]. unfold filter_col, map_col, canonical_frame. cbn [rows columns].
  rewrite (map_id_on _ (map_at 2 (float_cell rt))).
  2:{ intros r Hr. destruct (HF r Hr) as (s & y & e & -> & _). reflexivity. }
  rewrite (filter_all _ (fun r => notna (cell_at 2 r))); [reflexivity|].
  intros r Hr. destruct (HF r Hr) as (s & y & e & -> & _ & _ & _ & Hna).
  unfold notna, cell_at. cbn [nth is_null]. rewrite Hna. reflexivity.
Qed.

Lemma dropna_required_canonical (rws : list (list cell)) :
  Forall canonical_shape rws ->
  dropna_required (canonical_frame rws) = Ok (canonical_frame rws).
Proof.
  intros HF. rewrite Forall_forall in HF.
  unfold dropna_required.
  change (all_required (canonical_frame rws)) with true.
  change (series_position "Country" (canonical_frame rws)) with (Ok 0%nat).
  change (series_position "Year" (canonical_frame rws)) with (Ok 1%nat).
  change (series_position "Emissions" (canonical_frame rws)) with (Ok 2%nat).
  cbn [bind]. unfold filter_col, canonical_frame. cbn [rows columns].
  assert (H : forall j, (j < 3)%nat ->
                filter (fun r => notna (cell_at j r)) rws = rws).
  { intros j Hj. apply filter_all. intros r Hr.
    destruct (HF r Hr) as (s & y & e & -> & _ & _ & _ & Hna).
    destruct j as [|[|[|j]]]; try lia; unfold notna, cell_at; cbn [nth is_null];
      rewrite ?Hna; reflexivity. }
  rewrite !H by lia. reflexivity.
Qed.

Lemma sort_canonical (rws : list (list cell)) :
  sort_by_country_year (canonical_frame rws)
  = Ok (canonical_frame (sort (rows_leb [0; 1]%nat) rws)).
Proof. reflexivity. Qed.

(** The cleaner on a frame of canonical rows: the negative emissions go,
    the rest is sorted by country and year. *)
Lemma clean_data_canonical (rws : list (list cell)) :
  Forall canonical_shape rws -> rws <> [] ->
  _clean_data rt (canonical_frame rws)
  = Ok (canonical_frame
          (sort (rows_leb [0; 1]%nat) (filter (fun r => nonnegative (cell_at 2 r)) rws))).
Proof.
  intros HF Hne. unfold _clean_data. cbv zeta.
  rewrite (prepare_canonical rws HF Hne), (clean_country_canonical rws HF).
  cbn [bind]. rewrite (clean_year_canonical rws HF). cbn [bind].
  rewrite (clean_emissions_canonical rws HF). cbn [bind].
  rewrite dropna_required_canonical.
  2:{ rewrite Forall_forall in *. intros r Hr. apply filter_In in Hr. apply HF, Hr. }
  cbn [bind]. apply sort_canonical.
Qed.

Lemma canonical_of_wide (r : list cell) :
  wide_shape rt r -> notna (cell_at 0 r) = true -> canonical_shape r.
Proof.
  intros (c & y & e & -> & He & [[-> _]|(s & -> & Hs)]) Hna; [discriminate|].
  exists s, y, e. tauto.
Qed.

Lemma wide_of_canonical (r : list cell) : canonical_shape r -> wide_shape rt r.
Proof.
  intros (s & y & e & -> & Hs & Hnan & Hempty & He).
  exists (CStr s), y, e. split; [reflexivity|]. split; [exact He|].
  right. exists s. auto.
Qed.

Lemma long_rows_wide (df : DataFrame) : Forall (wide_shape rt) (long_rows rt df).
Proof.
  apply Forall_forall. intros rec Hrec. apply In_long_rows in Hrec.
  destruct Hrec as (r & j & label & y & _ & _ & _ & Hna & Hnan & Hempty & ->).
  eexists _, _, _. split; [reflexivity|]. split; [exact Hna|].
  apply text_ne_spec in Hnan, Hempty.
  destruct (clean_text_cases rt (cell_at 0 r)) as [E|(E & _ & K)]; rewrite E in *.
  - right. eexists. split; [reflexivity|].
    split; [apply strip_idempotent|]. split; congruence.
  - left. auto.
Qed.

Lemma clean_text_wide (c : cell) :
  (c = CFloat F64.nan /\ astype_str_keeps_na rt = true) \/
  (exists s, c = CStr s /\ PyStr.strip s = s /\ s <> "nan" /\ s <> "") ->
  clean_text rt c = c /\ text_ne "nan" c = true /\ text_ne "" c = true.
Proof.
  intros [[-> K]|(s & -> & Hs & Hnan & Hempty)].
  - unfold clean_text. rewrite K. repeat split.
  - unfold clean_text. cbn [is_null andb py_str]. rewrite Hs.
    rewrite !text_ne_spec. repeat split; congruence.
Qed.

Lemma prepare_wide (rws : list (list cell)) :
  Forall (wide_shape rt) rws ->
  existsb (fun r => notna (cell_at 0 r)) rws = true ->
  prepare rt (canonical_frame rws) = canonical_frame rws.
Proof.
  intros HF Hsome. rewrite Forall_forall in HF.
  assert (Hdrop : dropna_rows_all (canonical_frame rws) = canonical_frame rws).
  { unfold dropna_rows_all, canonical_frame. cbn [columns rows].
    rewrite filter_all; [reflexivity|].
    intros r Hr. destruct (HF r Hr) as (c & y & e & -> & _).
    cbn [forallb is_null]. rewrite andb_false_r. reflexivity. }
  unfold prepare. cbv zeta. rewrite Hdrop.
  assert (Hcols : dropna_columns_all (canonical_frame rws) = canonical_frame rws).
  { unfold dropna_columns_all, canonical_frame. cbn [columns rows].
    destruct rws as [|r0 rest]; [discriminate|].
    destruct (HF r0 (or_introl eq_refl)) as (c & y & e & E0 & Hna & _).
    assert (M : map (fun j => existsb (fun r => notna (cell_at j r)) (r0 :: rest))
                    (seq 0 (length (text_row ["Country"; "Year"; "Emissions"])))
                = [true; true; true]).
    { cbn [text_row map length seq]. rewrite Hsome. cbn [existsb]. rewrite E0.
      unfold notna, cell_at. cbn [nth is_null]. rewrite Hna. reflexivity. }
    rewrite M. f_equal. apply map_id_on. intros r Hr.
    destruct (HF r Hr) as (c' & y' & e' & -> & _). reflexivity. }
  rewrite Hcols. reflexivity.
Qed.

(** When every country is missing the Country column goes with the blank
    columns. *)
Lemma prepare_headless (rws : list (list cell)) :
  Forall (wide_shape rt) rws -> rws <> [] ->
  forallb (fun r => is_null (cell_at 0 r)) rws = true ->
  columns (prepare rt (canonical_frame rws)) = text_row ["Year"; "Emissions"].
Proof.
  intros HF Hne Hall. rewrite Forall_forall in HF.
  assert (Hdrop : dropna_rows_all (canonical_frame rws) = canonical_frame rws).
  { unfold dropna_rows_all, canonical_frame. cbn [columns rows].
    rewrite filter_all; [reflexivity|].
    intros r Hr. destruct (HF r Hr) as (c & y & e & -> & _).
    cbn [forallb is_null]. rewrite andb_false_r. reflexivity. }
  unfold prepare. cbv zeta. rewrite Hdrop.
  assert (Hcols : columns (dropna_columns_all (canonical_frame rws))
                  = text_row ["Year"; "Emissions"]).
  { unfold dropna_columns_all, canonical_frame. cbn [columns rows].
    destruct rws as [|r0 rest]; [congruence|].
    destruct (HF r0 (or_introl eq_refl)) as (c & y & e & E0 & Hna & _).
    assert (M0 : existsb (fun r => notna (cell_at 0 r)) (r0 :: rest) = false).
    { destruct (existsb (fun r => notna (cell_at 0 r)) (r0 :: rest)) eqn:E; [|reflexivity].
      apply existsb_exists in E. destruct E as (r & Hr & Hn).
      rewrite forallb_forall in Hall. unfold notna in Hn.
      rewrite (Hall r Hr) in Hn. discriminate. }
    cbn [text_row map length seq]. rewrite M0. cbn [existsb]. rewrite E0.
    unfold notna, cell_at. cbn [nth is_null]. rewrite Hna. reflexivity. }
  assert (Hreq : all_required (dropna_columns_all (canonical_frame rws)) = false).
  { unfold all_required, has_column. rewrite Hcols. reflexivity. }
  rewrite Hreq. unfold _map_columns. cbn [columns]. rewrite Hcols. reflexivity.
Qed.

Lemma clean_country_wide (rws : list (list cell)) :
  Forall (wide_shape rt) rws ->
  clean_country rt (canonical_frame rws) = Ok (canonical_frame rws).
Proof.
  intros HF. rewrite Forall_forall in HF.
  unfold clean_country.
  change (has_column "Country" (canonical_frame rws)) with true.
  change (series_position "Country" (canonical_frame rws)) with (Ok 0%nat).
  cbn [bind]. unfold filter_col, map_col, canonical_frame. cbn [rows columns].
  rewrite (map_id_on _ (map_at 0 (clean_text rt))).
  2:{ intros r Hr. destruct (HF r Hr) as (c & y & e & -> & _ & Hc).
      cbn [map_at]. rewrite (proj1 (clean_text_wide c Hc)). reflexivity. }
  rewrite (filter_all _ (fun r => text_ne "nan" (cell_at 0 r))).
  2:{ intros r Hr. destruct (HF r Hr) as (c & y & e & -> & _ & Hc).
      apply (clean_text_wide c Hc). }
  rewrite filter_all; [reflexivity|].
  intros r Hr. destruct (HF r Hr) as (c & y & e & -> & _ & Hc).
  apply (clean_text_wide c Hc).
Qed.

Lemma clean_year_wide (rws : list (list cell)) :
  Forall (wide_shape rt) rws ->
  clean_year rt (canonical_frame rws) = Ok (canonical_frame rws).
Proof.
  intros HF. rewrite Forall_forall in HF.
  unfold clean_year.
  change (has_column "Year" (canonical_frame rws)) with true.
  change (series_position "Year" (canonical_frame rws)) with (Ok 1%nat).
  cbn [bind].
  replace (is_integer_dtype 1 (canonical_frame rws)) with true; [reflexivity|].
  symmetry. apply forallb_forall. intros r Hr.
  destruct (HF r Hr) as (c & y & e & -> & _). reflexivity.
Qed.

Lemma clean_emissions_wide (rws : list (list cell)) :
  Forall (wide_shape rt) rws ->
  clean_emissions rt (canonical_frame rws)
  = Ok (canonical_frame (filter (fun r => nonnegative (cell_at 2 r)) rws)).
Proof.
  intros HF. rewrite Forall_forall in HF.
  unfold clean_emissions.
  change (has_column "Emissions" (canonical_frame rws)) with true.
  change (series_position "Emissions" (canonical_frame rws)) with (Ok 2%nat).
  cbn [bind]. unfold filter_col, map_col, canonical_frame. cbn [rows columns].
  rewrite (map_id_on _ (map_at 2 (float_cell rt))).
  2:{ intros r Hr. destruct (HF r Hr) as (c & y & e & -> & _). reflexivity. }
  rewrite (filter_all _ (fun r => notna (cell_at 2 r))); [reflexivity|].
  intros r Hr. destruct (HF r Hr) as (c & y & e & -> & Hna & _).
  unfold notna, cell_at. cbn [nth is_null]. rewrite Hna. reflexivity.
Qed.

Lemma dropna_required_wide (rws : list (list cell)) :
  Forall (wide_shape rt) rws ->
  dropna_required (canonical_frame rws)
  = Ok (canonical_frame (filter (fun r => notna (cell_at 0 r)) rws)).
Proof.
  intros HF. rewrite Forall_forall in HF.
  unfold dropna_required.
  change (all_required (canonical_frame rws)) with true.
  change (series_position "Country" (canonical_frame rws)) with (Ok 0%nat).
  change (series_position "Year" (canonical_frame rws)) with (Ok 1%nat).
  change (series_position "Emissions" (canonical_frame rws)) with (Ok 2%nat).
  cbn [bind]. unfold filter_col, canonical_frame. cbn [rows columns].
  rewrite (filter_all _ (fun r => notna (cell_at 1 r))).
  2:{ intros r Hr. apply filter_In in Hr. destruct Hr as [Hr _].
      destruct (HF r Hr) as (c & y & e & -> & _). reflexivity. }
  rewrite (filter_all _ (fun r => notna (cell_at 2 r))); [reflexivity|].
  intros r Hr. apply filter_In in Hr. destruct Hr as [Hr _].
  destruct (HF r Hr) as (c & y & e & -> & Hna & _).
  unfold notna, cell_at. cbn [nth is_null]. rewrite Hna. reflexivity.
Qed.

(** The cleaner on the frame of the wide transformer: the negative
    emissions go, then the missing countries, the rest is sorted by
    country and year. *)
Lemma clean_data_wide (rws : list (list cell)) :
  Forall (wide_shape rt) rws ->
  existsb (fun r => notna (cell_at 0 r)) rws = true ->
  _clean_data rt (canonical_frame rws)
  = Ok (canonical_frame
          (sort (rows_leb [0; 1]%nat)
             (filter (fun r => notna (cell_at 0 r))
                (filter (fun r => nonnegative (cell_at 2 r)) rws)))).
Proof.
  intros HF Hsome. unfold _clean_data. cbv zeta.
  rewrite (prepare_wide rws HF Hsome), (clean_country_wide rws HF).
  cbn [bind]. rewrite (clean_year_wide rws HF). cbn [bind].
  rewrite (clean_emissions_wide rws HF). cbn [bind].
  rewrite dropna_required_wide.
  2:{ rewrite Forall_forall in *. intros r Hr. apply filter_In in Hr. apply HF, Hr. }
  cbn [bind]. apply sort_canonical.
Qed.

(** Rows of three cells name no period row, so the layout handler leaves a
    canonical frame alone. *)
Lemma handle_canonical (rws : list (list cell)) :
  Forall canonical_shape rws ->
  _handle_oecd_structure rt (canonical_frame rws) = canonical_frame rws.
Proof.
  intros HF. unfold _handle_oecd_structure, handle_body.
  change (_is_wide_format_with_years (canonical_frame rws)) with false.
  cbv iota.
  destruct (2 <=? length (oecd_indicators rt (canonical_frame rws)))%nat;
    [|reflexivity].
  cbn [try_except]. unfold _parse_oecd_format.
  replace (time_row_of rt (canonical_frame rws)) with (@None nat); [reflexivity|].
  symmetry. unfold time_row_of. cbn [canonical_frame rows].
  assert (H : forall l i, Forall canonical_shape l -> find_index (is_time_row rt) i l = None).
  { induction l as [|r t IH]; intros i Hl; [reflexivity|].
    inversion Hl as [|? ? Hr Ht]; subst. cbn [find_index].
    destruct Hr as (s & y & e & -> & _ & _ & _ & Hna).
    unfold is_time_row, dropna_row. cbn [filter].
    destruct (notna (CFloat e)); cbn [map length Nat.ltb Nat.leb andb];
      apply IH, Ht. }
  apply H. rewrite Forall_forall in *. intros r Hr. apply HF.
  eapply In_firstn. exact Hr.
Qed.

End CanonicalFrames.

Section WideRuns.

Variable rt : Runtime.

Lemma some_country (rws : list (list cell)) :
  forallb (fun r => is_null (cell_at 0 r)) rws = false ->
  existsb (fun r => notna (cell_at 0 r)) rws = true.
Proof.
  induction rws as [|r t IH]; [discriminate|]. cbn [forallb existsb]. unfold notna.
  destruct (is_null (cell_at 0 r)); [exact IH|reflexivity].
Qed.

(** The rows a run keeps of the transformer's rows. *)
Lemma wide_run_form (df w : DataFrame) :
  _is_wide_format_with_years df = true ->
  _transform_wide_to_long rt df = Ok w ->
  w = canonical_frame (long_rows rt df) /\
  load_and_clean_data rt df =
  match rows w with
  | [] => Raise (ProcessingError (ValueError_missing ["Country"; "Year"; "Emissions"] []))
  | _ :: _ =>
      if forallb (fun r => is_null (cell_at 0 r)) (rows w) then
        Raise (ProcessingError
                 (ValueError_missing ["Country"] (text_row ["Year"; "Emissions"])))
      else
        match filter (fun r => notna (cell_at 0 r))
                     (filter (fun r => nonnegative (cell_at 2 r)) (rows w)) with
        | [] => Raise (ProcessingError ValueError_empty)
        | kept => Ok {| columns := columns w; rows := sort (rows_leb [0; 1]%nat) kept |}
        end
  end.
Proof.
  intros Hw Ht.
  assert (Hy : year_columns df <> []).
  { destruct (wide_has_year_columns df Hw) as [_ H2].
    intros E. rewrite E in H2. simpl in H2. lia. }
  assert (Ew : w = canonical_frame (long_rows rt df)) by exact (wide_ok rt df w Hy Ht).
  split; [exact Ew|].
  assert (Hh : _handle_oecd_structure rt df = w).
  { unfold _handle_oecd_structure, handle_body. rewrite Hw, Ht. reflexivity. }
  pose proof (long_rows_wide rt df) as HF.
  rewrite Ew. cbn [canonical_frame rows columns].
  destruct (long_rows rt df) as [|r0 rest] eqn:EL.
  - rewrite load_unfold, Hh, Ew. rewrite clean_blank by (intros r []). reflexivity.
  - destruct (forallb (fun r => is_null (cell_at 0 r)) (r0 :: rest)) eqn:Hall.
    + pose proof (schema_error_when_missing rt df) as Herr. cbv zeta in Herr.
      rewrite Hh, Ew in Herr.
      pose proof (prepare_headless rt (r0 :: rest) HF ltac:(discriminate) Hall) as Hc.
      rewrite Herr.
      * rewrite Hc.
        rewrite (missing_columns_columns
                   {| columns := text_row ["Year"; "Emissions"]; rows := [] |} _ Hc).
        reflexivity.
      * apply single_canonical_counts. rewrite Hc. cbn. lia.
      * rewrite (missing_columns_columns
                   {| columns := text_row ["Year"; "Emissions"]; rows := [] |} _ Hc).
        discriminate.
    + rewrite load_unfold, Hh, Ew.
      rewrite (clean_data_wide rt (r0 :: rest) HF (some_country _ Hall)).
      destruct (filter (fun r => notna (cell_at 0 r))
                  (filter (fun r => nonnegative (cell_at 2 r)) (r0 :: rest)))
        as [|k ks] eqn:EF; [reflexivity|].
      unfold _validate_data.
      change (missing_columns (canonical_frame (sort (rows_leb [0; 1]%nat) (k :: ks))))
        with (@nil string).
      cbn [canonical_frame rows].
      destruct (sort (rows_leb [0; 1]%nat) (k :: ks)) as [|x xs] eqn:ES; [|reflexivity].
      pose proof (length_sort _ (rows_leb [0; 1]%nat) (k :: ks)) as Hl.
      rewrite ES in Hl. discriminate.
Qed.

Lemma wide_run_rows (df w out : DataFrame) :
  _is_wide_format_with_years df = true ->
  _transform_wide_to_long rt df = Ok w ->
  load_and_clean_data rt df = Ok out ->
  out = canonical_frame
          (sort (rows_leb [0; 1]%nat)
             (filter (fun r => notna (cell_at 0 r))
                (filter (fun r => nonnegative (cell_at 2 r)) (long_rows rt df)))) /\
  rows out <> [].
Proof.
  intros Hw Ht Hl. pose proof (proj2 (load_ok rt df out Hl)) as [_ Hne].
  destruct (wide_run_form df w Hw Ht) as [Ew Hrun]. rewrite Hrun, Ew in Hl.
  cbn [canonical_frame rows columns] in Hl.
  destruct (long_rows rt df) as [|r0 rest]; [discriminate|].
  destruct (forallb (fun r => is_null (cell_at 0 r)) (r0 :: rest)); [discriminate|].
  destruct (filter (fun r => notna (cell_at 0 r))
              (filter (fun r => nonnegative (cell_at 2 r)) (r0 :: rest)));
    [discriminate|].
  inversion Hl. split; [reflexivity|]. subst out. exact Hne.
Qed.

(** The rows of a returned table are rows of the transformer and have the
    canonical shape. *)
Lemma wide_final_rows (df : DataFrame) (r : list cell) :
  In r (sort (rows_leb [0; 1]%nat)
          (filter (fun r => notna (cell_at 0 r))
             (filter (fun r => nonnegative (cell_at 2 r)) (long_rows rt df)))) ->
  In r (long_rows rt df) /\ canonical_shape r /\ nonnegative (cell_at 2 r) = true.
Proof.
  intros Hr. apply In_sort in Hr. apply filter_In in Hr. destruct Hr as [Hr Hna].
  apply filter_In in Hr. destruct Hr as [Hr Hpos].
  split; [exact Hr|]. split; [|exact Hpos].
  pose proof (long_rows_wide rt df) as HF. rewrite Forall_forall in HF.
  apply (canonical_of_wide rt r (HF r Hr) Hna).
Qed.

Lemma canonical_table_frame (rws : list (list cell)) :
  Forall canonical_shape rws ->
  exists recs, canonical_table (canonical_frame rws) = Some recs /\
               Forall2 (holds 0 1 2) rws recs.
Proof.
  intros HF.
  change (canonical_table (canonical_frame rws))
    with (all_some (map (canonical_row 0 1 2) rws)).
  induction HF as [|r t Hr HF IH]; [exists []; split; [reflexivity|constructor]|].
  destruct IH as (recs & E & H2). destruct Hr as (s & y & e & -> & _).
  exists ({| country := s; year := y; emissions := e |} :: recs).
  cbn [map all_some canonical_row cell_at nth]. rewrite E.
  split; [reflexivity|]. constructor; [|exact H2]. repeat split.
Qed.

End WideRuns.

(** X16. On a wide sheet that the transformer accepts, the run returns the
    transformer's rows without those whose emissions are below zero and
    without those whose country is missing, sorted by country and then
    year, and changes nothing else. When the transformer leaves no row
    the run fails for the three missing columns; when every row it leaves
    has a missing country, for the missing Country column; and when no
    row is kept, for an empty data set. *)
Theorem wide_sheet_run (rt : Runtime) (df w : DataFrame) :
  _is_wide_format_with_years df = true ->
  _transform_wide_to_long rt df = Ok w ->
  load_and_clean_data rt df =
  match rows w with
  | [] => Raise (ProcessingError (ValueError_missing ["Country"; "Year"; "Emissions"] []))
  | _ :: _ =>
      if forallb (fun r => is_null (cell_at 0 r)) (rows w) then
        Raise (ProcessingError
                 (ValueError_missing ["Country"] (text_row ["Year"; "Emissions"])))
      else
        match filter (fun r => notna (cell_at 0 r))
                     (filter (fun r => nonnegative (cell_at 2 r)) (rows w)) with
        | [] => Raise (ProcessingError ValueError_empty)
        | kept => Ok {| columns := columns w; rows := sort (rows_leb [0; 1]%nat) kept |}
        end
  end.
Proof. intros Hw Ht. apply (wide_run_form rt df w Hw Ht). Qed.

Lemma wide_sheet_run_witness :
  load_and_clean_data whole_runtime scenario_A
  = Ok {| columns := text_row ["Country"; "Year"; "Emissions"];
          rows := [[CStr "France"; CInt 2021; CFloat (F64.of_Z 5)];
                   [CStr "USA"; CInt 2020; CFloat (F64.of_Z 10)];
                   [CStr "USA"; CInt 2021; CFloat (F64.of_Z 20)]] |}.
Proof.
  rewrite (wide_sheet_run whole_runtime scenario_A
             {| columns := text_row ["Country"; "Year"; "Emissions"];
                rows := [[CStr "USA"; CInt 2020; CFloat (F64.of_Z 10)];
                         [CStr "USA"; CInt 2021; CFloat (F64.of_Z 20)];
                         [CStr "France"; CInt 2021; CFloat (F64.of_Z 5)]] |});
    reflexivity.
Defined.

(** X17. The table a run returns for a wide sheet is a fixed point of the
    run: loading that table again returns it unchanged. *)
Theorem wide_run_is_fixed_point (rt : Runtime) (df w out : DataFrame) :
  _is_wide_format_with_years df = true ->
  _transform_wide_to_long rt df = Ok w ->
  load_and_clean_data rt df = Ok out ->
  load_and_clean_data rt out = Ok out.
Proof.
  intros Hw Ht Hl. destruct (wide_run_rows rt df w out Hw Ht Hl) as [Eo Hne].
  pose proof (wide_final_rows rt df) as Hrows.
  set (final := sort (rows_leb [0; 1]%nat)
                  (filter (fun r => notna (cell_at 0 r))
                     (filter (fun r => nonnegative (cell_at 2 r)) (long_rows rt df)))) in *.
  assert (HF : Forall canonical_shape final).
  { apply Forall_forall. intros r Hr. apply (Hrows r Hr). }
  assert (Hfinal : final <> []) by (subst out; exact Hne).
  subst out. rewrite load_unfold, (handle_canonical rt final HF).
  rewrite (clean_data_canonical rt final HF Hfinal).
  assert (Hkeep : filter (fun r => nonnegative (cell_at 2 r)) final = final).
  { apply filter_all. intros r Hr. apply (Hrows r Hr). }
  rewrite Hkeep.
  assert (Hsort : sort (rows_leb [0; 1]%nat) final = final).
  { apply sort_sorted. apply Sorted_sort. apply rows_leb_total. }
  rewrite Hsort. unfold _validate_data.
  change (missing_columns (canonical_frame final)) with (@nil string).
  cbn [canonical_frame rows]. destruct final; [congruence|reflexivity].
Qed.

Lemma wide_run_is_fixed_point_witness :
  load_and_clean_data whole_runtime
    {| columns := text_row ["Country"; "Year"; "Emissions"];
       rows := [[CStr "France"; CInt 2021; CFloat (F64.of_Z 5)];
                [CStr "USA"; CInt 2020; CFloat (F64.of_Z 10)];
                [CStr "USA"; CInt 2021; CFloat (F64.of_Z 20)]] |}
  = Ok {| columns := text_row ["Country"; "Year"; "Emissions"];
          rows := [[CStr "France"; CInt 2021; CFloat (F64.of_Z 5)];
                   [CStr "USA"; CInt 2020; CFloat (F64.of_Z 10)];
                   [CStr "USA"; CInt 2021; CFloat (F64.of_Z 20)]] |}.
Proof.
  apply (wide_run_is_fixed_point whole_runtime scenario_A
           {| columns := text_row ["Country"; "Year"; "Emissions"];
              rows := [[CStr "USA"; CInt 2020; CFloat (F64.of_Z 10)];
                       [CStr "USA"; CInt 2021; CFloat (F64.of_Z 20)];
                       [CStr "France"; CInt 2021; CFloat (F64.of_Z 5)]] |});
    reflexivity.
Defined.

(** X18. Every record of the table returned for a wide sheet has a year
    between 2000 and 2030, so the year warning is never shown for it; and
    the table has at most one record for each pair of an input row and a
    year column. *)
Theorem wide_run_years (rt : Runtime) (df w out : DataFrame) :
  _is_wide_format_with_years df = true ->
  _transform_wide_to_long rt df = Ok w ->
  load_and_clean_data rt df = Ok out ->
  exists recs,
    canonical_table out = Some recs /\
    length recs = length (rows out) /\
    (length recs <= length (rows df) * length (year_columns df))%nat /\
    (forall rec, In rec recs -> 2000 <= year rec <= 2030) /\
    (forall lo hi, ~ In (UnusualYearRange lo hi) (validation_warnings recs)).
Proof.
  intros Hw Ht Hl. destruct (wide_run_rows rt df w out Hw Ht Hl) as [Eo _].
  pose proof (wide_final_rows rt df) as Hrows.
  set (kept := filter (fun r => notna (cell_at 0 r))
                 (filter (fun r => nonnegative (cell_at 2 r)) (long_rows rt df))) in *.
  set (final := sort (rows_leb [0; 1]%nat) kept) in *.
  assert (HF : Forall canonical_shape final).
  { apply Forall_forall. intros r Hr. apply (Hrows r Hr). }
  destruct (canonical_table_frame final HF) as (recs & Hc & H2).
  assert (Hlen : length recs = length final) by (eapply Forall2_same_length; exact H2).
  assert (Hyears : forall rec, In rec recs -> 2000 <= year rec <= 2030).
  { intros rec Hrec. destruct (held_records _ _ _ _ _ H2 rec Hrec) as (r & Hr & _ & Hyr & _).
    apply Hrows in Hr. destruct Hr as [Hr _]. apply In_long_rows in Hr.
    destruct Hr as (r0 & j & label & y & _ & Hjl & Hy & _ & _ & _ & ->).
    apply year_columns_spec in Hjl. destruct Hjl as (_ & _ & y' & Hy' & Hrange).
    unfold cell_at in Hyr. cbn [nth] in Hyr. inversion Hyr. congruence. }
  exists recs. subst out. split; [exact Hc|]. split; [exact Hlen|].
  split; [|split; [exact Hyears|]].
  - rewrite Hlen. subst final kept. rewrite length_sort.
    eapply Nat.le_trans; [apply filter_length_le|].
    eapply Nat.le_trans; [apply filter_length_le|apply long_rows_length].
  - intros lo hi Hwarn. apply validation_warnings_year in Hwarn.
    destruct Hwarn as (rec & Hrec & Hout). pose proof (Hyears rec Hrec). lia.
Qed.

(** ** What the cleaner keeps *)

Section CleanerInvariants.

Variable rt : Runtime.

Lemma clean_data_trimmed (df out : DataFrame) (jc : nat) :
  _clean_data rt df = Ok out ->
  series_position "Country" out = Ok jc ->
  Forall (fun r => trimmed_at jc r \/ is_null (cell_at jc r) = true) (rows out).
Proof.
  intros Hclean Jout.
  pose proof (clean_data_steps rt df out Hclean)
    as (d1 & d2 & d3 & d4 & H1 & H2 & H3 & H4 & H5).
  pose proof (clean_country_spec rt _ _ H1) as [C1 S1].
  pose proof (clean_year_spec rt _ _ H2) as [C2 _].
  pose proof (clean_emissions_spec rt _ _ H3) as [C3 _].
  pose proof (dropna_required_spec _ _ H4) as [C4 _].
  pose proof (sort_by_country_year_spec _ _ H5) as (C5 & _).
  assert (J0 : series_position "Country" (prepare rt df) = Ok jc).
  { rewrite <- Jout. apply series_position_columns. congruence. }
  assert (J1 : series_position "Country" d1 = Ok jc)
    by (rewrite (series_position_columns "Country" _ _ C1); exact J0).
  assert (J2 : series_position "Country" d2 = Ok jc)
    by (rewrite (series_position_columns "Country" _ _ C2); exact J1).
  set (R := fun r => trimmed_at jc r \/ is_null (cell_at jc r) = true).
  assert (HR : forall j g r, j <> jc -> R r -> R (map_at j g r)).
  { intros j g r Hj [(s & Hs & Ht)|Hn]; [left; exists s|right];
      rewrite cell_at_map_at_other by congruence; auto. }
  assert (F1 : Forall R (rows d1)).
  { destruct S1 as [[S1 _]|(j & Jc & R1)].
    { rewrite (has_column_position _ _ _ J0) in S1. discriminate. }
    assert (j = jc) by congruence. subst j.
    apply Forall_forall. intros r' Hr'. apply R1 in Hr'.
    destruct Hr' as (r & _ & -> & _). unfold R, trimmed_at.
    rewrite cell_at_map_at_same.
    destruct (clean_text_cases rt (cell_at jc r)) as [E|(E & _)]; rewrite E.
    - left. eexists. split; [reflexivity|apply strip_idempotent].
    - right. reflexivity. }
  assert (F2 : Forall R (rows d2)).
  { apply (year_step_keeps rt _ _ _ H2); [|exact F1].
    intros j f r Hj. apply HR. intros E. subst j.
    apply (series_positions_differ "Country" "Year" d1 jc jc); [discriminate|assumption..|reflexivity]. }
  assert (F3 : Forall R (rows d3)).
  { apply (emissions_step_keeps rt _ _ _ H3); [|exact F2].
    intros j f r Hj. apply HR. intros E. subst j.
    apply (series_positions_differ "Country" "Emissions" d2 jc jc); [discriminate|assumption..|reflexivity]. }
  eapply tail_steps_keep; eassumption.
Qed.

End CleanerInvariants.

Section CleanerBounds.

Variable rt : Runtime.

Lemma select_length (A : Type) (mask : list bool) (l : list A) :
  (length (select mask l) <= length l)%nat.
Proof.
  revert l. induction mask as [|b m IH]; intros [|x t]; simpl; try lia.
  specialize (IH t). destruct b; simpl; lia.
Qed.

Lemma prepare_bounds (df : DataFrame) :
  (length (rows (prepare rt df)) <= length (rows df))%nat /\
  (length (columns (prepare rt df)) <= length (columns df))%nat.
Proof.
  unfold prepare. cbv zeta.
  set (d := dropna_columns_all (dropna_rows_all df)).
  assert (H : (length (rows d) <= length (rows df))%nat /\
              (length (columns d) <= length (columns df))%nat).
  { subst d. unfold dropna_columns_all, dropna_rows_all. cbn [rows columns].
    rewrite length_map. split; [apply filter_length_le|apply select_length]. }
  destruct (all_required d); [exact H|].
  unfold _map_columns. cbn [rows columns]. rewrite length_map. exact H.
Qed.

Lemma clean_country_length (df d : DataFrame) :
  clean_country rt df = Ok d -> (length (rows d) <= length (rows df))%nat.
Proof.
  unfold clean_country. destruct (has_column "Country" df).
  - destruct (series_position "Country" df); [|discriminate]. cbn [bind].
    intros H. inversion H; subst d. unfold filter_col, map_col. cbn [rows].
    etransitivity; [apply filter_length_le|].
    etransitivity; [apply filter_length_le|]. rewrite length_map. lia.
  - intros H. inversion H. lia.
Qed.

Lemma clean_year_length (df d : DataFrame) :
  clean_year rt df = Ok d -> (length (rows d) <= length (rows df))%nat.
Proof.
  unfold clean_year. destruct (has_column "Year" df).
  - destruct (series_position "Year" df) as [j|]; [|discriminate]. cbn [bind].
    destruct (is_integer_dtype j df); intros H; inversion H; subst d; [lia|].
    unfold filter_col, map_col. cbn [rows].
    etransitivity; [apply filter_length_le|]. rewrite length_map. lia.
  - intros H. inversion H. lia.
Qed.

Lemma clean_emissions_length (df d : DataFrame) :
  clean_emissions rt df = Ok d -> (length (rows d) <= length (rows df))%nat.
Proof.
  unfold clean_emissions. destruct (has_column "Emissions" df).
  - destruct (series_position "Emissions" df); [|discriminate]. cbn [bind].
    intros H. inversion H; subst d. unfold filter_col, map_col. cbn [rows].
    etransitivity; [apply filter_length_le|].
    etransitivity; [apply filter_length_le|]. rewrite length_map. lia.
  - intros H. inversion H. lia.
Qed.

Lemma dropna_required_length (df d : DataFrame) :
  dropna_required df = Ok d -> (length (rows d) <= length (rows df))%nat.
Proof.
  unfold dropna_required. destruct (all_required df).
  - destruct (series_position "Country" df); [|discriminate].
    destruct (series_position "Year" df); [|discriminate].
    destruct (series_position "Emissions" df); [|discriminate]. cbn [bind].
    intros H. inversion H; subst d. unfold filter_col. cbn [rows].
    etransitivity; [apply filter_length_le|].
    etransitivity; [apply filter_length_le|]. apply filter_length_le.
  - intros H. inversion H. lia.
Qed.

Lemma sort_by_country_year_length (df d : DataFrame) :
  sort_by_country_year df = Ok d -> length (rows d) = length (rows df).
Proof.
  unfold sort_by_country_year.
  destruct (sort_key "Country" df) as [kc|]; [|discriminate].
  destruct (sort_key "Year" df) as [ky|]; [|discriminate]. cbn [bind].
  destruct (kc ++ ky); intros H; inversion H; subst d; [reflexivity|].
  unfold sort_values. cbn [rows]. apply length_sort.
Qed.

Lemma clean_data_length (df out : DataFrame) :
  _clean_data rt df = Ok out -> (length (rows out) <= length (rows df))%nat.
Proof.
  intros H. apply clean_data_steps in H.
  destruct H as (d1 & d2 & d3 & d4 & H1 & H2 & H3 & H4 & H5).
  apply clean_country_length in H1. apply clean_year_length in H2.
  apply clean_emissions_length in H3. apply dropna_required_length in H4.
  apply sort_by_country_year_length in H5.
  pose proof (proj1 (prepare_bounds df)). lia.
Qed.

End CleanerBounds.

(** X19. No record of a table a run returns has white space around its
    country name. *)
Theorem output_countries_trimmed (rt : Runtime) (df out : DataFrame) :
  load_and_clean_data rt df = Ok out ->
  exists recs,
    canonical_table out = Some recs /\
    length recs = length (rows out) /\
    forall rec, In rec recs -> PyStr.strip (country rec) = country rec.
Proof.
  intros H. apply load_ok in H. destruct H as (Hc & Hm & _).
  destruct (clean_data_output rt _ _ Hc Hm) as (jc & jy & je & Jc & Jy & Je & HF & _).
  destruct (canonical_of_clean out jc jy je Jc Jy Je HF) as (recs & Hrecs & H2).
  exists recs. split; [exact Hrecs|]. split; [eapply Forall2_same_length; exact H2|].
  intros rec Hrec. destruct (held_records jc jy je _ _ H2 rec Hrec) as (r & Hr & Hcell & _).
  pose proof (clean_data_trimmed rt _ _ jc Hc Jc) as HT.
  rewrite Forall_forall in HT. destruct (HT r Hr) as [(s & Hs & Ht)|Hn].
  - rewrite Hcell in Hs. inversion Hs as [Hs']. rewrite Hs'. exact Ht.
  - rewrite Hcell in Hn. discriminate.
Qed.

Lemma output_countries_trimmed_witness :
  exists recs,
    recs = [mk "France" 2021 (F64.of_Z 5); mk "USA" 2020 (F64.of_Z 10);
            mk "USA" 2021 (F64.of_Z 20)] /\
    forall rec, In rec recs -> PyStr.strip (country rec) = country rec.
Proof.
  destruct (output_countries_trimmed whole_runtime scenario_A
              {| columns := text_row ["Country"; "Year"; "Emissions"];
                 rows := [[CStr "France"; CInt 2021; CFloat (F64.of_Z 5)];
                          [CStr "USA"; CInt 2020; CFloat (F64.of_Z 10)];
                          [CStr "USA"; CInt 2021; CFloat (F64.of_Z 20)]] |}
              eq_refl) as (recs & Hrecs & _ & Hall).
  exists recs. split; [|exact Hall].
  vm_compute in Hrecs. inversion Hrecs. reflexivity.
Defined.

(** X20. The cleaner adds nothing: the frame it returns has at most as
    many rows as the frame it was given, and its columns are those that
    were left after the blank columns were dropped, under their mapped
    names, so at most as many as before. *)
Theorem cleaner_adds_nothing (rt : Runtime) (df out : DataFrame) :
  _clean_data rt df = Ok out ->
  (length (rows out) <= length (rows df))%nat /\
  columns out = columns (prepare rt df) /\
  (length (columns out) <= length (columns df))%nat.
Proof.
  intros H. split; [apply (clean_data_length rt df out H)|].
  pose proof (clean_data_columns rt df out H) as Hc.
  split; [exact Hc|]. rewrite Hc. apply prepare_bounds.
Qed.

Lemma cleaner_adds_nothing_witness :
  _clean_data whole_runtime scenario_B
  = Ok (canonical_frame [[CStr "Norway"; CInt 2019; CFloat (F64.of_Z 7)]]) /\
  (length (rows (canonical_frame [[CStr "Norway"; CInt 2019; CFloat (F64.of_Z 7)]]))
   <= length (rows scenario_B))%nat.
Proof.
  split; [reflexivity|].
  apply (cleaner_adds_nothing whole_runtime scenario_B). reflexivity.
Defined.

Lemma wide_run_years_witness :
  exists recs,
    recs = [mk "France" 2021 (F64.of_Z 5); mk "USA" 2020 (F64.of_Z 10);
            mk "USA" 2021 (F64.of_Z 20)] /\
    forall rec, In rec recs -> 2000 <= year rec <= 2030.
Proof.
  destruct (wide_run_years whole_runtime scenario_A
              {| columns := text_row ["Country"; "Year"; "Emissions"];
                 rows := [[CStr "USA"; CInt 2020; CFloat (F64.of_Z 10)];
                          [CStr "USA"; CInt 2021; CFloat (F64.of_Z 20)];
                          [CStr "France"; CInt 2021; CFloat (F64.of_Z 5)]] |}
              {| columns := text_row ["Country"; "Year"; "Emissions"];
                 rows := [[CStr "France"; CInt 2021; CFloat (F64.of_Z 5)];
                          [CStr "USA"; CInt 2020; CFloat (F64.of_Z 10)];
                          [CStr "USA"; CInt 2021; CFloat (F64.of_Z 20)]] |}
              eq_refl eq_refl eq_refl) as (recs & Hrecs & _ & _ & Hall & _).
  exists recs. split; [|exact Hall].
  vm_compute in Hrecs. inversion Hrecs. reflexivity.
Defined.

(** ** The layout handler *)

Section HandlerFacts.

Variable rt : Runtime.

Lemma wide_refuses (df : DataFrame) :
  year_columns df <> [] ->
  has_column "Emissions" df = true \/ label_is "Year" (hd CNone (columns df)) = true ->
  exists e, _transform_wide_to_long rt df = Raise e.
Proof.
  intros Hy Hbad.
  destruct (_transform_wide_to_long rt df) as [out|e] eqn:Ho; [|eauto]. exfalso.
  unfold _transform_wide_to_long in Ho.
  destruct (columns df) as [|c0 rest] eqn:Hcols; [discriminate|].
  unfold year_columns in Hy. rewrite Hcols in Hy. simpl in Hy.
  destruct (year_cols_from 1 rest); [congruence|].
  unfold melt in Ho. destruct (has_column "Emissions" df) eqn:He; [discriminate|].
  destruct Hbad as [Hbad|Hc]; [discriminate|]. simpl in Hc.
  assert (He0 : label_is "Emissions" c0 = false).
  { unfold has_column in He. rewrite Hcols in He. simpl in He.
    apply orb_false_iff in He. apply He. }
  unfold bind, rename in Ho. cbn [columns rows map] in Ho.
  rewrite label_eqb_refl, !label_eqb_text, Hc, He0 in Ho.
  discriminate.
Qed.

Lemma find_index_none (A : Type) (p : A -> bool) (l : list A) (i : nat) :
  (forall x, In x l -> p x = false) -> find_index p i l = None.
Proof.
  revert i. induction l as [|x t IH]; intros i H; [reflexivity|].
  cbn [find_index]. rewrite (H x (or_introl eq_refl)).
  apply IH. intros y Hy. apply H. right. exact Hy.
Qed.

Lemma parse_oecd_columns (df : DataFrame) :
  _parse_oecd_format rt df = df \/ columns (_parse_oecd_format rt df) = oecd_columns.
Proof.
  unfold _parse_oecd_format. destruct (time_row_of rt df) as [t|]; [|left; reflexivity].
  destruct (processed_data_of rt df t); [left|right]; reflexivity.
Qed.

End HandlerFacts.

(** X21. The layout handler never fails and returns either the sheet it
    was given, a frame with the columns Country, Year, Emissions (wide
    sheets) or one with those and Original_Time_Period (agency reports).
    It returns the sheet unchanged when the sheet is wide but already has
    an Emissions column or a first column named Year, when it is not wide
    and fewer than two of its first twenty rows name an indicator, and
    when it is not wide and none of its first fifteen rows is a period
    row. *)
Theorem layout_handler_outcomes (rt : Runtime) (df : DataFrame) :
  (_handle_oecd_structure rt df = df \/
   columns (_handle_oecd_structure rt df) = text_row ["Country"; "Year"; "Emissions"] \/
   columns (_handle_oecd_structure rt df) = oecd_columns) /\
  (_is_wide_format_with_years df = true ->
   has_column "Emissions" df = true \/ label_is "Year" (hd CNone (columns df)) = true ->
   _handle_oecd_structure rt df = df) /\
  (_is_wide_format_with_years df = false ->
   (length (oecd_indicators rt df) < 2)%nat ->
   _handle_oecd_structure rt df = df) /\
  (_is_wide_format_with_years df = false ->
   (forall r, In r (firstn 15 (rows df)) -> is_time_row rt r = false) ->
   _handle_oecd_structure rt df = df).
Proof.
  unfold _handle_oecd_structure, handle_body.
  destruct (_is_wide_format_with_years df) eqn:Hw.
  - assert (Hy : year_columns df <> []).
    { destruct (wide_has_year_columns df Hw) as [_ H2].
      intros E. rewrite E in H2. simpl in H2. lia. }
    split; [|split; [|split; discriminate]].
    + destruct (_transform_wide_to_long rt df) as [out|e] eqn:Ht; cbn [try_except];
        [|left; reflexivity].
      right. left. rewrite (wide_ok rt df out Hy Ht). reflexivity.
    + intros _ Hbad. destruct (wide_refuses rt df Hy Hbad) as (e & ->). reflexivity.
  - split; [|split; [discriminate|split]].
    + destruct (2 <=? length (oecd_indicators rt df))%nat; cbn [try_except];
        [|left; reflexivity].
      destruct (parse_oecd_columns rt df) as [H|H]; [left|right; right]; exact H.
    + intros _ Hfew. apply Nat.leb_gt in Hfew. rewrite Hfew. reflexivity.
    + intros _ Hno.
      destruct (2 <=? length (oecd_indicators rt df))%nat; cbn [try_except];
        [|reflexivity].
      unfold _parse_oecd_format, time_row_of.
      rewrite (find_index_none _ _ _ 0%nat Hno). reflexivity.
Qed.

Lemma layout_handler_outcomes_witness :
  _handle_oecd_structure whole_runtime clashing_sheet = clashing_sheet.
Proof.
  apply (proj1 (proj2 (layout_handler_outcomes whole_runtime clashing_sheet)));
    [reflexivity|left; reflexivity].
Defined.

(** ** Agency reports with a label that has no year *)

Lemma of_Z_year (z : Z) :
  1900 <= z <= 2030 ->
  F64.is_finite (F64.of_Z z) = true /\ F64.is_zero (F64.of_Z z) = false /\
  float_repr whole_runtime (F64.of_Z z) = (PyStr.str_of_int z ++ ".0")%string.
Proof.
  intros Hz.
  assert (H : forallb (fun n => let y := 1900 + Z.of_nat n in
                         F64.is_finite (F64.of_Z y) && negb (F64.is_zero (F64.of_Z y)) &&
                         String.eqb (float_repr whole_runtime (F64.of_Z y))
                                    (PyStr.str_of_int y ++ ".0"))
                      (seq 0 131) = true) by (vm_compute; reflexivity).
  rewrite forallb_forall in H. specialize (H (Z.to_nat (z - 1900))).
  cbv zeta in H. replace (1900 + Z.of_nat (Z.to_nat (z - 1900))) with z in H by lia.
  assert (Hin : In (Z.to_nat (z - 1900)) (seq 0 131)) by (apply in_seq; lia).
  apply H in Hin. apply andb_true_iff in Hin. destruct Hin as [Hin Hs].
  apply andb_true_iff in Hin. destruct Hin as [Hf Hn].
  apply negb_true_iff in Hn. apply String.eqb_eq in Hs. auto.
Qed.

Section AgencyMixed.

Variable rt : Runtime.

Hypothesis float_repr_year :
  forall y, 1900 <= y <= 2030 ->
    float_repr rt (F64.of_Z y) = (PyStr.str_of_int y ++ ".0")%string.

Lemma extract_year_range (label : string) (y : Z) :
  _extract_year_from_time_period label = Some y -> 1900 <= y <= 2030.
Proof. intros H. apply extract_year_spec in H. destruct H as (g & _ & _ & H). exact H. Qed.

Lemma parsed_float_year (y : Z) :
  1900 <= y <= 2030 -> parse_time_value rt (CFloat (F64.of_Z y)) = Some (10 * y).
Proof.
  intros Hy. destruct (of_Z_year y Hy) as (Hf & Hz & _).
  destruct (TextFacts.str_of_int_natural y) as (Hne & Hd & Hv); [lia|].
  rewrite (parse_float_text rt (F64.of_Z y) (PyStr.str_of_int y) Hf Hz
             (float_repr_year y Hy) (conj Hne Hd)).
  rewrite Hv. reflexivity.
Qed.

Lemma result_df_mixed (recs : list (string * string * spec_float)) :
  (exists rec, In rec recs /\ _extract_year_from_time_period (period_of rec) = None) ->
  (exists rec y, In rec recs /\ _extract_year_from_time_period (period_of rec) = Some y) ->
  Forall float_dated_row (rows (result_df recs)).
Proof.
  intros (r0 & Hr0 & N0) (r1 & y1 & Hr1 & S1).
  set (f := fun rec => _extract_year_from_time_period (period_of rec)).
  assert (E1 : forallb is_some (map f recs) = false).
  { destruct (forallb is_some (map f recs)) eqn:E; [|reflexivity].
    rewrite forallb_forall in E. specialize (E (f r0) (in_map f _ _ Hr0)).
    unfold f in E. rewrite N0 in E. discriminate. }
  assert (E2 : forallb (fun y => negb (is_some y)) (map f recs) = false).
  { destruct (forallb (fun y => negb (is_some y)) (map f recs)) eqn:E; [|reflexivity].
    rewrite forallb_forall in E. specialize (E (f r1) (in_map f _ _ Hr1)).
    unfold f in E. rewrite S1 in E. discriminate. }
  apply Forall_forall. intros r Hr. unfold result_df in Hr. cbn [rows] in Hr.
  apply in_map_iff in Hr. destruct Hr as ([rec ycell] & <- & Hin).
  fold f in Hin. unfold infer_year_cells in Hin. rewrite E1, E2, map_map in Hin.
  apply In_combine_map in Hin. subst ycell.
  exists (period_of rec). split; reflexivity.
Qed.

Lemma float_dated_stable (j : nat) (g : cell -> cell) (r : list cell) :
  j <> 1%nat -> j <> 3%nat -> float_dated_row r -> float_dated_row (map_at j g r).
Proof.
  intros H1 H3 (label & Hl & Hy). exists label.
  rewrite !cell_at_map_at_other by congruence. auto.
Qed.

Lemma scaled_stable (j : nat) (g : cell -> cell) (r : list cell) :
  j <> 1%nat -> j <> 3%nat -> scaled_row r -> scaled_row (map_at j g r).
Proof.
  intros H1 H3 (label & y & Hl & Hy & Hc). exists label, y.
  rewrite !cell_at_map_at_other by congruence. auto.
Qed.

Lemma mixed_final (recs : list (string * string * spec_float)) (out : DataFrame) :
  (exists rec, In rec recs /\ _extract_year_from_time_period (period_of rec) = None) ->
  (exists rec y, In rec recs /\ _extract_year_from_time_period (period_of rec) = Some y) ->
  _clean_data rt (result_df recs) = Ok out ->
  missing_columns out = [] ->
  columns out = oecd_columns /\ Forall scaled_row (rows out).
Proof.
  intros Hnone Hsome Hclean Hmiss.
  assert (Hne : recs <> []) by (destruct Hnone as (r0 & H0 & _); intros ->; destruct H0).
  pose proof (clean_data_columns rt _ _ Hclean) as Hcols.
  destruct (prepare_result_df rt recs Hne) as [Hprep|Hbad].
  2:{ rewrite <- (missing_columns_columns _ _ Hcols) in Hbad. congruence. }
  rewrite Hprep in Hcols. split; [exact Hcols|].
  pose proof (clean_data_steps rt _ _ Hclean)
    as (d1 & d2 & d3 & d4 & H1 & H2 & H3 & H4 & H5).
  rewrite Hprep in H1.
  pose proof (clean_country_spec rt _ _ H1) as [C1 _].
  pose proof (clean_year_spec rt _ _ H2) as [C2 S2].
  change (columns (result_df recs)) with oecd_columns in C1.
  assert (P0 : forall j, series_position "Country" (result_df recs) = Ok j -> j = 0%nat)
    by (intros j Hj; inversion Hj; reflexivity).
  assert (P1 : forall j, series_position "Year" d1 = Ok j -> j = 1%nat).
  { intros j Hj. unfold series_position in Hj. rewrite C1 in Hj.
    inversion Hj; reflexivity. }
  assert (P2 : forall j, series_position "Emissions" d2 = Ok j -> j = 2%nat).
  { intros j Hj. unfold series_position in Hj. rewrite C2, C1 in Hj.
    inversion Hj; reflexivity. }
  assert (F1 : Forall float_dated_row (rows d1)).
  { apply (country_step_keeps rt _ _ _ H1); [|apply result_df_mixed; assumption].
    intros j g r Hj. rewrite (P0 j Hj). apply float_dated_stable; discriminate. }
  assert (F2 : Forall scaled_row (rows d2)).
  { destruct S2 as [[Hno _]|(j & Hj & S2)].
    { unfold has_column in Hno. rewrite C1 in Hno. discriminate. }
    rewrite (P1 j Hj) in S2. clear j Hj.
    rewrite Forall_forall in *.
    destruct S2 as [[Hint ->]|[_ S2]].
    - intros r Hr. destruct (F1 r Hr) as (label & _ & Hy).
      unfold is_integer_dtype in Hint. rewrite forallb_forall in Hint.
      specialize (Hint r Hr). rewrite Hy in Hint.
      destruct (_extract_year_from_time_period label); discriminate.
    - intros r' Hr'. apply S2 in Hr'. destruct Hr' as (r & y' & Hr & Hp & ->).
      destruct (F1 r Hr) as (label & Hl & Hy). rewrite Hy in Hp.
      destruct (_extract_year_from_time_period label) as [y|] eqn:Ey.
      2:{ rewrite parse_null in Hp by reflexivity. discriminate. }
      pose proof (extract_year_range label y Ey) as Hrange.
      exists label, y. rewrite cell_at_map_at_other by discriminate.
      split; [exact Hl|]. split; [exact Ey|].
      rewrite cell_at_map_at_same, Hy. unfold parsed_year_cell.
      rewrite (parsed_float_year y Hrange). reflexivity. }
  assert (F3 : Forall scaled_row (rows d3)).
  { apply (emissions_step_keeps rt _ _ _ H3); [|exact F2].
    intros j g r Hj. rewrite (P2 j Hj). apply scaled_stable; discriminate. }
  eapply tail_steps_keep; eassumption.
Qed.

End AgencyMixed.

(** X22. When Python prints the float of a year as its digits followed by
    .0, an agency report in which some period label carries a year and
    some other label carries none returns a table in which every year is
    ten times the year of the row's period label: the Year column holds
    floats, and the cleaner reads the digits of their text. *)
Theorem mixed_labels_scale_years (rt : Runtime) (df out : DataFrame) (t : nat) :
  (forall y, 1900 <= y <= 2030 ->
     float_repr rt (F64.of_Z y) = (PyStr.str_of_int y ++ ".0")%string) ->
  _is_wide_format_with_years df = false ->
  (2 <= length (oecd_indicators rt df))%nat ->
  time_row_of rt df = Some t ->
  (exists rec, In rec (processed_data_of rt df t) /\
               _extract_year_from_time_period (period_of rec) = None) ->
  (exists rec y, In rec (processed_data_of rt df t) /\
                 _extract_year_from_time_period (period_of rec) = Some y) ->
  load_and_clean_data rt df = Ok out ->
  rows out <> [] /\
  forall r, In r (rows out) ->
    exists label y,
      cell_at 3 r = CStr label /\
      _extract_year_from_time_period label = Some y /\
      cell_at 1 r = CInt (10 * y) /\ 19000 <= 10 * y.
Proof.
  intros Hrepr Hw Hi Ht Hnone Hsome Hload.
  apply load_ok in Hload. destruct Hload as (Hclean & Hmiss & Hrows).
  split; [exact Hrows|].
  assert (Hp : processed_data_of rt df t <> []).
  { destruct Hnone as (r0 & H0 & _). intros E. rewrite E in H0. destruct H0. }
  assert (Hstage : _handle_oecd_structure rt df = result_df (processed_data_of rt df t)).
  { unfold _handle_oecd_structure, handle_body. rewrite Hw.
    apply Nat.leb_le in Hi. rewrite Hi. cbn [try_except].
    apply parse_oecd_format_records; assumption. }
  rewrite Hstage in Hclean.
  destruct (mixed_final rt Hrepr _ out Hnone Hsome Hclean Hmiss) as [_ HF].
  rewrite Forall_forall in HF. intros r Hr.
  destruct (HF r Hr) as (label & y & Hl & Hy & Hc).
  exists label, y. repeat split; try assumption.
  pose proof (extract_year_range label y Hy). lia.
Qed.

Lemma mixed_labels_scale_years_witness :
  load_and_clean_data whole_runtime agency_sheet
  = Ok {| columns := oecd_columns;
          rows := [[CStr "Norway"; CInt 20210; CFloat (F64.of_Z 1); CStr "2021-Q1"];
                   [CStr "Norway"; CInt 20210; CFloat (F64.of_Z 2); CStr "2021-Q2"];
                   [CStr "Norway"; CInt 20210; CFloat (F64.of_Z 3); CStr "2021-Q3"];
                   [CStr "Norway"; CInt 20210; CFloat (F64.of_Z 4); CStr "2021-Q4"]] |} /\
  exists label y,
    label = "2021-Q1"%string /\
    _extract_year_from_time_period label = Some y /\ CInt 20210 = CInt (10 * y).
Proof.
  split; [reflexivity|].
  destruct (proj2 (mixed_labels_scale_years whole_runtime agency_sheet
              {| columns := oecd_columns;
                 rows := [[CStr "Norway"; CInt 20210; CFloat (F64.of_Z 1); CStr "2021-Q1"];
                          [CStr "Norway"; CInt 20210; CFloat (F64.of_Z 2); CStr "2021-Q2"];
                          [CStr "Norway"; CInt 20210; CFloat (F64.of_Z 3); CStr "2021-Q3"];
                          [CStr "Norway"; CInt 20210; CFloat (F64.of_Z 4); CStr "2021-Q4"]] |}
              1%nat
              (fun y Hy => proj2 (proj2 (of_Z_year y Hy)))
              eq_refl
              (Nat.le_refl 2)
              eq_refl
              (ex_intro _ ("Norway"%string, "Total"%string, F64.of_Z 10)
                 (conj (or_intror (or_intror (or_intror (or_intror (or_introl eq_refl)))))
                       eq_refl))
              (ex_intro _ ("Norway"%string, "2021-Q1"%string, F64.of_Z 1)
                 (ex_intro _ 2021 (conj (or_introl eq_refl) eq_refl)))
              eq_refl)
              [CStr "Norway"; CInt 20210; CFloat (F64.of_Z 1); CStr "2021-Q1"]
              (or_introl eq_refl))
    as (label & y & Hl & Hy & Hc & _).
  exists label, y. unfold cell_at in Hl, Hc. cbn [nth] in Hl, Hc.
  inversion Hl as [Hl']. rewrite <- Hl' in Hy. auto.
Defined.

(** ** Agency reports whose labels all carry a year, or none *)

Section AgencyDated.

Variable rt : Runtime.

Lemma result_df_dated (recs : list (string * string * spec_float)) :
  (forall rec, In rec recs -> _extract_year_from_time_period (period_of rec) <> None) ->
  Forall int_dated_row (rows (result_df recs)).
Proof.
  intros Hall.
  set (f := fun rec => _extract_year_from_time_period (period_of rec)).
  assert (E1 : forallb is_some (map f recs) = true).
  { apply forallb_forall. intros o Ho. apply in_map_iff in Ho.
    destruct Ho as (rec & <- & Hrec). specialize (Hall rec Hrec).
    unfold f. destruct (_extract_year_from_time_period (period_of rec)); [reflexivity|congruence]. }
  apply Forall_forall. intros r Hr. unfold result_df in Hr. cbn [rows] in Hr.
  apply in_map_iff in Hr. destruct Hr as ([rec ycell] & <- & Hin).
  fold f in Hin. unfold infer_year_cells in Hin. rewrite E1, map_map in Hin.
  pose proof (in_combine_l _ _ _ _ Hin) as Hrec.
  apply In_combine_map in Hin. subst ycell. specialize (Hall rec Hrec).
  unfold f. destruct (_extract_year_from_time_period (period_of rec)) as [y|] eqn:Ey;
    [|congruence].
  exists (period_of rec), y. repeat split. exact Ey.
Qed.

Lemma int_dated_stable (j : nat) (g : cell -> cell) (r : list cell) :
  j <> 1%nat -> j <> 3%nat -> int_dated_row r -> int_dated_row (map_at j g r).
Proof.
  intros H1 H3 (label & y & Hl & Hy & Hc). exists label, y.
  rewrite !cell_at_map_at_other by congruence. auto.
Qed.

Lemma dated_final (recs : list (string * string * spec_float)) (out : DataFrame) :
  recs <> [] ->
  (forall rec, In rec recs -> _extract_year_from_time_period (period_of rec) <> None) ->
  _clean_data rt (result_df recs) = Ok out ->
  missing_columns out = [] ->
  columns out = oecd_columns /\ Forall int_dated_row (rows out).
Proof.
  intros Hne Hall Hclean Hmiss.
  pose proof (clean_data_columns rt _ _ Hclean) as Hcols.
  destruct (prepare_result_df rt recs Hne) as [Hprep|Hbad].
  2:{ rewrite <- (missing_columns_columns _ _ Hcols) in Hbad. congruence. }
  rewrite Hprep in Hcols. split; [exact Hcols|].
  pose proof (clean_data_steps rt _ _ Hclean)
    as (d1 & d2 & d3 & d4 & H1 & H2 & H3 & H4 & H5).
  rewrite Hprep in H1.
  pose proof (clean_country_spec rt _ _ H1) as [C1 _].
  pose proof (clean_year_spec rt _ _ H2) as [C2 S2].
  change (columns (result_df recs)) with oecd_columns in C1.
  assert (P0 : forall j, series_position "Country" (result_df recs) = Ok j -> j = 0%nat)
    by (intros j Hj; inversion Hj; reflexivity).
  assert (P1 : forall j, series_position "Year" d1 = Ok j -> j = 1%nat).
  { intros j Hj. unfold series_position in Hj. rewrite C1 in Hj.
    inversion Hj; reflexivity. }
  assert (P2 : forall j, series_position "Emissions" d2 = Ok j -> j = 2%nat).
  { intros j Hj. unfold series_position in Hj. rewrite C2, C1 in Hj.
    inversion Hj; reflexivity. }
  assert (F1 : Forall int_dated_row (rows d1)).
  { apply (country_step_keeps rt _ _ _ H1); [|apply result_df_dated; assumption].
    intros j g r Hj. rewrite (P0 j Hj). apply int_dated_stable; discriminate. }
  assert (F2 : Forall int_dated_row (rows d2)).
  { destruct S2 as [[Hno _]|(j & Hj & S2)].
    { unfold has_column in Hno. rewrite C1 in Hno. discriminate. }
    rewrite (P1 j Hj) in S2. clear j Hj.
    destruct S2 as [[_ ->]|[_ S2]]; [exact F1|].
    rewrite Forall_forall in *.
    intros r' Hr'. apply S2 in Hr'. destruct Hr' as (r & y' & Hr & Hp & ->).
    destruct (F1 r Hr) as (label & y & Hl & Hy & Hc).
    pose proof (extract_year_range label y Hy) as Hrange.
    exists label, y. rewrite cell_at_map_at_other by discriminate.
    split; [exact Hl|]. split; [exact Hy|].
    rewrite cell_at_map_at_same, Hc. unfold parsed_year_cell.
    rewrite parse_int_cell. replace (0 <=? y) with true; [reflexivity|].
    symmetry. apply Z.leb_le. lia. }
  assert (F3 : Forall int_dated_row (rows d3)).
  { apply (emissions_step_keeps rt _ _ _ H3); [|exact F2].
    intros j g r Hj. rewrite (P2 j Hj). apply int_dated_stable; discriminate. }
  eapply tail_steps_keep; eassumption.
Qed.

(** When no label carries a year the Year column holds no value and is
    dropped with the blank columns. *)
Lemma prepare_undated (recs : list (string * string * spec_float)) :
  recs <> [] ->
  (forall rec, In rec recs -> _extract_year_from_time_period (period_of rec) = None) ->
  columns (prepare rt (result_df recs))
  = text_row ["Country"; "Emissions"; "Original_Time_Period"] \/
  columns (prepare rt (result_df recs)) = text_row ["Country"; "Original_Time_Period"].
Proof.
  intros Hne Hall.
  assert (Hrow : forall r, In r (rows (result_df recs)) ->
                   exists rec ycell, r = oecd_row rec ycell /\ is_null ycell = true).
  { intros r Hr. apply result_df_rows in Hr.
    destruct Hr as (rec & ycell & Hin & -> & Hy). rewrite (Hall rec Hin) in Hy. eauto. }
  assert (Hdrop : dropna_rows_all (result_df recs) = result_df recs).
  { unfold dropna_rows_all. rewrite filter_all; [reflexivity|].
    intros r Hr. destruct (Hrow r Hr) as (rec & ycell & -> & _). reflexivity. }
  unfold prepare. cbv zeta. rewrite Hdrop.
  destruct (rows (result_df recs)) as [|r0 rest] eqn:Hrows.
  { exfalso. pose proof (result_df_length recs) as Hl. rewrite Hrows in Hl.
    destruct recs; [congruence|discriminate]. }
  destruct (Hrow r0) as (rec0 & y0 & Hr0 & _); [left; reflexivity|].
  assert (M0 : existsb (fun r => notna (cell_at 0 r)) (r0 :: rest) = true)
    by (rewrite Hr0; reflexivity).
  assert (M3 : existsb (fun r => notna (cell_at 3 r)) (r0 :: rest) = true)
    by (rewrite Hr0; reflexivity).
  assert (M1 : existsb (fun r => notna (cell_at 1 r)) (r0 :: rest) = false).
  { destruct (existsb (fun r => notna (cell_at 1 r)) (r0 :: rest)) eqn:E; [|reflexivity].
    apply existsb_exists in E. destruct E as (r & Hr & Hna).
    destruct (Hrow r Hr) as (rec & ycell & -> & Hnull).
    unfold notna, cell_at, oecd_row in Hna. cbn [nth] in Hna.
    rewrite Hnull in Hna. discriminate. }
  assert (Hcols : columns (dropna_columns_all (result_df recs))
                  = select [true; false;
                            existsb (fun r => notna (cell_at 2 r)) (r0 :: rest);
                            true] oecd_columns).
  { unfold dropna_columns_all. rewrite Hrows.
    change (columns (result_df recs)) with oecd_columns.
    cbn [oecd_columns length seq map columns]. rewrite M0, M1, M3. reflexivity. }
  destruct (existsb (fun r => notna (cell_at 2 r)) (r0 :: rest)) eqn:M2;
    cbn [select oecd_columns] in Hcols.
  - left.
    assert (Hreq : all_required (dropna_columns_all (result_df recs)) = false).
    { unfold all_required, has_column. rewrite Hcols. reflexivity. }
    rewrite Hreq. unfold _map_columns. cbn [columns]. rewrite Hcols. reflexivity.
  - right.
    assert (Hreq : all_required (dropna_columns_all (result_df recs)) = false).
    { unfold all_required, has_column. rewrite Hcols. reflexivity. }
    rewrite Hreq. unfold _map_columns. cbn [columns]. rewrite Hcols. reflexivity.
Qed.

End AgencyDated.

(** X23. In an agency report every one of whose period labels carries a
    year, each row of the returned table has the year of its own period
    label, an integer between 1900 and 2030. *)
Theorem dated_labels_keep_years (rt : Runtime) (df out : DataFrame) (t : nat) :
  _is_wide_format_with_years df = false ->
  (2 <= length (oecd_indicators rt df))%nat ->
  time_row_of rt df = Some t ->
  processed_data_of rt df t <> [] ->
  (forall rec, In rec (processed_data_of rt df t) ->
               _extract_year_from_time_period (period_of rec) <> None) ->
  load_and_clean_data rt df = Ok out ->
  columns out = oecd_columns /\
  forall r, In r (rows out) ->
    exists label y,
      cell_at 3 r = CStr label /\
      _extract_year_from_time_period label = Some y /\
      cell_at 1 r = CInt y /\ 1900 <= y <= 2030.
Proof.
  intros Hw Hi Ht Hp Hall Hload.
  apply load_ok in Hload. destruct Hload as (Hclean & Hmiss & _).
  assert (Hstage : _handle_oecd_structure rt df = result_df (processed_data_of rt df t)).
  { unfold _handle_oecd_structure, handle_body. rewrite Hw.
    apply Nat.leb_le in Hi. rewrite Hi. cbn [try_except].
    apply parse_oecd_format_records; assumption. }
  rewrite Hstage in Hclean.
  destruct (dated_final rt _ out Hp Hall Hclean Hmiss) as [Hc HF].
  split; [exact Hc|]. rewrite Forall_forall in HF. intros r Hr.
  destruct (HF r Hr) as (label & y & Hl & Hy & Hcell).
  pose proof (extract_year_range label y Hy) as Hrange.
  exists label, y. auto.
Qed.

(** X24. An agency report none of whose period labels carries a year is
    rejected: its Year column holds no value, is dropped with the blank
    columns, and the run fails with the missing-columns error that names
    Year. *)
Theorem undated_labels_fail (rt : Runtime) (df : DataFrame) (t : nat) :
  _is_wide_format_with_years df = false ->
  (2 <= length (oecd_indicators rt df))%nat ->
  time_row_of rt df = Some t ->
  processed_data_of rt df t <> [] ->
  (forall rec, In rec (processed_data_of rt df t) ->
               _extract_year_from_time_period (period_of rec) = None) ->
  load_and_clean_data rt df
  = Raise (ProcessingError
             (ValueError_missing ["Year"]
                (text_row ["Country"; "Emissions"; "Original_Time_Period"]))) \/
  load_and_clean_data rt df
  = Raise (ProcessingError
             (ValueError_missing ["Year"; "Emissions"]
                (text_row ["Country"; "Original_Time_Period"]))).
Proof.
  intros Hw Hi Ht Hp Hall.
  assert (Hstage : _handle_oecd_structure rt df = result_df (processed_data_of rt df t)).
  { unfold _handle_oecd_structure, handle_body. rewrite Hw.
    apply Nat.leb_le in Hi. rewrite Hi. cbn [try_except].
    apply parse_oecd_format_records; assumption. }
  pose proof (schema_error_when_missing rt df) as Herr. cbv zeta in Herr.
  rewrite Hstage in Herr.
  destruct (prepare_undated rt _ Hp Hall) as [Hc|Hc].
  - left. rewrite Herr.
    + rewrite Hc.
      rewrite (missing_columns_columns
                 {| columns := text_row ["Country"; "Emissions"; "Original_Time_Period"];
                    rows := [] |} _ Hc).
      reflexivity.
    + apply single_canonical_counts. rewrite Hc. cbn. lia.
    + rewrite (missing_columns_columns
                 {| columns := text_row ["Country"; "Emissions"; "Original_Time_Period"];
                    rows := [] |} _ Hc).
      discriminate.
  - right. rewrite Herr.
    + rewrite Hc.
      rewrite (missing_columns_columns
                 {| columns := text_row ["Country"; "Original_Time_Period"];
                    rows := [] |} _ Hc).
      reflexivity.
    + apply single_canonical_counts. rewrite Hc. cbn. lia.
    + rewrite (missing_columns_columns
                 {| columns := text_row ["Country"; "Original_Time_Period"];
                    rows := [] |} _ Hc).
      discriminate.
Qed.

Lemma dated_labels_keep_years_witness :
  load_and_clean_data whole_runtime dated_sheet
  = Ok {| columns := oecd_columns;
          rows := [[CStr "Norway"; CInt 2021; CFloat (F64.of_Z 1); CStr "2021-Q1"];
                   [CStr "Norway"; CInt 2021; CFloat (F64.of_Z 2); CStr "2021-Q2"];
                   [CStr "Norway"; CInt 2021; CFloat (F64.of_Z 3); CStr "2021-Q3"];
                   [CStr "Norway"; CInt 2021; CFloat (F64.of_Z 4); CStr "2021-Q4"];
                   [CStr "Norway"; CInt 2022; CFloat (F64.of_Z 5); CStr "2022-Q1"]] |} /\
  exists label y,
    label = "2022-Q1"%string /\
    _extract_year_from_time_period label = Some y /\ CInt 2022 = CInt y.
Proof.
  split; [reflexivity|].
  assert (Hall : forall rec, In rec (processed_data_of whole_runtime dated_sheet 1) ->
                   _extract_year_from_time_period (period_of rec) <> None).
  { intros rec Hrec. vm_compute in Hrec.
    destruct Hrec as [<-|[<-|[<-|[<-|[<-|[]]]]]]; discriminate. }
  destruct (proj2 (dated_labels_keep_years whole_runtime dated_sheet
              {| columns := oecd_columns;
                 rows := [[CStr "Norway"; CInt 2021; CFloat (F64.of_Z 1); CStr "2021-Q1"];
                          [CStr "Norway"; CInt 2021; CFloat (F64.of_Z 2); CStr "2021-Q2"];
                          [CStr "Norway"; CInt 2021; CFloat (F64.of_Z 3); CStr "2021-Q3"];
                          [CStr "Norway"; CInt 2021; CFloat (F64.of_Z 4); CStr "2021-Q4"];
                          [CStr "Norway"; CInt 2022; CFloat (F64.of_Z 5); CStr "2022-Q1"]] |}
              1%nat eq_refl (Nat.le_refl 2) eq_refl ltac:(discriminate) Hall eq_refl)
              [CStr "Norway"; CInt 2022; CFloat (F64.of_Z 5); CStr "2022-Q1"]
              ltac:(simpl; auto 10))
    as (label & y & Hl & Hy & Hc & _).
  exists label, y. unfold cell_at in Hl, Hc. cbn [nth] in Hl, Hc.
  inversion Hl as [Hl']. rewrite <- Hl' in Hy. auto.
Defined.

Lemma undated_labels_fail_witness :
  load_and_clean_data whole_runtime undated_sheet
  = Raise (ProcessingError
             (ValueError_missing ["Year"]
                (text_row ["Country"; "Emissions"; "Original_Time_Period"]))).
Proof.
  assert (Hall : forall rec, In rec (processed_data_of whole_runtime undated_sheet 1) ->
                   _extract_year_from_time_period (period_of rec) = None).
  { intros rec Hrec. vm_compute in Hrec.
    destruct Hrec as [<-|[<-|[<-|[<-|[<-|[]]]]]]; reflexivity. }
  destruct (undated_labels_fail whole_runtime undated_sheet 1%nat
              eq_refl (Nat.le_refl 2) eq_refl ltac:(discriminate) Hall) as [H|H].
  - exact H.
  - vm_compute in H. discriminate H.
Defined.
